(** * Timepon metadata server: a shallow embedding of [mcp-server/index.js]

    The development follows the class [TimeponServer]: the ignore-pattern
    engine ([globToRegex], [parseIgnoreFile], [loadIgnorePatterns]), the
    binary/text classifier ([isBinary]), the summary extractor
    ([generateSummary]), the metadata index with its event handlers
    ([handleFileCreation], [refreshMetadata]), the query surface
    ([getRecentFiles] behind the tool dispatcher), the tree serializer
    ([buildFileTree], [formatTreeLevel], [formatYamlWithSpacing]) and the
    durable writer ([saveMetadata]).

    Conventions.  JavaScript strings and Node buffers hold bytes here: a
    [string] is the UTF-8 text of the JavaScript string, a buffer is a
    [list byte]; lengths and slices count bytes, which is what JavaScript
    counts on ASCII text.  Time stamps are integers, milliseconds since the epoch
    (what [new Date(iso)] yields for the ISO text the code stores).  Numbers
    that arrive as tool arguments are exact rationals. *)

From Stdlib Require Import String Ascii List ZArith QArith Lia Bool.
From Stdlib Require Import Permutation.
From Stdlib Require Strings.Byte.
From Stdlib Require Import DecimalString.
Import ListNotations.

Local Close Scope Q_scope.

Local Open Scope list_scope.
Local Open Scope string_scope.

(* ------------------------------------------------------------------ *)
(** ** JavaScript string primitives *)
(* ------------------------------------------------------------------ *)

Module JsString.

(** [s.startsWith(p)] *)
Definition startsWith (s p : string) : bool := String.prefix p s.

(** [s.slice(0, n)] for [n >= 0] *)
Definition sliceTo (n : nat) (s : string) : string := substring 0 n s.

(** [s.slice(n)] for [n >= 0] *)
Fixpoint sliceFrom (n : nat) (s : string) : string :=
  match n, s with
  | O, _ => s
  | S n', String _ s' => sliceFrom n' s'
  | S _, EmptyString => EmptyString
  end.

(** [s.slice(0, -1)] *)
Fixpoint dropLast (s : string) : string :=
  match s with
  | EmptyString => EmptyString
  | String c EmptyString => EmptyString
  | String c s' => String c (dropLast s')
  end.

Fixpoint lastChar (s : string) : option ascii :=
  match s with
  | EmptyString => None
  | String c EmptyString => Some c
  | String _ s' => lastChar s'
  end.

(** [s.endsWith(c)] for a one-character [c] *)
Definition endsWithChar (s : string) (c : ascii) : bool :=
  match lastChar s with
  | Some d => Ascii.eqb c d
  | None => false
  end.

(** White space as [trim] and the class [\s] see it, on ASCII: tab, line
    feed, vertical tab, form feed, carriage return and space.  White space
    outside ASCII (U+00A0, U+FEFF, ...) spans several bytes and is not
    recognised at this level. *)
Definition isSpace (c : ascii) : bool :=
  let n := nat_of_ascii c in
  ((9 <=? n) && (n <=? 13))%nat || (n =? 32)%nat.

Fixpoint trimStart (s : string) : string :=
  match s with
  | EmptyString => EmptyString
  | String c s' => if isSpace c then trimStart s' else s
  end.

(** [trimEnd]: a character is dropped when it and everything after it is
    white space. *)
Fixpoint trimEnd (s : string) : string :=
  match s with
  | EmptyString => EmptyString
  | String c s' =>
      match trimEnd s' with
      | EmptyString => if isSpace c then EmptyString else String c EmptyString
      | t => String c t
      end
  end.

Definition trim (s : string) : string := trimEnd (trimStart s).

(** Truthiness of a string: the empty string is the only falsy one. *)
Definition truthy (s : string) : bool :=
  match s with EmptyString => false | _ => true end.

(** [s.split(sep)] for a one-character separator: always at least one
    piece. *)
Fixpoint split (sep : ascii) (s : string) : list string :=
  match s with
  | EmptyString => [EmptyString]
  | String c s' =>
      if Ascii.eqb c sep then EmptyString :: split sep s'
      else match split sep s' with
           | [] => [String c EmptyString]
           | p :: ps => String c p :: ps
           end
  end.

(** [l.join(sep)] *)
Definition join (sep : string) (l : list string) : string := String.concat sep l.

(** [s.replace(/[set]/g, f)] where the replacement depends on the matched
    character only. *)
Fixpoint replaceEach (f : ascii -> option string) (s : string) : string :=
  match s with
  | EmptyString => EmptyString
  | String c s' =>
      match f c with
      | Some r => r ++ replaceEach f s'
      | None => String c (replaceEach f s')
      end
  end.

Definition lowerChar (c : ascii) : ascii :=
  let n := nat_of_ascii c in
  if ((65 <=? n) && (n <=? 90))%nat then ascii_of_nat (n + 32) else c.

(** [s.toLowerCase()] on ASCII letters. *)
Fixpoint toLowerCase (s : string) : string :=
  match s with
  | EmptyString => EmptyString
  | String c s' => String (lowerChar c) (toLowerCase s')
  end.

(** [l.includes(x)] on an array of strings. *)
Definition includes (l : list string) (x : string) : bool :=
  existsb (String.eqb x) l.

(** ["  ".repeat(n)] *)
Fixpoint repeatStr (s : string) (n : nat) : string :=
  match n with
  | O => EmptyString
  | S n' => s ++ repeatStr s n'
  end.

End JsString.

(* ------------------------------------------------------------------ *)
(** ** Node's [path] module (POSIX flavour) *)
(* ------------------------------------------------------------------ *)

Module NodePath.
Import JsString.

Definition sep : ascii := "/"%char.

Fixpoint dropTrailingSeps (s : string) : string :=
  match s with
  | EmptyString => EmptyString
  | String c s' =>
      match dropTrailingSeps s' with
      | EmptyString => if Ascii.eqb c sep then EmptyString else String c EmptyString
      | t => String c t
      end
  end.

(** [path.basename(p)]: the last component, trailing separators ignored. *)
Definition basename (p : string) : string :=
  last (split sep (dropTrailingSeps p)) EmptyString.

(** Index of the last ["."] of [s], scanning with the running index [i]. *)
Fixpoint lastDot (i : nat) (s : string) : option nat :=
  match s with
  | EmptyString => None
  | String c s' =>
      match lastDot (S i) s' with
      | Some j => Some j
      | None => if Ascii.eqb c "."%char then Some i else None
      end
  end.

(** [path.extname(p)]: from the last dot of the base name to its end; empty
    when there is no dot, when the only dot starts the name, or for [".."]. *)
Definition extname (p : string) : string :=
  let b := basename p in
  match lastDot 0 b with
  | None => EmptyString
  | Some O => EmptyString
  | Some (S k) => if String.eqb b ".." then EmptyString else sliceFrom (S k) b
  end.

(** [path.relative(root, p)] for a path at or beneath [root], the only
    paths the watcher reports; any other path is returned as it is (Node
    would answer with a [..] form, which is not computed here). *)
Definition relative (root p : string) : string :=
  if String.eqb p root then EmptyString
  else if startsWith p (root ++ String sep EmptyString)
       then sliceFrom (S (String.length root)) p
       else p.

End NodePath.

(* ------------------------------------------------------------------ *)
(** ** Regular expressions: the fragment of [RegExp] the server uses *)
(* ------------------------------------------------------------------ *)

Module Regex.
Import JsString.

(** Members of a character class. *)
Inductive citem : Type :=
  | IChar (c : ascii)
  | ISpace.                       (* the escape \s *)

(** One-character matchers. *)
Inductive cset : Type :=
  | CAny                          (* the dot: anything but a line break *)
  | CLit (c : ascii)
  | CClass (items : list citem).

Inductive regex : Type :=
  | REmpty
  | RSet (cs : cset)
  | RBol                          (* ^ *)
  | REol                          (* $ *)
  | RSeq (r1 r2 : regex)
  | RAlt (r1 r2 : regex)
  | RStar (cs : cset)             (* greedy, over a one-character matcher *)
  | RPlus (cs : cset).

Definition citem_mem (c : ascii) (i : citem) : bool :=
  match i with
  | IChar d => Ascii.eqb c d
  | ISpace => isSpace c
  end.

Definition cset_mem (cs : cset) (c : ascii) : bool :=
  match cs with
  | CAny => negb (Ascii.eqb c "010"%char || Ascii.eqb c "013"%char)
  | CLit d => Ascii.eqb c d
  | CClass items => existsb (citem_mem c) items
  end.

(** Greedy iteration with backtracking: take one more character when
    possible, fall back to the continuation otherwise. *)
Fixpoint starK (cs : cset) (s : string) (k : string -> option string)
  : option string :=
  match s with
  | EmptyString => k EmptyString
  | String c s' =>
      if cset_mem cs c then
        match starK cs s' k with
        | Some r => Some r
        | None => k s
        end
      else k s
  end.

(** Backtracking matcher at one position.  [bol] tells whether the
    position is the start of the input; the continuation receives the
    same information for the position after the match.  The result is
    the text left after the whole match. *)
Fixpoint matchK (r : regex) (bol : bool) (s : string)
         (k : bool -> string -> option string) : option string :=
  match r with
  | REmpty => k bol s
  | RSet cs =>
      match s with
      | String c s' => if cset_mem cs c then k false s' else None
      | EmptyString => None
      end
  | RBol => if bol then k bol s else None
  | REol => match s with EmptyString => k bol s | _ => None end
  | RSeq r1 r2 => matchK r1 bol s (fun b s' => matchK r2 b s' k)
  | RAlt r1 r2 =>
      match matchK r1 bol s k with
      | Some x => Some x
      | None => matchK r2 bol s k
      end
  | RStar cs =>
      starK cs s (fun s' =>
        k (bol && Nat.eqb (String.length s') (String.length s)) s')
  | RPlus cs =>
      match s with
      | String c s' =>
          if cset_mem cs c then starK cs s' (fun s'' => k false s'') else None
      | EmptyString => None
      end
  end.

Definition matchAt (r : regex) (bol : bool) (s : string) : option string :=
  matchK r bol s (fun _ rest => Some rest).

(** Leftmost match, scanning the start position from left to right. *)
Fixpoint searchFrom (r : regex) (bol : bool) (s : string) : bool :=
  match matchAt r bol s with
  | Some _ => true
  | None =>
      match s with
      | EmptyString => false
      | String _ s' => searchFrom r false s'
      end
  end.

(** [re.test(s)] without flags. *)
Definition test (r : regex) (s : string) : bool := searchFrom r true s.

(** [s.replace(re, "")] without the [g] flag: the leftmost match is cut
    out. *)
Fixpoint cutFrom (r : regex) (bol : bool) (s : string) : string :=
  match matchAt r bol s with
  | Some rest => rest
  | None =>
      match s with
      | EmptyString => EmptyString
      | String c s' => String c (cutFrom r false s')
      end
  end.

Definition replaceFirstEmpty (r : regex) (s : string) : string :=
  cutFrom r true s.

(** *** Parsing a pattern source ([new RegExp(source)]) *)

Definition isAlnum (c : ascii) : bool :=
  let n := nat_of_ascii c in
  (((48 <=? n) && (n <=? 57)) || ((65 <=? n) && (n <=? 90))
   || ((97 <=? n) && (n <=? 122)))%nat.

(** Body of a character class, after the opening bracket.  Ranges and
    letter escapes other than [\s] are outside the fragment. *)
Fixpoint parseClass (s : string) : option (list citem * string) :=
  match s with
  | EmptyString => None
  | String c s' =>
      if Ascii.eqb c "]"%char then Some ([], s')
      else if Ascii.eqb c "-"%char then None
      else if Ascii.eqb c "\"%char then
        match s' with
        | EmptyString => None
        | String e s'' =>
            match parseClass s'' with
            | None => None
            | Some (items, rest) =>
                if Ascii.eqb e "s"%char then Some (ISpace :: items, rest)
                else if isAlnum e then None
                else Some (IChar e :: items, rest)
            end
        end
      else
        match parseClass s' with
        | None => None
        | Some (items, rest) => Some (IChar c :: items, rest)
        end
  end.

(** A quantifier, if one follows a one-character atom. *)
Definition quantified (cs : cset) (s : string) : regex * string :=
  match s with
  | String q s' =>
      if Ascii.eqb q "*"%char then (RStar cs, s')
      else if Ascii.eqb q "+"%char then (RPlus cs, s')
      else (RSet cs, s)
  | EmptyString => (RSet cs, s)
  end.

Definition startsQuantifier (s : string) : bool :=
  match s with
  | String q _ =>
      Ascii.eqb q "*"%char || Ascii.eqb q "+"%char || Ascii.eqb q "?"%char
      || Ascii.eqb q "{"%char
  | EmptyString => false
  end.

(** Disjunctions and alternatives, by recursive descent on a fuel bound.
    [None] stands for a [SyntaxError] or a construct outside the
    fragment. *)
Fixpoint parseDisj (fuel : nat) (s : string) : option (regex * string) :=
  match fuel with
  | O => None
  | S f =>
      match parseSeq f s with
      | Some (r, String c s') =>
          if Ascii.eqb c "|"%char then
            match parseDisj f s' with
            | Some (r2, rest) => Some (RAlt r r2, rest)
            | None => None
            end
          else Some (r, String c s')
      | other => other
      end
  end
with parseSeq (fuel : nat) (s : string) : option (regex * string) :=
  match fuel with
  | O => None
  | S f =>
      match s with
      | EmptyString => Some (REmpty, EmptyString)
      | String c s' =>
          let continue (t : regex) (rest : string) :=
            match parseSeq f rest with
            | Some (r, rest') => Some (RSeq t r, rest')
            | None => None
            end in
          if Ascii.eqb c "|"%char || Ascii.eqb c ")"%char then Some (REmpty, s)
          else if Ascii.eqb c "^"%char then continue RBol s'
          else if Ascii.eqb c "$"%char then continue REol s'
          else if Ascii.eqb c "("%char then
            match parseDisj f s' with
            | Some (g, String d rest) =>
                if Ascii.eqb d ")"%char && negb (startsQuantifier rest)
                then continue g rest else None
            | _ => None
            end
          else if Ascii.eqb c "["%char then
            match parseClass s' with
            | Some (items, rest) =>
                let '(t, rest') := quantified (CClass items) rest in
                continue t rest'
            | None => None
            end
          else if Ascii.eqb c "\"%char then
            match s' with
            | EmptyString => None
            | String e rest =>
                if Ascii.eqb e "s"%char then
                  let '(t, rest') := quantified (CClass [ISpace]) rest in
                  continue t rest'
                else if isAlnum e then None
                else
                  let '(t, rest') := quantified (CLit e) rest in
                  continue t rest'
            end
          else if Ascii.eqb c "."%char then
            let '(t, rest') := quantified CAny s' in continue t rest'
          else if startsQuantifier s then None
          else if Ascii.eqb c "]"%char || Ascii.eqb c "}"%char then None
          else
            let '(t, rest') := quantified (CLit c) s' in continue t rest'
      end
  end.

(** [new RegExp(source)] *)
Definition RegExp (source : string) : option regex :=
  match parseDisj (2 * String.length source + 2) source with
  | Some (r, EmptyString) => Some r
  | _ => None
  end.

End Regex.

(** A regular-expression literal of the source text.  Both literals and
    every pattern built by [globToRegex] parse; the fallback matches
    nothing. *)
Definition regexLiteral (source : string) : Regex.regex :=
  match Regex.RegExp source with
  | Some r => r
  | None => Regex.RSet (Regex.CClass [])
  end.

(* ------------------------------------------------------------------ *)
(** ** Ignore-pattern engine *)
(* ------------------------------------------------------------------ *)

Module Ignore.
Import JsString Regex.

(** The characters of [/[.+^${}()|[\]\\]/g]. *)
Definition regexSpecials : list ascii :=
  ["."; "+"; "^"; "$"; "{"; "}"; "("; ")"; "|"; "["; "]"; "\"]%char.

Definition escapeSpecial (c : ascii) : option string :=
  if existsb (Ascii.eqb c) regexSpecials
  then Some (String "\"%char (String c EmptyString))
  else None.

Definition starToAny (c : ascii) : option string :=
  if Ascii.eqb c "*"%char then Some ".*" else None.

Definition questionToDot (c : ascii) : option string :=
  if Ascii.eqb c "?"%char then Some "." else None.

(** The pattern source that [globToRegex] hands to [new RegExp]. *)
Definition globToRegexSource (pattern0 : string) : string :=
  let isDirectoryOnly := endsWithChar pattern0 "/"%char in
  let pattern := if isDirectoryOnly then dropLast pattern0 else pattern0 in
  let regexPattern :=
    replaceEach questionToDot
      (replaceEach starToAny (replaceEach escapeSpecial pattern)) in
  let regexPattern :=
    if negb (startsWith pattern "/")
    then "(^|[/\\])" ++ regexPattern
    else "^" ++ sliceFrom 1 regexPattern in
  if isDirectoryOnly then regexPattern ++ "([/\\]|$)" else regexPattern.

Definition globToRegex (pattern : string) : option regex :=
  RegExp (globToRegexSource pattern).

(** [lines.map(globToRegex)], where one failing construction aborts the
    whole map. *)
Fixpoint compileAll (patterns : list string) : option (list regex) :=
  match patterns with
  | [] => Some []
  | p :: ps =>
      match globToRegex p, compileAll ps with
      | Some r, Some rs => Some (r :: rs)
      | _, _ => None
      end
  end.

Definition isPatternLine (line : string) : bool :=
  truthy line && negb (startsWith line "#").

(** [parseIgnoreFile]: the argument is what [fs.readFile] delivers, [None]
    when the file is missing or unreadable.  Every exception inside the
    [try] block yields the empty list. *)
Definition parseIgnoreFile (file : option string) : list regex :=
  match file with
  | None => []
  | Some content =>
      match compileAll
              (filter isPatternLine (map trim (split "010"%char content))) with
      | Some rs => rs
      | None => []
      end
  end.

(** The literals pushed under "Always ignore these". *)
Definition builtinPatterns : list regex :=
  [ regexLiteral "(^|[\/\\])_timepon\.yaml";
    regexLiteral "(^|[\/\\])_timepon\.yaml\.backup\." ].

(** [loadIgnorePatterns], from the contents of [.tponignore] and
    [.gitignore]. *)
Definition loadIgnorePatterns (tponignore gitignore : option string)
  : list regex :=
  let patterns := [] in
  let patterns := (patterns ++ parseIgnoreFile tponignore)%list in
  let patterns := (patterns ++ parseIgnoreFile gitignore)%list in
  (patterns ++ builtinPatterns)%list.

(** The watcher's [ignored] option with an array of regular
    expressions: a path is ignored when any of them matches. *)
Definition isIgnored (patterns : list regex) (path : string) : bool :=
  existsb (fun r => test r path) patterns.

(** The predicate compiled from one glob line. *)
Definition globMatches (globLine path : string) : bool :=
  match globToRegex globLine with
  | Some r => test r path
  | None => false
  end.

End Ignore.

(* ------------------------------------------------------------------ *)
(** ** Binary/text classifier *)
(* ------------------------------------------------------------------ *)

Module Classifier.
Import JsString NodePath.
Import Corelib.Init.Byte.

Definition MAX_FILE_SIZE : Z := 1024 * 1024.
Definition BINARY_DETECTION_SAMPLE : nat := 512.

Definition knownTextExts : list string :=
  [".txt"; ".md"; ".json"; ".js"; ".ts"; ".py"; ".java";
   ".cs"; ".go"; ".rb"; ".php"; ".html"; ".css"; ".xml";
   ".yaml"; ".yml"; ".toml"; ".ini"; ".sh"; ".bat"; ".ps1"].

Definition knownBinaryExts : list string :=
  [".exe"; ".dll"; ".so"; ".dylib"; ".bin"; ".dat";
   ".zip"; ".tar"; ".gz"; ".7z"; ".rar"; ".jpg"; ".jpeg";
   ".png"; ".gif"; ".bmp"; ".pdf"; ".doc"; ".docx"; ".xls"].

(** [buffer[i] === b] *)
Definition byteIs (buffer : list byte) (i : nat) (b : byte) : bool :=
  match nth_error buffer i with
  | Some x => Stdlib.Strings.Byte.eqb x b
  | None => false
  end.

Definition magicBytes (buffer : list byte) : bool :=
  (4 <=? length buffer)%nat &&
  ( (* ZIP/JAR/DOCX *)
    (byteIs buffer 0 x50 && byteIs buffer 1 x4b)
    (* PNG *)
    || (byteIs buffer 0 x89 && byteIs buffer 1 x50
        && byteIs buffer 2 x4e && byteIs buffer 3 x47)
    (* GIF *)
    || (byteIs buffer 0 x47 && byteIs buffer 1 x49 && byteIs buffer 2 x46)
    (* JPEG *)
    || (byteIs buffer 0 xff && byteIs buffer 1 xd8)
    (* PDF *)
    || (byteIs buffer 0 x25 && byteIs buffer 1 x50
        && byteIs buffer 2 x44 && byteIs buffer 3 x46) ).

Definition isNonPrintable (b : byte) : bool :=
  let n := Stdlib.Strings.Byte.to_N b in
  ((n <? 32) && negb (n =? 9) && negb (n =? 10) && negb (n =? 13))%N.

(** The counting loop over the first [sampleSize] bytes. *)
Definition countNonPrintable (sampleSize : nat) (buffer : list byte) : nat :=
  length (filter isNonPrintable (firstn sampleSize buffer)).

(** [isBinary(buffer, filePath)].  The final comparison
    [nonPrintable / sampleSize > 0.3] is taken over the rationals. *)
Definition isBinary (buffer : list byte) (filePath : string) : bool :=
  let ext := toLowerCase (extname filePath) in
  if includes knownTextExts ext then false
  else if includes knownBinaryExts ext then true
  else if magicBytes buffer then true
  else
    let sampleSize := Nat.min (length buffer) BINARY_DETECTION_SAMPLE in
    if (sampleSize =? 0)%nat then false
    else (3 * sampleSize <? 10 * countNonPrintable sampleSize buffer)%nat.

End Classifier.

(* ------------------------------------------------------------------ *)
(** ** Summary and tag extraction *)
(* ------------------------------------------------------------------ *)

Module Extractor.
Import JsString NodePath Regex.

Definition nonBlank (l : string) : bool := truthy (trim l).

(** [x?.slice(0, 80) || fallback] *)
Definition sliceOr (x : option string) (fallback : string) : string :=
  match x with
  | Some l => if truthy (sliceTo 80 l) then sliceTo 80 l else fallback
  | None => fallback
  end.

Definition codeSummaryExts : list string :=
  [".js"; ".ts"; ".py"; ".java"; ".cs"; ".go"].

Definition isCommentLine (l : string) : bool :=
  startsWith (trim l) "//" || startsWith (trim l) "#".

Definition generateSummary (content filePath : string) : string :=
  let ext := extname filePath in
  if negb (truthy content) then ext ++ " file"
  else if String.eqb ext ".md" then
    let lines := filter nonBlank (split "010"%char content) in
    match find (fun l => startsWith l "#") lines with
    | Some heading =>
        sliceTo 80 (replaceFirstEmpty (regexLiteral "^#+\s*") heading)
    | None => sliceOr (nth_error lines 0) "Empty markdown file"
    end
  else if includes codeSummaryExts ext then
    let lines := filter nonBlank (split "010"%char content) in
    match find isCommentLine lines with
    | Some comment =>
        sliceTo 80 (replaceFirstEmpty (regexLiteral "^[\/\/#]+\s*") comment)
    | None => sliceFrom 1 ext ++ " source file"
    end
  else
    let firstLine := find nonBlank (split "010"%char content) in
    sliceOr firstLine (basename filePath).

(** [s.includes(sub)] on strings. *)
Fixpoint strIncludes (s sub : string) : bool :=
  String.prefix sub s ||
  match s with
  | EmptyString => false
  | String _ s' => strIncludes s' sub
  end.

Definition codeExts : list string :=
  ["js"; "ts"; "py"; "java"; "cs"; "go"; "rb"; "php"; "cpp"; "c"; "rs"].
Definition docExts : list string := ["md"; "txt"; "rst"; "adoc"].
Definition configExts : list string :=
  ["json"; "yaml"; "yml"; "toml"; "ini"; "env"].

Definition pushIf (b : bool) (t : string) (tags : list string) : list string :=
  if b then (tags ++ [t])%list else tags.

Definition generateTags (content filePath : string) : list string :=
  let tags := [] in
  let ext := sliceFrom 1 (extname filePath) in
  let tags := pushIf (truthy ext) ext tags in
  let tags :=
    if includes codeExts ext then (tags ++ ["code"])%list
    else if includes docExts ext then (tags ++ ["docs"])%list
    else if includes configExts ext then (tags ++ ["config"])%list
    else tags in
  let tags :=
    if String.eqb ext "md" && truthy content then
      let lower := toLowerCase content in
      let tags := pushIf (strIncludes lower "todo" || strIncludes lower "task")
                         "tasks" tags in
      let tags := pushIf (strIncludes lower "api" || strIncludes lower "endpoint")
                         "api" tags in
      let tags := pushIf (strIncludes lower "schema" || strIncludes lower "database")
                         "data" tags in
      pushIf (strIncludes lower "architecture" || strIncludes lower "design")
             "architecture" tags
    else tags in
  firstn 3 tags.

End Extractor.

(* ------------------------------------------------------------------ *)
(** ** Dates: [Date], [toISOString] and the en-GB locale formats *)
(* ------------------------------------------------------------------ *)

Module JsDate.
Import JsString.
Local Open Scope Z_scope.

Definition showZ (z : Z) : string := NilZero.string_of_int (Z.to_int z).

Definition pad2 (z : Z) : string :=
  if (0 <=? z) && (z <? 10) then "0" ++ showZ z else showZ z.

Definition pad3 (z : Z) : string :=
  if (0 <=? z) && (z <? 10) then "00" ++ showZ z
  else if (0 <=? z) && (z <? 100) then "0" ++ showZ z else showZ z.

Definition pad4 (z : Z) : string :=
  if (0 <=? z) && (z <? 1000) then "0" ++ pad3 z else showZ z.

(** Calendar fields of an instant shifted to wall-clock milliseconds. *)
Record Civil : Type := mkCivil
  { year : Z; month : Z; day : Z; weekday : Z;
    hour : Z; minute : Z; second : Z; millis : Z }.

(** Gregorian date of a day count since 1970-01-01. *)
Definition civilFromDays (days : Z) : Z * Z * Z :=
  let z := days + 719468 in
  let era := z / 146097 in
  let doe := z - era * 146097 in
  let yoe := (doe - doe / 1460 + doe / 36524 - doe / 146096) / 365 in
  let doy := doe - (365 * yoe + yoe / 4 - yoe / 100) in
  let mp := (5 * doy + 2) / 153 in
  let d := doy - (153 * mp + 2) / 5 + 1 in
  let m := if mp <? 10 then mp + 3 else mp - 9 in
  let y := yoe + era * 400 + (if m <=? 2 then 1 else 0) in
  (y, m, d).

Definition civil (wallMs : Z) : Civil :=
  let days := wallMs / 86400000 in
  let msOfDay := wallMs mod 86400000 in
  let '(y, m, d) := civilFromDays days in
  {| year := y; month := m; day := d;
     weekday := (days + 4) mod 7;
     hour := msOfDay / 3600000;
     minute := (msOfDay / 60000) mod 60;
     second := (msOfDay / 1000) mod 60;
     millis := msOfDay mod 1000 |}.

(** Wall-clock milliseconds in the process time zone. *)
Definition wallClock (tzOffsetMinutes t : Z) : Z := t + tzOffsetMinutes * 60000.

Definition weekdayLong (w : Z) : string :=
  nth (Z.to_nat w)
      ["Sunday"; "Monday"; "Tuesday"; "Wednesday"; "Thursday"; "Friday";
       "Saturday"] "".

Definition monthLong (m : Z) : string :=
  nth (Z.to_nat (m - 1))
      ["January"; "February"; "March"; "April"; "May"; "June"; "July";
       "August"; "September"; "October"; "November"; "December"] "".

Definition monthShort (m : Z) : string :=
  nth (Z.to_nat (m - 1))
      ["Jan"; "Feb"; "Mar"; "Apr"; "May"; "Jun"; "Jul";
       "Aug"; "Sept"; "Oct"; "Nov"; "Dec"] "".

(** [toLocaleDateString('en-GB', {weekday: 'long', year: 'numeric',
    month: 'long', day: 'numeric'})]: the weekday, a comma, then day,
    month and year. *)
Definition localeDateLong (tz t : Z) : string :=
  let c := civil (wallClock tz t) in
  weekdayLong (weekday c) ++ ", " ++ showZ (day c) ++ " "
  ++ monthLong (month c) ++ " " ++ showZ (year c).

(** [toLocaleTimeString('en-GB', {hour: '2-digit', minute: '2-digit',
    second: '2-digit'})] *)
Definition localeTimeSeconds (tz t : Z) : string :=
  let c := civil (wallClock tz t) in
  pad2 (hour c) ++ ":" ++ pad2 (minute c) ++ ":" ++ pad2 (second c).

(** [toLocaleDateString('en-GB', {day: '2-digit', month: 'short',
    year: 'numeric'})] *)
Definition localeDateShort (tz t : Z) : string :=
  let c := civil (wallClock tz t) in
  pad2 (day c) ++ " " ++ monthShort (month c) ++ " " ++ showZ (year c).

(** [toLocaleTimeString('en-GB', {hour: '2-digit', minute: '2-digit'})] *)
Definition localeTimeMinutes (tz t : Z) : string :=
  let c := civil (wallClock tz t) in
  pad2 (hour c) ++ ":" ++ pad2 (minute c).

(** [toISOString()], for years 0 to 9999. *)
Definition toISOString (t : Z) : string :=
  let c := civil t in
  pad4 (year c) ++ "-" ++ pad2 (month c) ++ "-" ++ pad2 (day c) ++ "T"
  ++ pad2 (hour c) ++ ":" ++ pad2 (minute c) ++ ":" ++ pad2 (second c)
  ++ "." ++ pad3 (millis c) ++ "Z".

End JsDate.

(* ------------------------------------------------------------------ *)
(** ** JavaScript objects used as maps, and stable sorting *)
(* ------------------------------------------------------------------ *)

Module JsObject.
Import JsString.

Section Entries.
Context {V : Type}.

(** An object is the list of its own entries in [Object.entries] order. *)
Definition obj : Type := list (string * V).

(** [o[k]] on own properties. *)
Fixpoint get (k : string) (o : obj) : option V :=
  match o with
  | [] => None
  | (k', v) :: o' => if String.eqb k k' then Some v else get k o'
  end.

Definition keys (o : obj) : list string := map fst o.

Definition isDigit (c : ascii) : bool :=
  let n := nat_of_ascii c in ((48 <=? n) && (n <=? 57))%nat.

Fixpoint digitsValue (acc : N) (s : string) : option N :=
  match s with
  | EmptyString => Some acc
  | String c s' =>
      if isDigit c
      then digitsValue (10 * acc + N.of_nat (nat_of_ascii c - 48))%N s'
      else None
  end.

(** Array-index keys (canonical decimal numerals below 2^32 - 1) are
    enumerated first, in increasing order. *)
Definition indexKey (k : string) : option N :=
  match k with
  | EmptyString => None
  | String c rest =>
      if Ascii.eqb c "0"%char && truthy rest then None
      else if (10 <? String.length k)%nat then None
      else match digitsValue 0%N k with
           | Some n => if (n <? 4294967295)%N then Some n else None
           | None => None
           end
  end.

(** Position of a fresh index key [n]: before the first entry that is
    not an index key or is a larger one. *)
Fixpoint placeIndex (n : N) (k : string) (v : V) (o : obj) : obj :=
  match o with
  | [] => [(k, v)]
  | (k', v') :: o' =>
      match indexKey k' with
      | Some m => if (m <? n)%N then (k', v') :: placeIndex n k v o'
                  else (k, v) :: o
      | None => (k, v) :: o
      end
  end.

Fixpoint replace (k : string) (v : V) (o : obj) : obj :=
  match o with
  | [] => []
  | (k', v') :: o' =>
      if String.eqb k k' then (k', v) :: o' else (k', v') :: replace k v o'
  end.

(** [o[k] = v]: an existing key keeps its place; a new one is appended,
    or placed among the index keys. *)
Definition set (k : string) (v : V) (o : obj) : obj :=
  match get k o with
  | Some _ => replace k v o
  | None =>
      match indexKey k with
      | Some n => placeIndex n k v o
      | None => (o ++ [(k, v)])%list
      end
  end.

End Entries.
Arguments obj V : clear implicits.

Section Sort.
Context {A : Type} (cmp : A -> A -> Z).

(** [Array.prototype.sort(cmp)]: stable; [cmp a b <= 0] keeps [a] before
    [b]. *)
Fixpoint insertSorted (x : A) (l : list A) : list A :=
  match l with
  | [] => [x]
  | y :: l' => if (cmp x y <=? 0)%Z then x :: l else y :: insertSorted x l'
  end.

Definition sort (l : list A) : list A := fold_right insertSorted [] l.

End Sort.

End JsObject.

(* ------------------------------------------------------------------ *)
(** ** The server: data model and environment *)
(* ------------------------------------------------------------------ *)

Module Timepon.
Import JsString NodePath JsDate JsObject.
Import Corelib.Init.Byte.
Local Open Scope Z_scope.

Definition SAVE_RETRY_MAX : Z := 3.
Definition SAVE_RETRY_BASE_DELAY : Z := 1000.
Definition BATCH_SIZE : nat := 10.

(** One entry of [this.metadata.files].  [created] is the instant behind
    the ISO text the code stores; [stale] and [staleReason] are the
    optional fields a failed refresh adds. *)
Record FileRecord : Type := mkFileRecord
  { created : Z;
    summary : string;
    tags : list string;
    stale : bool;
    staleReason : option string }.

Record Stats : Type := mkStats { birthtime : Z; size : Z }.

(** What one handler run observes of its surroundings: the clock, the
    time zone and collation of the process, the file system, and whether
    the write of the metadata document succeeds. *)
Record World : Type := mkWorld
  { now : Z;
    tzOffsetMinutes : Z;
    localeCompare : string -> string -> Z;
    stat : string -> option Stats;
    readFile : string -> option (list byte);
    writeFileOk : bool }.

(** Observable effects, in program order: file writes, timers and log
    lines.  Log lines that only announce another effect or the start of
    an operation are left out.  The content of a write is [None] when
    the index holds a path whose tree is outside the embedded fragment
    (see [reserved]). *)
Inductive Effect : Type :=
  | WriteFile (content : option string)
  | LogSaveError (attempt : Z)
  | SetTimeout (delayMs : Z)
  | LogDataLoss
  | LogTracked (path : string)
  | LogCreationError (path : string)
  | LogRefreshFailed (path : string).

Record Server : Type := mkServer
  { workspaceRoot : string;
    files : obj FileRecord;
    isInitializing : bool;
    saveRetryCount : Z;
    timers : list Z;              (* pending retry timers, by delay *)
    effects : list Effect }.

Definition withFiles (f : obj FileRecord) (st : Server) : Server :=
  {| workspaceRoot := workspaceRoot st; files := f;
     isInitializing := isInitializing st;
     saveRetryCount := saveRetryCount st; timers := timers st;
     effects := effects st |}.

Definition emit (e : list Effect) (st : Server) : Server :=
  {| workspaceRoot := workspaceRoot st; files := files st;
     isInitializing := isInitializing st;
     saveRetryCount := saveRetryCount st; timers := timers st;
     effects := (effects st ++ e)%list |}.

Definition withRetry (count : Z) (t : list Z) (st : Server) : Server :=
  {| workspaceRoot := workspaceRoot st; files := files st;
     isInitializing := isInitializing st;
     saveRetryCount := count; timers := t;
     effects := effects st |}.

(** Newest first: [new Date(b.created) - new Date(a.created)]. *)
Definition byCreatedDesc {K : Type} (a b : K * FileRecord) : Z :=
  created (snd b) - created (snd a).

(* ------------------------------------------------------------------ *)
(** ** Tree serializer *)
(* ------------------------------------------------------------------ *)

(** The three fields of a leaf object. *)
Record Leaf : Type := mkLeaf
  { leafCreated : Z; leafSummary : string; leafTags : list string }.

(** A node of [tree.files]: an object that carries the leaf fields when
    it was stored as a file, and the entries hung under it. *)
#[warnings="-register-all"]
Inductive node : Type :=
  | Node (meta : option Leaf) (kids : list (string * node)).

Definition nodeMeta (n : node) : option Leaf :=
  match n with Node m _ => m end.
Definition nodeKids (n : node) : list (string * node) :=
  match n with Node _ ks => ks end.

(** The members every tree object inherits from [Object.prototype].
    [current[part]] with such a name reads the inherited member instead
    of an entry of the tree, and the walk leaves the tree. *)
Definition prototypeKeys : list string :=
  ["constructor"; "__proto__"; "hasOwnProperty"; "isPrototypeOf";
   "propertyIsEnumerable"; "toLocaleString"; "toString"; "valueOf";
   "__defineGetter__"; "__defineSetter__"; "__lookupGetter__";
   "__lookupSetter__"].

(** The fields of a leaf object. *)
Definition leafKeys : list string := ["created"; "summary"; "tags"].

(** Segment names that are outside the embedded fragment, by the object
    [current] they are looked up in:
    - an inherited member, in every object;
    - [created], in every object but [tree.files] itself: an object
      with a [created] property is taken for a file by
      [formatTreeLevel], whatever it holds; its date is not one, and the
      comparator of the file sort yields [NaN] on it, where the order
      [Array.prototype.sort] returns is left to the engine;
    - [summary] and [tags], in an object that was stored as a leaf,
      where they name the fields of the record and not an entry.
    Elsewhere the three field names are segments like any other. *)
Definition reserved (inRoot leafObj : bool) (part : string) : bool :=
  includes prototypeKeys part
  || (negb inRoot && String.eqb part "created")
  || (leafObj && includes leafKeys part).

Definition isLeafObj (m : option Leaf) : bool :=
  match m with Some _ => true | None => false end.

(** The inner loop of [buildFileTree] for one file: walk [parts] from
    [current], creating directory objects on the way, and store the leaf
    under the last part.  [inRoot] tells that [current] is [tree.files],
    [leafObj] that it was stored as a leaf. *)
Fixpoint insertPath (inRoot leafObj : bool) (parts : list string)
         (leaf : Leaf) (current : list (string * node))
  : option (list (string * node)) :=
  match parts with
  | [] => Some current
  | part :: rest =>
      if reserved inRoot leafObj part then None
      else
        match rest with
        | [] => Some (set part (Node (Some leaf) []) current)
        | _ :: _ =>
            match get part current with
            | None =>
                match insertPath false false rest leaf [] with
                | Some sub => Some (set part (Node None sub) current)
                | None => None
                end
            | Some (Node m ks) =>
                match insertPath false (isLeafObj m) rest leaf ks with
                | Some sub => Some (set part (Node m sub) current)
                | None => None
                end
            end
        end
  end.

Definition leafOf (r : FileRecord) : Leaf :=
  {| leafCreated := created r; leafSummary := summary r; leafTags := tags r |}.

(** [relativePath.split(path.sep)] *)
Definition pathParts (root filePath : string) : list string :=
  split sep (relative root filePath).

Fixpoint insertAll (root : string) (entries : list (string * FileRecord))
         (current : list (string * node)) : option (list (string * node)) :=
  match entries with
  | [] => Some current
  | (filePath, metadata) :: rest =>
      match insertPath true false (pathParts root filePath) (leafOf metadata)
              current with
      | Some current' => insertAll root rest current'
      | None => None
      end
  end.

Record Tree : Type := mkTree
  { treeWorkspace : string;
    treeLastUpdated : string;
    treeTotalFiles : nat;
    treeFiles : list (string * node) }.

Definition buildFileTree (w : World) (root : string) (filesObj : obj FileRecord)
  : option Tree :=
  let sortedEntries := sort byCreatedDesc filesObj in
  match insertAll root sortedEntries [] with
  | Some t =>
      Some {| treeWorkspace := root;
              treeLastUpdated := toISOString (now w);
              treeTotalFiles := length (keys filesObj);
              treeFiles := t |}
  | None => None
  end.

(** [getFileIcon]: the glyphs of the icon table are written here as one
    ASCII token per distinct glyph. *)
Definition getFileIcon (filename : string) : string :=
  let ext := toLowerCase (extname filename) in
  match get ext
          [(".md", "[page]"); (".txt", "[memo]"); (".js", "[bolt]");
           (".ts", "[diamond]"); (".py", "[snake]"); (".json", "[clipboard]");
           (".yaml", "[gear]"); (".yml", "[gear]"); (".html", "[globe]");
           (".css", "[palette]"); (".sh", "[wrench]"); (".ps1", "[wrench]");
           (".bat", "[wrench]")] with
  | Some icon => icon
  | None => "[page]"
  end.

Definition folderIcon : string := "[folder]".
Definition homeIcon : string := "[home]".

(** [getRelativeTime] *)
Definition getRelativeTime (w : World) (isoDate : Z) : string :=
  let diffMs := now w - isoDate in
  let diffMins := diffMs / 60000 in
  let diffHours := diffMs / 3600000 in
  let diffDays := diffMs / 86400000 in
  if diffMins <? 1 then "just now"
  else if diffMins <? 60 then showZ diffMins ++ "m ago"
  else if diffHours <? 24 then showZ diffHours ++ "h ago"
  else if diffDays <? 7 then showZ diffDays ++ "d ago"
  else let weeks := diffDays / 7 in showZ weeks ++ "w ago".

(** [formatDateTime]: the same relative age after the short date and the
    time of day in hours and minutes. *)
Definition formatDateTime (w : World) (isoDate : Z) : string :=
  let diffMs := now w - isoDate in
  let diffMins := diffMs / 60000 in
  let diffHours := diffMs / 3600000 in
  let diffDays := diffMs / 86400000 in
  let relative :=
    if diffMins <? 1 then "just now"
    else if diffMins <? 60 then showZ diffMins ++ "m ago"
    else if diffHours <? 24 then showZ diffHours ++ "h ago"
    else if diffDays <? 7 then showZ diffDays ++ "d ago"
    else let weeks := diffDays / 7 in showZ weeks ++ "w ago" in
  let dateStr := localeDateShort (tzOffsetMinutes w) isoDate in
  let timeStr := localeTimeMinutes (tzOffsetMinutes w) isoDate in
  dateStr ++ " " ++ timeStr ++ " >>(" ++ relative ++ ")<<".

Definition isFile (e : string * node) : bool :=
  match nodeMeta (snd e) with Some _ => true | None => false end.

Definition leafCreatedOf (n : node) : Z :=
  match nodeMeta n with Some l => leafCreated l | None => 0 end.

(** Lines pushed for the entry at position [index] of the sorted entries;
    [below] holds the lines of the recursive call for a directory. *)
Definition entryLines (w : World) (indent : string) (index : nat)
           (key : string) (value : node) (below : list string) : list string :=
  let blank := if (0 <? index)%nat then [""] else [] in
  match nodeMeta value with
  | Some l =>
      let icon := getFileIcon key in
      let timestamp := formatDateTime w (leafCreated l) in
      let relativeAge := getRelativeTime w (leafCreated l) in
      List.app blank
       [ indent ++ "# " ++ icon ++ " " ++ key ++ "  >> " ++ relativeAge ++ " <<";
         indent ++ key ++ ":";
         indent ++ "  created: " ++ timestamp;
         indent ++ "  summary: " ++ leafSummary l;
         match leafTags l with
         | [] => indent ++ "  tags: []"
         | ts => indent ++ "  tags: [" ++ join ", " ts ++ "]"
         end ]
  | None =>
      List.app blank
        (List.app [ indent ++ "# === " ++ folderIcon ++ " " ++ key;
                    indent ++ key ++ ":" ] below)
  end.

Fixpoint emitEntries (w : World) (indent : string) (index : nat)
         (entries : list (string * node * list string)) : list string :=
  match entries with
  | [] => []
  | (key, value, below) :: rest =>
      List.app (entryLines w indent index key value below)
               (emitEntries w indent (S index) rest)
  end.

(** [formatTreeLevel(obj, level, lines)], returning the lines it pushes.
    Each entry is paired with the lines of its own recursive call before
    the two groups are sorted; the call for an entry does not depend on
    its position. *)
Fixpoint formatTreeLevel (w : World) (obj : node) (level : nat) : list string :=
  let indent := repeatStr "  " level in
  let entries :=
    (fix below (l : list (string * node)) : list (string * node * list string) :=
       match l with
       | [] => []
       | (key, value) :: l' =>
           (key, value, formatTreeLevel w value (S level)) :: below l'
       end) (nodeKids obj) in
  let files := filter (fun e => isFile (fst e)) entries in
  let dirs := filter (fun e => negb (isFile (fst e))) entries in
  let files :=
    sort (fun a b => leafCreatedOf (snd (fst b)) - leafCreatedOf (snd (fst a)))
         files in
  let dirs :=
    sort (fun a b => localeCompare w (fst (fst a)) (fst (fst b))) dirs in
  emitEntries w indent 0 (dirs ++ files)%list.

(** [formatYamlWithSpacing] *)
Definition formatYamlWithSpacing (w : World) (tree : Tree) : string :=
  let lines :=
    [ "workspace: " ++ treeWorkspace tree;
      "lastUpdated: '" ++ treeLastUpdated tree ++ "'";
      "totalFiles: " ++ showZ (Z.of_nat (treeTotalFiles tree));
      "";
      "files:";
      "";
      "  # === " ++ homeIcon ++ " Root";
      "  Root:" ] in
  let lines :=
    match treeFiles tree with
    | [] => lines
    | fs => List.app lines (formatTreeLevel w (Node None fs) 2)
    end in
  join (String "010"%char EmptyString) lines.

Definition nl : string := String "010"%char EmptyString.
Definition rule : string :=
  "==========================================================================".

(** The text [saveMetadata] hands to [fs.writeFile]: the banner, the
    rendered tree and the footer, as the template literal and the two
    concatenations build it. *)
Definition document (w : World) (root : string) (filesObj : obj FileRecord)
  : option string :=
  match buildFileTree w root filesObj with
  | None => None
  | Some treeStructure =>
      let fileCount := length (keys filesObj) in
      let formattedDate := localeDateLong (tzOffsetMinutes w) (now w) in
      let formattedTime := localeTimeSeconds (tzOffsetMinutes w) (now w) in
      let header :=
        "TIMEPON FILE TRACKING" ++ nl
        ++ root ++ nl
        ++ rule ++ nl
        ++ "Last Updated:     " ++ formattedDate ++ " at " ++ formattedTime ++ nl
        ++ "Files Tracked:    " ++ showZ (Z.of_nat fileCount) ++ nl
        ++ nl
        ++ "TIP: Use code folding to collapse folders (click arrows by line numbers)"
        ++ nl ++ nl
        ++ "Ctrl+K Ctrl+0 = fold all | Ctrl+K Ctrl+J = unfold all" ++ nl
        ++ rule ++ nl ++ nl in
      let yamlContent := formatYamlWithSpacing w treeStructure in
      let footer :=
        nl ++ rule ++ nl ++ "End of Timepon tracking data" ++ nl ++ rule ++ nl in
      Some (header ++ yamlContent ++ footer)
  end.

(* ------------------------------------------------------------------ *)
(** ** Durable writer *)
(* ------------------------------------------------------------------ *)

(** [saveMetadata]: one write attempt.  On failure below the retry
    ceiling the counter is incremented and a timer is set whose callback
    calls [saveMetadata] again; the call itself returns at once. *)
Definition saveMetadata (w : World) (st : Server) : Server :=
  if writeFileOk w then
    withRetry 0 (timers st)
      (emit [WriteFile (document w (workspaceRoot st) (files st))] st)
  else
    let st := emit [LogSaveError (saveRetryCount st + 1)] st in
    if saveRetryCount st <? SAVE_RETRY_MAX then
      let count := saveRetryCount st + 1 in
      let delayMs := 2 ^ count * SAVE_RETRY_BASE_DELAY in
      withRetry count (timers st ++ [delayMs])%list (emit [SetTimeout delayMs] st)
    else
      withRetry 0 (timers st) (emit [LogDataLoss] st).

(** The first pending retry timer expires: its callback runs
    [saveMetadata]. *)
Definition fireTimer (w : World) (st : Server) : Server :=
  match timers st with
  | [] => st
  | _ :: pending => saveMetadata w (withRetry (saveRetryCount st) pending st)
  end.

(** A save and the retries that follow it, one world per attempt: the
    first world is seen by the call, each further one by the next timer
    callback, for as long as a timer is pending. *)
Fixpoint retryChain (ws : list World) (st : Server) : Server :=
  match ws with
  | [] => st
  | w :: ws' =>
      match timers st with
      | [] => st
      | _ :: _ => retryChain ws' (fireTimer w st)
      end
  end.

Definition saveWithRetries (w : World) (ws : list World) (st : Server) : Server :=
  retryChain ws (saveMetadata w st).

(** Delays of the timers set during a run, from its effects. *)
Fixpoint scheduledDelays (es : list Effect) : list Z :=
  match es with
  | [] => []
  | SetTimeout d :: es' => d :: scheduledDelays es'
  | _ :: es' => scheduledDelays es'
  end.

Fixpoint countWrites (es : list Effect) : nat :=
  match es with
  | [] => O
  | WriteFile _ :: es' => S (countWrites es')
  | _ :: es' => countWrites es'
  end.

(* ------------------------------------------------------------------ *)
(** ** Watcher events and refresh *)
(* ------------------------------------------------------------------ *)

(** [buffer.toString('utf-8')] *)
Definition bufferToString (buffer : list byte) : string :=
  string_of_list_byte buffer.

Definition readFileContent (w : World) (filePath : string) (stats : Stats)
  : string :=
  if Classifier.MAX_FILE_SIZE <? size stats then ""
  else
    match readFile w filePath with
    | None => ""
    | Some buffer =>
        if Classifier.isBinary buffer filePath then ""
        else bufferToString buffer
    end.

(** [handleFileCreation] from its second [await] on: [fs.stat] and
    [readFileContent] have answered, and the handler runs to its end in
    the state the server has by then.  The record is stored without a
    second look at the index, and the initialization flag is read here,
    not when the event arrived. *)
Definition completeCreation (w : World) (filePath : string) (st : Server)
  : Server :=
  match stat w filePath with
  | None => emit [LogCreationError filePath] st
  | Some stats =>
      let content := readFileContent w filePath stats in
      let metadata :=
        {| created := birthtime stats;
           summary := Extractor.generateSummary content filePath;
           tags := Extractor.generateTags content filePath;
           stale := false;
           staleReason := None |} in
      let st := withFiles (set filePath metadata (files st)) st in
      let st := if negb (isInitializing st) then saveMetadata w st else st in
      emit [LogTracked (relative (workspaceRoot st) filePath)] st
  end.

(** [handleFileCreation], the handler of the watcher's [add] event, when
    no other handler runs between its [await]s: the test for a tracked
    path, made as the event arrives, and then the rest. *)
Definition handleFileCreation (w : World) (filePath : string) (st : Server)
  : Server :=
  match get filePath (files st) with
  | Some _ => st
  | None => completeCreation w filePath st
  end.

(** The watcher's [ready] event. *)
Definition handleReady (w : World) (st : Server) : Server :=
  saveMetadata w
    {| workspaceRoot := workspaceRoot st; files := files st;
       isInitializing := false;
       saveRetryCount := saveRetryCount st; timers := timers st;
       effects := effects st |}.

Record RefreshCounts : Type := mkCounts
  { updatedCount : nat; errorCount : nat; staleCount : nat }.

Definition statFailed : string := "ENOENT: no such file or directory".

(** [refreshFile], the closure inside [refreshMetadata].  It is only
    applied to keys of the index; for a path without a record both
    branches would raise, and the state is left as it is. *)
Definition refreshFile (w : World) (filePath : string)
           (acc : Server * RefreshCounts) : Server * RefreshCounts :=
  let '(st, n) := acc in
  match get filePath (files st) with
  | None => acc
  | Some old =>
      match stat w filePath with
      | Some stats =>
          let content := readFileContent w filePath stats in
          let fresh :=
            {| created := created old;
               summary := Extractor.generateSummary content filePath;
               tags := Extractor.generateTags content filePath;
               stale := false;
               staleReason := None |} in
          (withFiles (set filePath fresh (files st)) st,
           {| updatedCount := S (updatedCount n);
              errorCount := errorCount n; staleCount := staleCount n |})
      | None =>
          let marked :=
            {| created := created old; summary := summary old;
               tags := tags old;
               stale := true; staleReason := Some statFailed |} in
          (emit [LogRefreshFailed filePath]
             (withFiles (set filePath marked (files st)) st),
           {| updatedCount := updatedCount n;
              errorCount := S (errorCount n);
              staleCount := S (staleCount n) |})
      end
  end.

(** [existingFiles.slice(i, i + BATCH_SIZE)] for each batch start. *)
Fixpoint batches (fuel : nat) (l : list string) : list (list string) :=
  match fuel, l with
  | _, [] => []
  | O, _ => [l]
  | S f, _ => firstn BATCH_SIZE l :: batches f (skipn BATCH_SIZE l)
  end.

(** [refreshMetadata]: the members of a batch touch one key each, so the
    order in which their promises settle does not show; they are run in
    key order.  The persist at the end is unconditional. *)
Definition refreshMetadata (w : World) (st : Server) : Server * RefreshCounts :=
  let existingFiles := keys (files st) in
  let zero := {| updatedCount := O; errorCount := O; staleCount := O |} in
  let '(st, n) :=
    fold_left
      (fun acc batch => fold_left (fun a p => refreshFile w p a) batch acc)
      (batches (length existingFiles) existingFiles) (st, zero) in
  (saveMetadata w st, n).

(* ------------------------------------------------------------------ *)
(** ** Query surface: [get_recent_files] *)
(* ------------------------------------------------------------------ *)

(** Values that can stand in [args.hours]; [JUndefined] is an absent
    property. *)
Inductive JsValue : Type :=
  | JUndefined
  | JNull
  | JBool (b : bool)
  | JNum (q : Q)
  | JStr (s : string)
  | JObject.

Definition jsTruthy (v : JsValue) : bool :=
  match v with
  | JUndefined | JNull => false
  | JBool b => b
  | JNum q => negb (Qeq_bool q 0)
  | JStr s => truthy s
  | JObject => true
  end.

(** [v || d] *)
Definition orElse (v d : JsValue) : JsValue := if jsTruthy v then v else d.

Record ListedFile : Type := mkListed
  { listedPath : string; listedRecord : FileRecord }.

Record RecentPayload : Type := mkRecent
  { payloadHours : Q; payloadCount : nat; payloadFiles : list ListedFile }.

(** [new Date(x)] clips its argument to an integral number of
    milliseconds, towards zero. *)
Definition timeClip (x : Q) : Z := Z.quot (Qnum x) (Z.pos (Qden x)).

Definition hoursError : string := "Hours parameter must be a positive number".

(** [new Date(Date.now() - hours * 60 * 60 * 1000)] *)
Definition cutoffOf (w : World) (h : Q) : Z :=
  timeClip (inject_Z (now w) - h * inject_Z 60 * inject_Z 60 * inject_Z 1000)%Q.

(** [{ path: path.relative(root, filePath), ...metadata }] *)
Definition listed (st : Server) (e : string * FileRecord) : ListedFile :=
  {| listedPath := relative (workspaceRoot st) (fst e); listedRecord := snd e |}.

(** [getRecentFiles(hours)]; [inl] is the thrown error's message. *)
Definition getRecentFiles (w : World) (hours : JsValue) (st : Server)
  : string + RecentPayload :=
  match hours with
  | JNum h =>
      if Qle_bool h 0 then inl hoursError
      else
        let cutoff := cutoffOf w h in
        let found :=
          map (listed st)
              (sort byCreatedDesc
                 (filter (fun e => cutoff <? created (snd e)) (files st))) in
        inr {| payloadHours := h; payloadCount := length found;
               payloadFiles := found |}
  | _ => inl hoursError
  end.

Inductive ToolResponse : Type :=
  | Recent (p : RecentPayload)
  | ErrorText (text : string).

(** The [get_recent_files] case of the tool dispatcher, with its
    [catch]. *)
Definition callGetRecentFiles (w : World) (argsHours : JsValue) (st : Server)
  : ToolResponse :=
  match getRecentFiles w (orElse argsHours (JNum (inject_Z 24))) st with
  | inr p => Recent p
  | inl message =>
      ErrorText ("Error in get_recent_files: " ++ message ++ nl ++ nl
                 ++ "Please check the server output panel for details.")
  end.

(* ------------------------------------------------------------------ *)
(** ** The running server *)
(* ------------------------------------------------------------------ *)

(** What can happen to the server after [initialize]: a watcher [add]
    event, the watcher's [ready] event, a retry timer expiring, and the
    two tools that reach the index.  Each handler is run to its end
    here; how the [add] handlers of several paths and the [ready]
    handler interleave is followed in [Lifecycle]. *)
Inductive Op : Type :=
  | OpAdd (w : World) (filePath : string)
  | OpReady (w : World)
  | OpTimer (w : World)
  | OpRefresh (w : World)
  | OpRecent (w : World) (argsHours : JsValue).

Definition step (op : Op) (st : Server) : Server :=
  match op with
  | OpAdd w filePath => handleFileCreation w filePath st
  | OpReady w => handleReady w st
  | OpTimer w => fireTimer w st
  | OpRefresh w => fst (refreshMetadata w st)
  | OpRecent _ _ => st
  end.

Definition run (ops : list Op) (st : Server) : Server :=
  fold_left (fun s op => step op s) ops st.

(** Reading the tree: the leaf fields stored at a path of segments. *)
Fixpoint metaAt (parts : list string) (kids : list (string * node))
  : option Leaf :=
  match parts with
  | [] => None
  | part :: rest =>
      match get part kids with
      | None => None
      | Some n =>
          match rest with
          | [] => nodeMeta n
          | _ :: _ => metaAt rest (nodeKids n)
          end
      end
  end.

Fixpoint isPrefix (p q : list string) : bool :=
  match p, q with
  | [], _ => true
  | _ :: _, [] => false
  | a :: p', b :: q' => String.eqb a b && isPrefix p' q'
  end.

(** Segments the walk takes as they are, from [tree.files]: none names
    an inherited member, and [created] is at most the first of them. *)
Definition plainParts (parts : list string) : bool :=
  forallb (fun part => negb (includes prototypeKeys part)) parts
  && negb (includes (tl parts) "created").

(** [q] is a strict, non-empty prefix of [parts]. *)
Definition strictPrefix (q parts : list string) : Prop :=
  q <> [] /\ isPrefix q parts = true /\ q <> parts.

(** An index the tree can hold without loss: every relative path is
    made of plain segments, and no entry's path is a prefix of another
    entry's path (so no two entries share a relative path, and no tracked
    file stands where another tracked path needs a directory). *)
Definition plainIndex (root : string) (filesObj : obj FileRecord) : Prop :=
  (forall e, In e filesObj -> plainParts (pathParts root (fst e)) = true)
  /\ (forall e1 e2, In e1 filesObj -> In e2 filesObj ->
                    isPrefix (pathParts root (fst e1))
                             (pathParts root (fst e2)) = true ->
                    e1 = e2).

(** The instant of a record, in whole seconds. *)
Definition createdSeconds (r : FileRecord) : Z := created r / 1000.


(** The delay of the [k]-th retry. *)
Definition backoff (k : Z) : Z := 2 ^ k * SAVE_RETRY_BASE_DELAY.

(** The delays of the three retries of one chain. *)
Definition expectedDelays : list Z := [backoff 1; backoff 2; backoff 3].

End Timepon.

(* ------------------------------------------------------------------ *)
(** ** Sample data for the concrete runs *)
(* ------------------------------------------------------------------ *)

Module Samples.
Import JsObject Timepon.
Import Corelib.Init.Byte.

(** A world:  2 November 2026, 14:22:05 UTC,
    code-unit collation, an empty file system. *)
Definition sampleWorld (writes : bool) : World :=
  {| now := 1793629325123;
     tzOffsetMinutes := 0;
     localeCompare := fun a b =>
       match String.compare a b with Lt => (-1)%Z | Eq => 0%Z | Gt => 1%Z end;
     stat := fun _ => None;
     readFile := fun _ => None;
     writeFileOk := writes |}.

Definition failing : World := sampleWorld false.

Definition plainRecord (c : Z) (s : string) (t : list string) : FileRecord :=
  {| created := c; summary := s; tags := t; stale := false; staleReason := None |}.

(** Two one-file indexes that differ by one second in [created]. *)
Definition indexAt (c : Z) : obj FileRecord :=
  [("/w/notes.txt", plainRecord c "Meeting notes" ["txt"; "docs"])].

(** An index whose paths use the field names of a leaf as names of
    directories and files. *)
Definition namedLikeFields : obj FileRecord :=
  [("/w/tags/a.txt", plainRecord 1793629305000 "Tag list" ["txt"; "docs"]);
   ("/w/src/summary/b.md", plainRecord 1793629300000 "Summaries" ["md"; "docs"]);
   ("/w/created", plainRecord 1793620000000 "Creation log" [])].

(** A server tracking two files of the workspace [/w]. *)
Definition sampleServer : Server :=
  {| workspaceRoot := "/w";
     files := [("/w/README.md",
                plainRecord 1793629305000 "Timepon" ["md"; "docs"]);
               ("/w/src/api.ts",
                plainRecord 1793620000000 "API endpoint definitions"
                            ["ts"; "code"])];
     isInitializing := false;
     saveRetryCount := 0;
     timers := [];
     effects := [] |}.

(** A world in which [/w/README.md] is on disk and the write succeeds. *)
Definition live : World :=
  {| now := 1793629325123;
     tzOffsetMinutes := 60;
     localeCompare := localeCompare failing;
     stat := fun p => if String.eqb p "/w/README.md"
                      then Some {| birthtime := 1793629305000; size := 9 |}
                      else None;
     readFile := fun p => if String.eqb p "/w/README.md"
                          then Some [x23; x20; x54; x69; x6d; x65; x70; x6f; x6e]
                          else None;
     writeFileOk := true |}.

(** A file name of 85 letters and an extension. *)
Definition longName : string :=
  "/w/aaaaaaaaaaaaaaaaaaaaaaaaaaaaaaaaaaaaaaaaaaaaaaaaaaaaaaaaaaaaaaaaaaaaaaaaaaaaaaaaaaaaa.txt".

End Samples.

From Stdlib Require Sorted.

(* ------------------------------------------------------------------ *)
(** ** Query surface: the other tools and the dispatcher *)
(* ------------------------------------------------------------------ *)

Module Queries.
Import JsString NodePath JsDate JsObject Timepon.

Record AllPayload : Type := mkAll
  { allCount : nat; allFiles : list ListedFile }.

(** [getAllFiles]: the payload before [JSON.stringify]. *)
Definition getAllFiles (st : Server) : AllPayload :=
  let found := map (listed st) (sort byCreatedDesc (files st)) in
  {| allCount := length found; allFiles := found |}.

Record TagPayload : Type := mkTag
  { tagName : string; tagCount : nat; tagFiles : list ListedFile }.

Definition tagError : string := "Tag parameter must be a non-empty string".

(** [getFilesByTag(tag)]; [inl] is the thrown error's message. *)
Definition getFilesByTag (tag : JsValue) (st : Server) : string + TagPayload :=
  match tag with
  | JStr t =>
      if negb (truthy t) then inl tagError
      else
        let found :=
          map (listed st)
              (sort byCreatedDesc
                 (filter (fun e => includes (tags (snd e)) t) (files st))) in
        inr {| tagName := t; tagCount := length found; tagFiles := found |}
  | _ => inl tagError
  end.

Record SearchPayload : Type := mkSearch
  { searchQuery : string; searchCount : nat; searchFound : list ListedFile }.

Definition queryError : string := "Query parameter must be a non-empty string".

(** The filter of [searchFiles] for one entry. *)
Definition searchHit (lowerQuery : string) (e : string * FileRecord) : bool :=
  let fileName := toLowerCase (basename (fst e)) in
  let summary := toLowerCase (summary (snd e)) in
  Extractor.strIncludes fileName lowerQuery
  || Extractor.strIncludes summary lowerQuery.

(** [searchFiles(query)] *)
Definition searchFiles (query : JsValue) (st : Server)
  : string + SearchPayload :=
  match query with
  | JStr q =>
      if negb (truthy q) then inl queryError
      else
        let lowerQuery := toLowerCase q in
        let found :=
          map (listed st)
              (sort byCreatedDesc (filter (searchHit lowerQuery) (files st))) in
        inr {| searchQuery := q; searchCount := length found;
               searchFound := found |}
  | _ => inl queryError
  end.

(** [request.params.arguments]: an object, or absent. *)
Definition Args : Type := option (obj JsValue).

(** [args.key]: reading a property of an absent [args] raises a
    [TypeError]; a missing property is [undefined]. *)
Definition argProp (args : Args) (key : string) : string + JsValue :=
  match args with
  | None =>
      inl ("Cannot read properties of undefined (reading '" ++ key ++ "')")
  | Some o =>
      inr (match get key o with Some v => v | None => JUndefined end)
  end.

Inductive Response : Type :=
  | RespAll (p : AllPayload)
  | RespTag (p : TagPayload)
  | RespRecent (p : RecentPayload)
  | RespSearch (p : SearchPayload)
  | RespText (text : string)
  | RespError (text : string).

(** The text the dispatcher's [catch] returns. *)
Definition errorText (name message : string) : string :=
  "Error in " ++ name ++ ": " ++ message ++ nl ++ nl
  ++ "Please check the server output panel for details.".

Definition showNat (n : nat) : string := showZ (Z.of_nat n).

(** The closing message of [refreshMetadata]. *)
Definition refreshMessage (n : RefreshCounts) : string :=
  if (0 <? staleCount n)%nat
  then "Metadata refresh complete. Updated " ++ showNat (updatedCount n)
       ++ " files, " ++ showNat (staleCount n) ++ " marked stale ("
       ++ showNat (errorCount n) ++ " errors)."
  else "Metadata refresh complete. Updated " ++ showNat (updatedCount n)
       ++ " files, " ++ showNat (errorCount n) ++ " errors.".

Definition answer {P : Type} (name : string) (st : Server)
           (wrap : P -> Response) (r : string + P) : Server * Response :=
  match r with
  | inr p => (st, wrap p)
  | inl message => (st, RespError (errorText name message))
  end.

(** The handler of [CallToolRequestSchema]: the [switch] on the tool
    name inside [try], and the [catch] that turns every exception into
    an error text (its log line is left out). *)
Definition callTool (w : World) (name : string) (args : Args) (st : Server)
  : Server * Response :=
  if String.eqb name "get_all_files" then (st, RespAll (getAllFiles st))
  else if String.eqb name "get_files_by_tag" then
    match argProp args "tag" with
    | inl message => (st, RespError (errorText name message))
    | inr tag => answer name st RespTag (getFilesByTag tag st)
    end
  else if String.eqb name "get_recent_files" then
    match argProp args "hours" with
    | inl message => (st, RespError (errorText name message))
    | inr hours =>
        answer name st RespRecent
               (getRecentFiles w (orElse hours (JNum (inject_Z 24))) st)
    end
  else if String.eqb name "search_files" then
    match argProp args "query" with
    | inl message => (st, RespError (errorText name message))
    | inr query => answer name st RespSearch (searchFiles query st)
    end
  else if String.eqb name "refresh_metadata" then
    let '(st', n) := refreshMetadata w st in
    (st', RespText (refreshMessage n))
  else (st, RespError (errorText name ("Unknown tool: " ++ name))).

End Queries.

(* ------------------------------------------------------------------ *)
(** ** Start-up and the watcher *)
(* ------------------------------------------------------------------ *)

Module Lifecycle.
Import JsString JsObject Timepon Regex.

(** The state the constructor leaves. *)
Definition newServer (root : string) : Server :=
  {| workspaceRoot := root;
     files := [];
     isInitializing := false;
     saveRetryCount := 0;
     timers := [];
     effects := [] |}.

(** [startWatching]: the ignore patterns are loaded, the initialization
    flag is raised, and the patterns become the watcher's [ignored]
    option. *)
Definition startWatching (tponignore gitignore : option string) (st : Server)
  : Server * list regex :=
  ({| workspaceRoot := workspaceRoot st; files := files st;
      isInitializing := true;
      saveRetryCount := saveRetryCount st; timers := timers st;
      effects := effects st |},
   Ignore.loadIgnorePatterns tponignore gitignore).

(** The watcher and the [add] handlers in flight: [waiting] lists the
    paths whose handler has passed the test for a tracked path and
    awaits the file system. *)
Record Watching : Type := mkWatching
  { server : Server; waiting : list string }.

Definition watching (st : Server) : Watching :=
  {| server := st; waiting := [] |}.

(** What happens while the watcher runs: it emits [add] for a path, the
    [await]s of a waiting handler resolve (with what the file system
    answers), or it emits [ready]. *)
Inductive WatcherEvent : Type :=
  | EvAdd (filePath : string)
  | EvSettle (w : World) (filePath : string)
  | EvReady (w : World).

Fixpoint removeOne (filePath : string) (l : list string) : list string :=
  match l with
  | [] => []
  | q :: l' => if String.eqb q filePath then l' else q :: removeOne filePath l'
  end.

(** One event.  The watcher does not report a path that its [ignored]
    option matches.  An [add] handler only makes its test and then
    waits; it stores its record when it is resumed, in whatever state
    the server has then, so the handlers of several paths and the
    [ready] handler interleave. *)
Definition deliver (ignored : list regex) (ev : WatcherEvent) (s : Watching)
  : Watching :=
  match ev with
  | EvAdd filePath =>
      if Ignore.isIgnored ignored filePath then s
      else
        match get filePath (files (server s)) with
        | Some _ => s
        | None => {| server := server s;
                     waiting := (waiting s ++ [filePath])%list |}
        end
  | EvSettle w filePath =>
      if includes (waiting s) filePath
      then {| server := completeCreation w filePath (server s);
              waiting := removeOne filePath (waiting s) |}
      else s
  | EvReady w => {| server := handleReady w (server s); waiting := waiting s |}
  end.

Definition watch (ignored : list regex) (evs : list WatcherEvent)
           (s : Watching) : Watching :=
  fold_left (fun s ev => deliver ignored ev s) evs s.

End Lifecycle.

(* ------------------------------------------------------------------ *)
(** ** Notions used in the statements below *)
(* ------------------------------------------------------------------ *)

Module Notions.
Import JsString JsObject Timepon.
Local Open Scope Z_scope.

(** [a] may stand before [b] in a newest-first listing. *)
Definition newerEntry {K : Type} (a b : K * FileRecord) : Prop :=
  created (snd b) <= created (snd a).

Definition newerListed (a b : ListedFile) : Prop :=
  created (listedRecord b) <= created (listedRecord a).

Definition sameInstant {K : Type} (c : Z) (e : K * FileRecord) : bool :=
  created (snd e) =? c.

(** A value that passes [!x || typeof x !== 'string']. *)
Definition nonEmptyString (v : JsValue) : Prop :=
  match v with
  | JStr s => s <> EmptyString
  | _ => False
  end.

(** What [refreshFile] makes of one record: rebuilt from the file when
    [fs.stat] succeeds, marked stale when it fails. *)
Definition refreshed (w : World) (filePath : string) (old : FileRecord)
  : FileRecord :=
  match stat w filePath with
  | Some stats =>
      let content := readFileContent w filePath stats in
      {| created := created old;
         summary := Extractor.generateSummary content filePath;
         tags := Extractor.generateTags content filePath;
         stale := false;
         staleReason := None |}
  | None =>
      {| created := created old; summary := summary old; tags := tags old;
         stale := true; staleReason := Some statFailed |}
  end.

Definition refreshedEntry (w : World) (e : string * FileRecord)
  : string * FileRecord :=
  (fst e, refreshed w (fst e) (snd e)).

Definition onDisk (w : World) (filePath : string) : bool :=
  match stat w filePath with Some _ => true | None => false end.

(** Every record carries at most three tags. *)
Definition tagsBounded (st : Server) : Prop :=
  Forall (fun e => (length (tags (snd e)) <= 3)%nat) (files st).

(** The retry counter is within its range and every timer ever set
    carries one of the three delays. *)
Definition retryBounded (st : Server) : Prop :=
  0 <= saveRetryCount st <= SAVE_RETRY_MAX
  /\ Forall (fun d => In d expectedDelays) (timers st)
  /\ Forall (fun d => In d expectedDelays) (scheduledDelays (effects st)).

(** An event of the initial scan: anything but [ready]. *)
Definition beforeReady (ev : Lifecycle.WatcherEvent) : Prop :=
  match ev with Lifecycle.EvReady _ => False | _ => True end.

(** [s] without its longest prefix of characters satisfying [p]. *)
Fixpoint dropWhileStr (p : ascii -> bool) (s : string) : string :=
  match s with
  | EmptyString => EmptyString
  | String c s' => if p c then dropWhileStr p s' else s
  end.

(** The characters of the class in [/^[\/\/#]+\s*/]. *)
Definition isMarkerChar (c : ascii) : bool :=
  Ascii.eqb c "/"%char || Ascii.eqb c "#"%char.

Definition isHash (c : ascii) : bool := Ascii.eqb c "#"%char.

(** *** Shapes of the compiled ignore patterns *)

Definition isSep (c : ascii) : bool :=
  Ascii.eqb c "/"%char || Ascii.eqb c "\"%char.

(** The group [(^|[/\\])] as [RegExp] reads it. *)
Definition anywhereRe : Regex.regex :=
  Regex.RAlt (Regex.RSeq Regex.RBol Regex.REmpty)
    (Regex.RSeq
       (Regex.RSet (Regex.CClass [Regex.IChar "/"%char; Regex.IChar "\"%char]))
       Regex.REmpty).

(** The group [([/\\]|$)]. *)
Definition endRe : Regex.regex :=
  Regex.RAlt
    (Regex.RSeq
       (Regex.RSet (Regex.CClass [Regex.IChar "/"%char; Regex.IChar "\"%char]))
       Regex.REmpty)
    (Regex.RSeq Regex.REol Regex.REmpty).

Definition isSpecial (c : ascii) : bool :=
  existsb (Ascii.eqb c) Ignore.regexSpecials.

(** What one character of a glob line becomes. *)
Definition termOf (c : ascii) : Regex.regex :=
  if isSpecial c then Regex.RSet (Regex.CLit c)
  else if Ascii.eqb c "*"%char then Regex.RStar Regex.CAny
  else if Ascii.eqb c "?"%char then Regex.RSet Regex.CAny
  else Regex.RSet (Regex.CLit c).

Fixpoint bodyAst (pattern : string) (tail : Regex.regex) : Regex.regex :=
  match pattern with
  | EmptyString => tail
  | String c p => Regex.RSeq (termOf c) (bodyAst p tail)
  end.

(** The expression [globToRegex] builds from a glob line. *)
Definition globAst (pattern0 : string) : Regex.regex :=
  let isDirectoryOnly := endsWithChar pattern0 "/"%char in
  let pattern := if isDirectoryOnly then dropLast pattern0 else pattern0 in
  let tail :=
    if isDirectoryOnly then Regex.RSeq endRe Regex.REmpty else Regex.REmpty in
  if negb (startsWith pattern "/")
  then Regex.RSeq anywhereRe (bodyAst pattern tail)
  else Regex.RSeq Regex.RBol (bodyAst (sliceFrom 1 pattern) tail).

(** The text a glob line is turned into by the three [replace] calls,
    before the anchors are added. *)
Definition image (p : string) : string :=
  replaceEach Ignore.questionToDot
    (replaceEach Ignore.starToAny (replaceEach Ignore.escapeSpecial p)).

Definition imageChar (c : ascii) : string :=
  if isSpecial c then String "\"%char (String c "")
  else if Ascii.eqb c "*"%char then ".*"
  else if Ascii.eqb c "?"%char then "."
  else String c "".

Definition found (o : option string) : bool :=
  match o with Some _ => true | None => false end.

(** A glob line without [*] and [?]. *)
Fixpoint noWildcard (s : string) : bool :=
  match s with
  | EmptyString => true
  | String c s' =>
      negb (Ascii.eqb c "*"%char) && negb (Ascii.eqb c "?"%char)
      && noWildcard s'
  end.

(** [s] without the prefix [name], when it has it. *)
Fixpoint stripPrefix (name s : string) : option string :=
  match name with
  | EmptyString => Some s
  | String c name' =>
      match s with
      | EmptyString => None
      | String d s' => if Ascii.eqb d c then stripPrefix name' s' else None
      end
  end.

(** What may stand before a match: nothing (when [atStart] holds for the
    empty text), or a text that ends with a separator. *)
Definition openLeftFrom (atStart : bool) (pre : string) : bool :=
  match lastChar pre with
  | Some c => isSep c
  | None => atStart
  end.

Definition openLeft (pre : string) : bool := openLeftFrom true pre.

(** What may stand after a directory-only match: nothing, or a text that
    starts with a separator. *)
Definition openRight (post : string) : bool :=
  match post with
  | EmptyString => true
  | String c _ => isSep c
  end.

Definition tailAst (directoryOnly : bool) : Regex.regex :=
  if directoryOnly then Regex.RSeq endRe Regex.REmpty else Regex.REmpty.

Definition tailOk (directoryOnly : bool) (post : string) : bool :=
  if directoryOnly then openRight post else true.

(** The literal [name], then the tail, right at the start of [s]. *)
Definition literalAt (name : string) (directoryOnly : bool) (s : string)
  : bool :=
  match stripPrefix name s with
  | Some rest => tailOk directoryOnly rest
  | None => false
  end.

(** The lines of an ignore file that carry a pattern. *)
Definition patternLines (content : string) : list string :=
  filter Ignore.isPatternLine (map trim (split "010"%char content)).

(** No byte of the buffer counts as non-printable. *)
Definition allPrintable (buffer : list Corelib.Init.Byte.byte) : bool :=
  forallb (fun b => negb (Classifier.isNonPrintable b)) buffer.

(** The extension of the path is in neither table of [isBinary]. *)
Definition unknownExtension (filePath : string) : Prop :=
  includes Classifier.knownTextExts (toLowerCase (NodePath.extname filePath))
  = false
  /\ includes Classifier.knownBinaryExts
              (toLowerCase (NodePath.extname filePath)) = false.

(** The names of the dispatcher's [switch]. *)
Definition knownTool (name : string) : bool :=
  includes ["get_all_files"; "get_files_by_tag"; "get_recent_files";
            "search_files"; "refresh_metadata"] name.

(** The record [handleFileCreation] stores for a file it could not or
    would not read. *)
Definition opaqueRecord (stats : Stats) (filePath : string) : FileRecord :=
  {| created := birthtime stats;
     summary := NodePath.extname filePath ++ " file";
     tags := Extractor.generateTags "" filePath;
     stale := false;
     staleReason := None |}.

End Notions.

(* ------------------------------------------------------------------ *)
(** ** More sample data *)
(* ------------------------------------------------------------------ *)

Module MoreSamples.
Import JsObject Timepon.
Import Corelib.Init.Byte.

(** A disk with one file of 2 MiB, never read. *)
Definition bigFileWorld : World :=
  {| now := 1793629325123;
     tzOffsetMinutes := 0;
     localeCompare := localeCompare Samples.failing;
     stat := fun p => if String.eqb p "/w/video.mov"
                      then Some {| birthtime := 1793629000000;
                                   size := 2097152 |}
                      else None;
     readFile := fun _ => None;
     writeFileOk := true |}.

(** A disk on which every path is a small text file. *)
Definition textOnlyWorld : World :=
  {| now := 1793629325123;
     tzOffsetMinutes := 0;
     localeCompare := localeCompare Samples.failing;
     stat := fun _ => Some {| birthtime := 1793629000000; size := 2 |};
     readFile := fun _ => Some [x68; x69];
     writeFileOk := true |}.

End MoreSamples.

(* ================================================================== *)
(** * Properties *)
(* ================================================================== *)

Import JsString NodePath Regex JsObject Timepon.
Import Corelib.Init.Byte.

Import Samples.

(* ------------------------------------------------------------------ *)
(** ** Objects as maps *)
(* ------------------------------------------------------------------ *)

Section ObjectFacts.
Context {V : Type}.
Implicit Types (o : obj V) (k : string) (v : V).

Lemma get_replace_same k v o :
  get k o <> None -> get k (replace k v o) = Some v.
Proof.
  induction o as [|[k' v'] o IH]; simpl; [congruence|].
  destruct (String.eqb k k') eqn:E; simpl; rewrite E; auto.
Qed.

Lemma get_replace_other k k' v o :
  k <> k' -> get k' (replace k v o) = get k' o.
Proof.
  intros Hne. induction o as [|[k0 v0] o IH]; simpl; [reflexivity|].
  destruct (String.eqb k k0) eqn:E; simpl.
  - apply String.eqb_eq in E. subst k0.
    destruct (String.eqb k' k) eqn:E'; [|reflexivity].
    apply String.eqb_eq in E'. congruence.
  - now rewrite IH.
Qed.

Lemma get_app_fresh k v o :
  get k o = None -> get k (o ++ [(k, v)])%list = Some v.
Proof.
  induction o as [|[k' v'] o IH]; simpl.
  - now rewrite String.eqb_refl.
  - destruct (String.eqb k k'); [discriminate|auto].
Qed.

Lemma get_app_other k k' v o :
  k <> k' -> get k' (o ++ [(k, v)])%list = get k' o.
Proof.
  intros Hne. induction o as [|[k0 v0] o IH]; simpl.
  - destruct (String.eqb k' k) eqn:E; [|reflexivity].
    apply String.eqb_eq in E. congruence.
  - now rewrite IH.
Qed.

Lemma get_placeIndex_fresh n k v o :
  get k o = None -> get k (placeIndex n k v o) = Some v.
Proof.
  induction o as [|[k' v'] o IH]; simpl.
  - now rewrite String.eqb_refl.
  - destruct (String.eqb k k') eqn:E; [discriminate|]. intros Hget.
    destruct (indexKey k') as [m|]; [destruct (m <? n)%N|]; simpl;
      rewrite ?E, ?String.eqb_refl; auto.
Qed.

Lemma get_placeIndex_other n k k' v o :
  k <> k' -> get k' (placeIndex n k v o) = get k' o.
Proof.
  intros Hne.
  assert (Hk : String.eqb k' k = false)
    by (apply String.eqb_neq; congruence).
  induction o as [|[k0 v0] o IH]; simpl.
  - now rewrite Hk.
  - destruct (indexKey k0) as [m|]; [destruct (m <? n)%N|]; simpl;
      rewrite ?Hk, ?IH; reflexivity.
Qed.

(** Reading back what was just assigned. *)
Lemma get_set_same k v o : get k (set k v o) = Some v.
Proof.
  unfold set. destruct (get k o) eqn:G.
  - apply get_replace_same. congruence.
  - destruct (indexKey k).
    + now apply get_placeIndex_fresh.
    + now apply get_app_fresh.
Qed.

(** An assignment leaves every other key alone. *)
Lemma get_set_other k k' v o : k <> k' -> get k' (set k v o) = get k' o.
Proof.
  intros Hne. unfold set. destruct (get k o).
  - now apply get_replace_other.
  - destruct (indexKey k).
    + now apply get_placeIndex_other.
    + now apply get_app_other.
Qed.

End ObjectFacts.

Section SortFacts.

Lemma insertSorted_perm {A : Type} (cmp : A -> A -> Z) (x : A) (l : list A) :
  Permutation (insertSorted cmp x l) (x :: l).
Proof.
  induction l as [|y l IH]; simpl; [apply Permutation_refl|].
  destruct (cmp x y <=? 0)%Z; [apply Permutation_refl|].
  eapply perm_trans; [apply perm_skip, IH|apply perm_swap].
Qed.

(** The stable sort rearranges, and nothing else. *)
Lemma sort_perm {A : Type} (cmp : A -> A -> Z) (l : list A) :
  Permutation (sort cmp l) l.
Proof.
  induction l as [|x l IH]; simpl; [apply Permutation_refl|].
  eapply perm_trans; [apply insertSorted_perm|now apply perm_skip].
Qed.

End SortFacts.

(* ------------------------------------------------------------------ *)
(** ** Ignore-pattern engine *)
(* ------------------------------------------------------------------ *)

Section IgnoreEngine.
Import Ignore.

Lemma isIgnored_app (ps qs : list regex) (path : string) :
  isIgnored (ps ++ qs)%list path = isIgnored ps path || isIgnored qs path.
Proof. unfold isIgnored. apply existsb_app. Qed.

Lemma loadIgnorePatterns_shape (tponignore gitignore : option string) :
  loadIgnorePatterns tponignore gitignore
  = (parseIgnoreFile tponignore ++ parseIgnoreFile gitignore
     ++ builtinPatterns)%list.
Proof. unfold loadIgnorePatterns. simpl. now rewrite <- app_assoc. Qed.

(** C6: the predicate compiled from the glob line [dist/] matches
    [project/dist/out.js] and [dist/out.js] and does not match
    [distribution/out.js]; the one compiled from [*.log] matches [a.log]
    and [dir/b.log].  Both lines compile. *)
Theorem C6_glob_examples :
  exists rdist rlog,
    globToRegex "dist/" = Some rdist /\
    globToRegex "*.log" = Some rlog /\
    test rdist "project/dist/out.js" = true /\
    test rdist "dist/out.js" = true /\
    test rdist "distribution/out.js" = false /\
    test rlog "a.log" = true /\
    test rlog "dir/b.log" = true.
Proof.
  destruct (globToRegex "dist/") as [rd|] eqn:Hd; [|discriminate Hd].
  destruct (globToRegex "*.log") as [rl|] eqn:Hl; [|discriminate Hl].
  exists rd, rl.
  injection Hd as <-. injection Hl as <-.
  repeat split; vm_compute; reflexivity.
Qed.

(** C4, as the claim states it, fails: no list of three built-in
    patterns closes every result of [loadIgnorePatterns]; without ignore
    files the result has two entries. *)
Lemma C4_counterexample :
  ~ (exists builtin : list regex,
        length builtin = 3%nat /\
        forall tponignore gitignore,
          loadIgnorePatterns tponignore gitignore
          = (parseIgnoreFile tponignore ++ parseIgnoreFile gitignore
             ++ builtin)%list).
Proof.
  intros (builtin & Hlen & Hall).
  specialize (Hall None None).
  rewrite loadIgnorePatterns_shape in Hall. simpl in Hall.
  rewrite <- Hall in Hlen. discriminate Hlen.
Qed.

(** C4, amended: the list returned by [loadIgnorePatterns] ends with
    exactly two built-in patterns, after all patterns of [.tponignore]
    and [.gitignore]; they match the metadata document and its backups,
    and a path matching a built-in pattern is ignored whatever the user
    files contain. *)
Theorem C4_builtin_patterns_last :
  forall tponignore gitignore : option string,
    loadIgnorePatterns tponignore gitignore
    = (parseIgnoreFile tponignore ++ parseIgnoreFile gitignore
       ++ builtinPatterns)%list
    /\ length builtinPatterns = 2%nat
    /\ isIgnored builtinPatterns "/w/_timepon.yaml" = true
    /\ isIgnored builtinPatterns "/w/_timepon.yaml.backup.1793629325123" = true
    /\ forall path,
         isIgnored builtinPatterns path = true ->
         isIgnored (loadIgnorePatterns tponignore gitignore) path = true.
Proof.
  intros tp gi. split; [apply loadIgnorePatterns_shape|].
  split; [reflexivity|].
  split; [vm_compute; reflexivity|].
  split; [vm_compute; reflexivity|].
  intros path H. rewrite loadIgnorePatterns_shape, !isIgnored_app, H.
  now rewrite !orb_true_r.
Qed.

(** A [.tponignore] that tries to re-include the document does not
    change the verdict. *)
Lemma C4_witness :
  isIgnored (loadIgnorePatterns (Some "!_timepon.yaml") None)
            "/w/_timepon.yaml" = true.
Proof.
  apply (proj2 (proj2 (proj2 (proj2
           (C4_builtin_patterns_last (Some "!_timepon.yaml") None))))).
  vm_compute; reflexivity.
Defined.

End IgnoreEngine.

(* ------------------------------------------------------------------ *)
(** ** Binary/text classifier *)
(* ------------------------------------------------------------------ *)

Section ClassifierFacts.
Import Classifier.

(** C5, as the claim states it, fails in its first part: a zero-byte
    content under a known-binary extension classifies as binary. *)
Lemma C5_counterexample : ~ (forall path, isBinary [] path = false).
Proof. intros H. specialize (H "/w/photo.png"). vm_compute in H. discriminate H. Qed.

(** C5, amended: (1) for every path whose extension is not in the
    known-binary table, a zero-byte content classifies as text; (2) for
    every path whose extension is in neither table, the buffer
    89 50 4E 47 classifies as binary; (3) for every path with extension
    [.md], every content (printable or not) classifies as text. *)
Theorem C5_classifier :
  (forall path,
      includes knownBinaryExts (toLowerCase (extname path)) = false ->
      isBinary [] path = false)
  /\ (forall path,
         includes knownTextExts (toLowerCase (extname path)) = false ->
         includes knownBinaryExts (toLowerCase (extname path)) = false ->
         isBinary [x89; x50; x4e; x47] path = true)
  /\ (forall path content,
         toLowerCase (extname path) = ".md" ->
         isBinary content path = false).
Proof.
  split; [|split].
  - intros path Hb. unfold isBinary. rewrite Hb.
    destruct (includes knownTextExts _); reflexivity.
  - intros path Ht Hb. unfold isBinary. rewrite Ht, Hb. reflexivity.
  - intros path content Hmd. unfold isBinary. rewrite Hmd. reflexivity.
Qed.

(** The three parts at an empty file, a PNG header under an unknown
    extension, and control bytes in a Markdown file. *)
Lemma C5_witness :
  isBinary [] "/w/empty.xyz" = false
  /\ isBinary [x89; x50; x4e; x47] "/w/image.xyz" = true
  /\ isBinary [x00; x01; x02; x03; x04] "/w/README.md" = false.
Proof.
  destruct C5_classifier as (H1 & H2 & H3).
  split; [apply H1; reflexivity|].
  split; [apply H2; reflexivity|].
  apply H3; reflexivity.
Defined.

End ClassifierFacts.

(* ------------------------------------------------------------------ *)
(** ** Summary extraction *)
(* ------------------------------------------------------------------ *)

Section SummaryFacts.
Import Extractor.

(** The four sample files of [test-local.js]. *)
Example summary_readme :
  generateSummary "# Timepon MCP Server

AI-assisted development tool" "README.md" = "Timepon MCP Server".
Proof. vm_compute; reflexivity. Qed.

Example summary_api :
  generateSummary "// API endpoint definitions
export class ApiService {}" "src/api.ts" = "API endpoint definitions".
Proof. vm_compute; reflexivity. Qed.

Example tags_architecture :
  generateTags "# System Architecture

This document describes the system architecture" "docs/architecture.md"
  = ["md"; "docs"; "architecture"].
Proof. vm_compute; reflexivity. Qed.

Example tags_config :
  generateTags "{
  name: timepon
}" "config.json" = ["json"; "config"].
Proof. vm_compute; reflexivity. Qed.

(** C8, the code at the failing input: an indented comment line is found
    (the search trims each line) and returned with its marker in place
    (the replacement is anchored at the start of the untrimmed line). *)
Theorem C8_indented_comment_keeps_marker :
  generateSummary "  // hello" "/w/a.js" = "  // hello"
  /\ generateSummary "// hello" "/w/a.js" = "hello".
Proof. split; vm_compute; reflexivity. Qed.

(** C9, the code at the failing input: for a file that holds a single
    line break the summary is the file name, whatever its length; here it
    has 89 characters. *)
Theorem C9_fallback_summary_not_truncated :
  String.length (generateSummary (String "010"%char "") longName) = 89%nat.
Proof. vm_compute; reflexivity. Qed.

End SummaryFacts.

(* ------------------------------------------------------------------ *)
(** ** Query surface *)
(* ------------------------------------------------------------------ *)

Section RecentFiles.

(** Below the dispatcher, [getRecentFiles] itself rejects every
    non-positive number. *)
Lemma getRecentFiles_rejects_nonpositive (w : World) (st : Server) (h : Q) :
  (h <= 0)%Q -> getRecentFiles w (JNum h) st = inl hoursError.
Proof.
  intros H. unfold getRecentFiles.
  apply Qle_bool_iff in H. now rewrite H.
Qed.

(** For a positive number it answers with the records created strictly
    after the cut-off, and only those. *)
Lemma getRecentFiles_lists_exactly (w : World) (st : Server) (h : Q) :
  (0 < h)%Q ->
  exists p,
    getRecentFiles w (JNum h) st = inr p
    /\ payloadHours p = h
    /\ payloadCount p = length (payloadFiles p)
    /\ forall lf,
         In lf (payloadFiles p) <->
         exists e, In e (files st)
                   /\ (cutoffOf w h < created (snd e))%Z
                   /\ lf = listed st e.
Proof.
  intros Hpos. unfold getRecentFiles.
  destruct (Qle_bool h 0) eqn:E.
  - apply Qle_bool_iff in E. exfalso. exact (Qlt_not_le _ _ Hpos E).
  - eexists. split; [reflexivity|]. simpl. repeat split.
    + intros Hin. apply in_map_iff in Hin as (e & <- & Hin).
      apply (Permutation_in _ (sort_perm _ _)) in Hin.
      apply filter_In in Hin as [Hin Hc].
      exists e. repeat split; [exact Hin|now apply Z.ltb_lt].
    + intros (e & Hin & Hc & ->). apply in_map_iff. exists e.
      split; [reflexivity|].
      apply (Permutation_in _ (Permutation_sym (sort_perm _ _))).
      apply filter_In. split; [exact Hin|now apply Z.ltb_lt].
Qed.

(** An absent [hours] is the call with 24. *)
Lemma callGetRecentFiles_default (w : World) (st : Server) :
  callGetRecentFiles w JUndefined st
  = callGetRecentFiles w (JNum (inject_Z 24)) st.
Proof. reflexivity. Qed.

(** C2, the code at the failing input: with [hours] equal to 0 the
    dispatcher substitutes the default before [getRecentFiles] sees the
    argument, and the call answers as if [hours] were absent, with the
    listing of the last 24 hours; [getRecentFiles] itself would have
    raised the error for 0. *)
Theorem C2_zero_hours_takes_default :
  forall (w : World) (st : Server),
    callGetRecentFiles w (JNum 0) st = callGetRecentFiles w JUndefined st
    /\ (exists p, callGetRecentFiles w (JNum 0) st = Recent p
                  /\ payloadHours p = inject_Z 24)
    /\ getRecentFiles w (JNum 0) st = inl hoursError.
Proof.
  intros w st. split; [reflexivity|]. split.
  - unfold callGetRecentFiles. cbn. eexists. split; reflexivity.
  - reflexivity.
Qed.

End RecentFiles.

(* ------------------------------------------------------------------ *)
(** ** Durable writer *)
(* ------------------------------------------------------------------ *)

Section DurableWriter.

Lemma files_saveMetadata (w : World) (st : Server) :
  files (saveMetadata w st) = files st.
Proof.
  unfold saveMetadata. destruct (writeFileOk w); [reflexivity|].
  simpl. destruct (saveRetryCount st <? SAVE_RETRY_MAX)%Z; reflexivity.
Qed.

Lemma files_fireTimer (w : World) (st : Server) :
  files (fireTimer w st) = files st.
Proof.
  unfold fireTimer. destruct (timers st); [reflexivity|].
  now rewrite files_saveMetadata.
Qed.

Lemma retryChain_idle (ws : list World) (st : Server) :
  timers st = [] -> retryChain ws st = st.
Proof. intros H. destruct ws; simpl; [reflexivity|now rewrite H]. Qed.

Lemma scheduledDelays_app (es fs : list Effect) :
  scheduledDelays (es ++ fs) = (scheduledDelays es ++ scheduledDelays fs)%list.
Proof.
  induction es as [|e es IH]; simpl; [reflexivity|].
  destruct e; simpl; now rewrite IH.
Qed.

(** One failing attempt below the ceiling: the counter moves to [k + 1],
    one timer of [2^(k+1) * 1000] ms is set, and the call is over. *)
Lemma saveMetadata_failure_schedules (w : World) (st : Server) :
  writeFileOk w = false ->
  (saveRetryCount st < SAVE_RETRY_MAX)%Z ->
  saveMetadata w st
  = withRetry (saveRetryCount st + 1)
      (timers st ++ [backoff (saveRetryCount st + 1)])%list
      (emit [LogSaveError (saveRetryCount st + 1);
             SetTimeout (backoff (saveRetryCount st + 1))] st).
Proof.
  intros Hw Hk. unfold saveMetadata. rewrite Hw. simpl.
  apply Z.ltb_lt in Hk. rewrite Hk.
  unfold emit, withRetry. simpl. rewrite <- app_assoc. reflexivity.
Qed.

(** A failing attempt at the ceiling: no timer, the counter returns to
    zero. *)
Lemma saveMetadata_failure_exhausted (w : World) (st : Server) :
  writeFileOk w = false ->
  (SAVE_RETRY_MAX <= saveRetryCount st)%Z ->
  saveMetadata w st
  = withRetry 0 (timers st)
      (emit [LogSaveError (saveRetryCount st + 1); LogDataLoss] st).
Proof.
  intros Hw Hk. unfold saveMetadata. rewrite Hw. simpl.
  apply Z.ltb_ge in Hk. rewrite Hk.
  unfold emit, withRetry. simpl. rewrite <- app_assoc. reflexivity.
Qed.

(** The failing attempt on an explicit state. *)
Lemma saveMetadata_failure_eq (w : World) root fs init c t e :
  writeFileOk w = false ->
  saveMetadata w (mkServer root fs init c t e)
  = if (c <? SAVE_RETRY_MAX)%Z
    then mkServer root fs init (c + 1) (t ++ [backoff (c + 1)])%list
           (e ++ [LogSaveError (c + 1); SetTimeout (backoff (c + 1))])%list
    else mkServer root fs init 0 t
           (e ++ [LogSaveError (c + 1); LogDataLoss])%list.
Proof.
  intros Hw. unfold saveMetadata. rewrite Hw. simpl.
  destruct (c <? SAVE_RETRY_MAX)%Z; unfold withRetry, emit; simpl;
    now rewrite <- app_assoc.
Qed.

(** From the state left by the [k]-th scheduling, the rest of the chain
    sets a prefix of the remaining delays. *)
Lemma retryChain_delays (ws : list World) :
  forall (st : Server) (k : nat),
    (1 <= k <= 3)%nat ->
    saveRetryCount st = Z.of_nat k ->
    timers st = [backoff (Z.of_nat k)] ->
    exists n,
      scheduledDelays (effects (retryChain ws st))
      = (scheduledDelays (effects st) ++ firstn n (skipn k expectedDelays))%list.
Proof.
  induction ws as [|w ws IH]; intros st k Hk Hc Ht.
  - exists 0%nat. simpl. now rewrite app_nil_r.
  - simpl. rewrite Ht. unfold fireTimer. rewrite Ht.
    set (st1 := withRetry (saveRetryCount st) [] st).
    assert (Hc1 : saveRetryCount st1 = Z.of_nat k) by exact Hc.
    assert (Ht1 : timers st1 = []) by reflexivity.
    assert (He1 : effects st1 = effects st) by reflexivity.
    destruct (writeFileOk w) eqn:Hw.
    + exists 0%nat. rewrite retryChain_idle.
      * unfold saveMetadata. rewrite Hw. simpl.
        rewrite scheduledDelays_app. reflexivity.
      * unfold saveMetadata. now rewrite Hw.
    + destruct (Nat.eq_dec k 3) as [->|Hne].
      * exists 0%nat.
        rewrite saveMetadata_failure_exhausted by (auto; rewrite Hc1; reflexivity).
        rewrite retryChain_idle by exact Ht1.
        simpl. rewrite scheduledDelays_app. reflexivity.
      * rewrite saveMetadata_failure_schedules
          by (auto; rewrite Hc1; unfold SAVE_RETRY_MAX; lia).
        rewrite Hc1, Ht1.
        replace (Z.of_nat k + 1)%Z with (Z.of_nat (S k)) by lia.
        destruct (IH (withRetry (Z.of_nat (S k)) ([] ++ [backoff (Z.of_nat (S k))])%list
                        (emit [LogSaveError (Z.of_nat (S k));
                               SetTimeout (backoff (Z.of_nat (S k)))] st1))
                     (S k)) as [n Hn]; [lia|reflexivity|reflexivity|].
        exists (S n). rewrite Hn. simpl effects.
        rewrite scheduledDelays_app. simpl scheduledDelays.
        rewrite <- app_assoc. f_equal.
        assert (Hk' : k = 1%nat \/ k = 2%nat) by lia.
        destruct Hk' as [-> | ->]; reflexivity.
Qed.

(** C3, as the claim states it, fails.  The first retry does not wait
    the base delay of 1000 ms: the counter is incremented before the
    delay is computed, so it waits 2000 ms.  And the first retry of a
    save has no delay of its own: a save that fails while the retry of
    another one is pending waits 4000 ms, the counter being shared. *)
Lemma C3_counterexample :
  ~ (forall (w : World) (st : Server),
        writeFileOk w = false -> saveRetryCount st = 0%Z ->
        scheduledDelays (effects (saveMetadata w st))
        = (scheduledDelays (effects st) ++ [SAVE_RETRY_BASE_DELAY])%list)
  /\ ~ (exists d : Z,
           forall (w : World) (st : Server),
             writeFileOk w = false ->
             (saveRetryCount st < SAVE_RETRY_MAX)%Z ->
             timers (saveMetadata w st) = (timers st ++ [d])%list).
Proof.
  split.
  - intros H. specialize (H failing sampleServer eq_refl eq_refl).
    vm_compute in H. discriminate H.
  - intros [d H].
    pose proof (H failing sampleServer eq_refl eq_refl) as H0.
    pose proof (H failing (saveMetadata failing sampleServer)
                  eq_refl eq_refl) as H1.
    vm_compute in H0, H1. congruence.
Qed.

(** C3, amended: the retry of a failed write is decided by one counter
    that all save calls share, the number of failed writes since the
    last write that succeeded or the last exhaustion.  A write that
    fails with the counter at [c < 3] moves it to [c + 1] and sets one
    timer of [2^(c+1) * 1000] ms (2000, 4000, 8000) whose callback is
    the next attempt; the call only sets the timer and returns.  A write
    that fails with the counter at 3 sets no timer, logs the loss and
    puts the counter back to zero; a write that succeeds puts it back to
    zero too.  So a save that starts with the counter at zero and no
    retry pending is retried at most three times, after 2000, 4000 and
    8000 ms, and after the fourth failure the next save starts afresh;
    a save that fails while the retry of another is pending takes the
    next delay of the same sequence, and the fourth of four such saves
    gets no retry. *)
Theorem C3_retry_by_shared_counter :
  forall (st : Server) (w : World),
    (* a write that succeeds *)
    (writeFileOk w = true ->
     saveRetryCount (saveMetadata w st) = 0%Z
     /\ timers (saveMetadata w st) = timers st
     /\ scheduledDelays (effects (saveMetadata w st))
        = scheduledDelays (effects st))
    (* a write that fails below the ceiling: one timer, set and left *)
    /\ (writeFileOk w = false -> (saveRetryCount st < 3)%Z ->
        saveRetryCount (saveMetadata w st) = (saveRetryCount st + 1)%Z
        /\ timers (saveMetadata w st)
           = (timers st ++ [(2 ^ (saveRetryCount st + 1) * 1000)%Z])%list
        /\ effects (saveMetadata w st)
           = (effects st
              ++ [LogSaveError (saveRetryCount st + 1);
                  SetTimeout (2 ^ (saveRetryCount st + 1) * 1000)])%list)
    (* a write that fails at the ceiling *)
    /\ (writeFileOk w = false -> (3 <= saveRetryCount st)%Z ->
        saveRetryCount (saveMetadata w st) = 0%Z
        /\ timers (saveMetadata w st) = timers st
        /\ effects (saveMetadata w st)
           = (effects st
              ++ [LogSaveError (saveRetryCount st + 1); LogDataLoss])%list)
    (* saves that fail one after the other, no timer expiring between *)
    /\ (forall w' : World,
           writeFileOk w = false -> writeFileOk w' = false ->
           saveRetryCount st = 0%Z ->
           timers (saveMetadata w' (saveMetadata w st))
           = (timers st ++ [2000; 4000]%Z)%list)
    /\ (forall w1 w2 w3 : World,
           writeFileOk w = false -> writeFileOk w1 = false ->
           writeFileOk w2 = false -> writeFileOk w3 = false ->
           saveRetryCount st = 0%Z ->
           let st4 :=
             saveMetadata w3 (saveMetadata w2 (saveMetadata w1
               (saveMetadata w st))) in
           timers st4 = (timers st ++ [2000; 4000; 8000]%Z)%list
           /\ saveRetryCount st4 = 0%Z)
    (* one save and its retries, nothing else pending *)
    /\ (forall ws : list World,
           saveRetryCount st = 0%Z -> timers st = [] ->
           exists n, (n <= 3)%nat /\
             scheduledDelays (effects (saveWithRetries w ws st))
             = (scheduledDelays (effects st)
                ++ firstn n [2000; 4000; 8000]%Z)%list)
    /\ (forall ws : list World,
           saveRetryCount st = 0%Z -> timers st = [] ->
           writeFileOk w = false ->
           Forall (fun w' => writeFileOk w' = false) ws ->
           (3 <= length ws)%nat ->
           effects (saveWithRetries w ws st)
           = (effects st
              ++ [LogSaveError 1; SetTimeout 2000;
                  LogSaveError 2; SetTimeout 4000;
                  LogSaveError 3; SetTimeout 8000;
                  LogSaveError 4; LogDataLoss])%list
           /\ timers (saveWithRetries w ws st) = []
           /\ saveRetryCount (saveWithRetries w ws st) = 0%Z).
Proof.
  intros st w.
  assert (Hfail : writeFileOk w = false -> saveRetryCount st = 0%Z ->
                  saveMetadata w st
                  = withRetry 1 (timers st ++ [backoff 1])%list
                      (emit [LogSaveError 1; SetTimeout (backoff 1)] st)).
  { intros Hw Hc. rewrite saveMetadata_failure_schedules
      by (auto; rewrite Hc; reflexivity).
    now rewrite Hc. }
  split; [|split; [|split; [|split; [|split; [|split]]]]].
  - intros Hw. unfold saveMetadata. rewrite Hw. simpl.
    rewrite scheduledDelays_app. simpl. now rewrite app_nil_r.
  - intros Hw Hc. rewrite saveMetadata_failure_schedules by assumption.
    simpl. repeat split.
  - intros Hw Hc. rewrite saveMetadata_failure_exhausted by assumption.
    simpl. repeat split.
  - intros w' Hw Hw' Hc. rewrite (Hfail Hw Hc).
    rewrite saveMetadata_failure_schedules
      by (auto; simpl; unfold SAVE_RETRY_MAX; lia).
    simpl. now rewrite <- app_assoc.
  - intros w1 w2 w3 Hw H1 H2 H3 Hc. cbv zeta.
    destruct st as [root fs init count pending es].
    simpl in Hc. subst count.
    rewrite saveMetadata_failure_eq by exact Hw.
    cbn -[saveMetadata].
    rewrite saveMetadata_failure_eq by exact H1.
    cbn -[saveMetadata].
    rewrite saveMetadata_failure_eq by exact H2.
    cbn -[saveMetadata].
    rewrite saveMetadata_failure_eq by exact H3.
    cbn. rewrite <- !app_assoc. split; reflexivity.
  - intros ws Hc Ht. unfold saveWithRetries.
    destruct (writeFileOk w) eqn:Hw.
    + exists 0%nat. split; [lia|].
      rewrite retryChain_idle.
      * unfold saveMetadata. rewrite Hw. simpl.
        rewrite scheduledDelays_app. reflexivity.
      * unfold saveMetadata. rewrite Hw. exact Ht.
    + rewrite (Hfail eq_refl Hc), Ht.
      destruct (retryChain_delays ws
                  (withRetry 1 ([] ++ [backoff 1])%list
                     (emit [LogSaveError 1; SetTimeout (backoff 1)] st)) 1)
        as [n Hn]; [lia|reflexivity|reflexivity|].
      exists (S (Nat.min n 2)). split; [lia|].
      rewrite Hn. simpl effects. rewrite scheduledDelays_app.
      rewrite <- app_assoc. f_equal.
      destruct n as [|[|[|n]]]; reflexivity.
  - intros ws Hc Ht Hw Hall Hlen.
    destruct ws as [|w1 [|w2 [|w3 ws]]]; simpl in Hlen; try lia.
    inversion Hall as [|? ? H1 Hall1]; subst.
    inversion Hall1 as [|? ? H2 Hall2]; subst.
    inversion Hall2 as [|? ? H3 _]; subst.
    destruct st as [root fs init count pending es].
    simpl in Hc, Ht. subst count pending.
    unfold saveWithRetries.
    rewrite saveMetadata_failure_eq by exact Hw.
    cbn -[saveMetadata]; unfold withRetry; cbn -[saveMetadata].
    rewrite saveMetadata_failure_eq by exact H1.
    cbn -[saveMetadata]; unfold withRetry; cbn -[saveMetadata].
    rewrite saveMetadata_failure_eq by exact H2.
    cbn -[saveMetadata]; unfold withRetry; cbn -[saveMetadata].
    rewrite saveMetadata_failure_eq by exact H3.
    cbn -[saveMetadata]. rewrite retryChain_idle by reflexivity.
    cbn. rewrite <- !app_assoc. repeat split.
Qed.

(** Four failing writes in a row on the sample server, and a second
    failing save while the retry of the first is pending. *)
Lemma C3_witness :
  effects (saveWithRetries failing [failing; failing; failing] sampleServer)
  = [LogSaveError 1; SetTimeout 2000; LogSaveError 2; SetTimeout 4000;
     LogSaveError 3; SetTimeout 8000; LogSaveError 4; LogDataLoss]
  /\ timers (saveMetadata failing (saveMetadata failing sampleServer))
     = [2000; 4000]%Z.
Proof.
  split.
  - apply (proj2 (proj2 (proj2 (proj2 (proj2 (proj2
             (C3_retry_by_shared_counter sampleServer failing))))))
             [failing; failing; failing] eq_refl eq_refl eq_refl).
    + repeat constructor.
    + simpl; lia.
  - apply (proj1 (proj2 (proj2 (proj2
             (C3_retry_by_shared_counter sampleServer failing))))
             failing eq_refl eq_refl eq_refl).
Defined.

End DurableWriter.

(* ------------------------------------------------------------------ *)
(** ** The metadata index under watcher events and refreshes *)
(* ------------------------------------------------------------------ *)

Section IndexInvariants.












(** C10: an [add] event for a path that is already in the index leaves
    the whole server state as it was: every record (with its created,
    summary and tags), the retry state, and the effects, so that no write
    of the metadata document is attempted. *)
Theorem C10_duplicate_add_is_noop :
  forall (w : World) (st : Server) (filePath : string) (r : FileRecord),
    get filePath (files st) = Some r ->
    handleFileCreation w filePath st = st
    /\ files (handleFileCreation w filePath st) = files st
    /\ countWrites (effects (handleFileCreation w filePath st))
       = countWrites (effects st).
Proof.
  intros w st filePath r H.
  assert (E : handleFileCreation w filePath st = st)
    by (unfold handleFileCreation; now rewrite H).
  rewrite E. repeat split.
Qed.

(** A second [add] for a tracked file of the sample server. *)
Lemma C10_witness :
  handleFileCreation (sampleWorld true) "/w/src/api.ts" sampleServer
  = sampleServer.
Proof.
  apply (proj1 (C10_duplicate_add_is_noop (sampleWorld true) sampleServer
                  "/w/src/api.ts"
                  (plainRecord 1793620000000 "API endpoint definitions"
                               ["ts"; "code"])
                  eq_refl)).
Defined.

End IndexInvariants.

(* ------------------------------------------------------------------ *)
(** ** Tree serializer *)
(* ------------------------------------------------------------------ *)

Section TreeSerializer.

Lemma split_nonempty (c : ascii) (s : string) : split c s <> [].
Proof.
  destruct s as [|a s]; simpl; [discriminate|].
  destruct (Ascii.eqb a c); [discriminate|].
  destruct (split c s); discriminate.
Qed.

Lemma pathParts_nonempty (root p : string) : pathParts root p <> [].
Proof. apply split_nonempty. Qed.

Lemma isPrefix_refl (p : list string) : isPrefix p p = true.
Proof. induction p; simpl; [reflexivity|]. now rewrite String.eqb_refl. Qed.

Lemma metaAt_nil (parts : list string) : metaAt parts [] = None.
Proof. destruct parts; reflexivity. Qed.

Lemma includes_false_notin (l : list string) (x : string) :
  includes l x = false -> ~ In x l.
Proof.
  unfold includes. intros H Hin.
  assert (existsb (String.eqb x) l = true)
    by (apply existsb_exists; exists x; split; [exact Hin|apply String.eqb_refl]).
  congruence.
Qed.

Lemma plainParts_spec (parts : list string) :
  plainParts parts = true ->
  Forall (fun part => includes prototypeKeys part = false) parts
  /\ ~ In "created" (tl parts).
Proof.
  unfold plainParts. intros H. apply andb_true_iff in H as [H1 H2]. split.
  - apply Forall_forall. intros part Hin.
    rewrite forallb_forall in H1. apply negb_true_iff. now apply H1.
  - apply includes_false_notin. now apply negb_true_iff.
Qed.

(** Along plain segments the walk goes through, as long as it meets no
    leaf object on its way. *)
Lemma insertPath_total (parts : list string) (leaf : Leaf) :
  Forall (fun part => includes prototypeKeys part = false) parts ->
  forall (inRoot : bool) (current : list (string * node)),
    ~ In "created" (if inRoot then tl parts else parts) ->
    (forall q, strictPrefix q parts -> metaAt q current = None) ->
    exists t, insertPath inRoot false parts leaf current = Some t.
Proof.
  induction 1 as [|part rest Hr Hrest IH]; intros inRoot current Hc Hd;
    simpl; [eauto|].
  assert (Hres : reserved inRoot false part = false).
  { unfold reserved. rewrite Hr, andb_false_l, orb_false_r. simpl.
    destruct inRoot; [reflexivity|]. simpl.
    apply String.eqb_neq. intros ->. apply Hc. now left. }
  rewrite Hres. destruct rest as [|r rest]; [eauto|].
  assert (Hc' : ~ In "created" (r :: rest)).
  { intros Hin. apply Hc. destruct inRoot; [exact Hin|now right]. }
  destruct (get part current) as [[m ks]|] eqn:G.
  - assert (Hm : m = None).
    { specialize (Hd [part]). simpl in Hd. rewrite G in Hd.
      apply Hd. split; [discriminate|]. split; [|discriminate].
      simpl. now rewrite String.eqb_refl. }
    subst m. simpl isLeafObj.
    destruct (IH false ks Hc') as [sub ->]; [|eauto].
    intros q (Hq & Hpre & Hne).
    destruct q as [|q1 q]; [congruence|].
    specialize (Hd (part :: q1 :: q)). simpl in Hd. rewrite G in Hd.
    apply Hd. split; [discriminate|]. split; [|congruence].
    change (isPrefix (part :: q1 :: q) (part :: r :: rest))
      with (String.eqb part part && isPrefix (q1 :: q) (r :: rest)).
    now rewrite String.eqb_refl.
  - destruct (IH false [] Hc') as [sub ->]; [|eauto].
    intros q _. apply metaAt_nil.
Qed.

(** The leaf just stored is found at its path. *)
Lemma metaAt_insert_same (parts : list string) (leaf : Leaf) :
  parts <> [] ->
  forall inRoot leafObj current t,
    insertPath inRoot leafObj parts leaf current = Some t ->
    metaAt parts t = Some leaf.
Proof.
  induction parts as [|part rest IH]; intros Hne inRoot leafObj current t;
    [congruence|].
  simpl. destruct (reserved inRoot leafObj part); [discriminate|].
  destruct rest as [|r rest].
  - intros [= <-]. now rewrite get_set_same.
  - assert (Hr : r :: rest <> []) by discriminate.
    destruct (get part current) as [[m ks]|].
    + destruct (insertPath false (isLeafObj m) (r :: rest) leaf ks)
        as [sub|] eqn:E; [|discriminate].
      intros [= <-]. rewrite get_set_same. simpl nodeKids.
      exact (IH Hr _ _ ks sub E).
    + destruct (insertPath false false (r :: rest) leaf [])
        as [sub|] eqn:E; [|discriminate].
      intros [= <-]. rewrite get_set_same. simpl nodeKids.
      exact (IH Hr _ _ [] sub E).
Qed.

(** Storing a leaf at [p] leaves the fields at [q] alone unless [p] is a
    prefix of [q]. *)
Lemma metaAt_insert_other (p : list string) (leaf : Leaf) :
  forall q inRoot leafObj current t,
    isPrefix p q = false ->
    insertPath inRoot leafObj p leaf current = Some t ->
    metaAt q t = metaAt q current.
Proof.
  induction p as [|part rest IH]; intros q inRoot leafObj current t Hpre;
    [discriminate|].
  simpl. destruct (reserved inRoot leafObj part); [discriminate|].
  destruct q as [|qpart qrest]; [reflexivity|].
  simpl in Hpre.
  destruct (String.eqb_spec part qpart) as [<-|Hne].
  - simpl in Hpre.
    destruct rest as [|r rest]; [discriminate|].
    destruct (get part current) as [[m ks]|] eqn:G.
    + destruct (insertPath false (isLeafObj m) (r :: rest) leaf ks)
        as [sub|] eqn:E; [|discriminate].
      intros [= <-]. simpl. rewrite get_set_same, G. simpl.
      destruct qrest as [|q1 qrest]; [reflexivity|].
      exact (IH (q1 :: qrest) _ _ ks sub Hpre E).
    + destruct (insertPath false false (r :: rest) leaf [])
        as [sub|] eqn:E; [|discriminate].
      intros [= <-]. simpl. rewrite get_set_same, G. simpl.
      destruct qrest as [|q1 qrest]; [reflexivity|].
      rewrite (IH (q1 :: qrest) _ _ [] sub Hpre E). reflexivity.
  - assert (Hother : forall n, metaAt (qpart :: qrest) (set part n current)
                               = metaAt (qpart :: qrest) current).
    { intros n. simpl. now rewrite get_set_other. }
    destruct rest as [|r rest].
    + intros [= <-]. apply Hother.
    + destruct (get part current) as [[m ks]|].
      * destruct (insertPath false (isLeafObj m) (r :: rest) leaf ks);
          [|discriminate].
        intros [= <-]. apply Hother.
      * destruct (insertPath false false (r :: rest) leaf []); [|discriminate].
        intros [= <-]. apply Hother.
Qed.

(** Storing a leaf at [p] clears whatever lay strictly below [p]. *)
Lemma metaAt_insert_below (p : list string) (leaf : Leaf) :
  p <> [] ->
  forall q inRoot leafObj current t,
    isPrefix p q = true -> p <> q ->
    insertPath inRoot leafObj p leaf current = Some t ->
    metaAt q t = None.
Proof.
  induction p as [|part rest IH];
    intros Hp q inRoot leafObj current t Hpre Hne; [congruence|].
  simpl. destruct (reserved inRoot leafObj part); [discriminate|].
  destruct q as [|qpart qrest]; [discriminate|].
  simpl in Hpre. apply andb_true_iff in Hpre as [Heq Hpre].
  apply String.eqb_eq in Heq. subst qpart.
  assert (Hne' : rest <> qrest) by congruence.
  destruct rest as [|r rest].
  - intros [= <-]. simpl. rewrite get_set_same.
    destruct qrest as [|q1 qrest]; [congruence|]. reflexivity.
  - assert (Hr : r :: rest <> []) by discriminate.
    destruct qrest as [|q1 qrest]; [discriminate|].
    destruct (get part current) as [[m ks]|].
    + destruct (insertPath false (isLeafObj m) (r :: rest) leaf ks)
        as [sub|] eqn:E; [|discriminate].
      intros [= <-]. simpl. rewrite get_set_same. simpl.
      exact (IH Hr (q1 :: qrest) _ _ ks sub Hpre Hne' E).
    + destruct (insertPath false false (r :: rest) leaf [])
        as [sub|] eqn:E; [|discriminate].
      intros [= <-]. simpl. rewrite get_set_same. simpl.
      exact (IH Hr (q1 :: qrest) _ _ [] sub Hpre Hne' E).
Qed.

Lemma plainIndex_tail root e es :
  plainIndex root (e :: es) -> plainIndex root es.
Proof.
  intros [H1 H2]. split; intros; [apply H1|apply H2]; simpl; auto.
Qed.

(** What the tree holds after a run of the outer loop: the leaves of the
    entries stored, and what was there before where no stored path
    covers it. *)
Lemma insertAll_metaAt (root : string) (es : list (string * FileRecord)) :
  plainIndex root es ->
  forall current t,
    insertAll root es current = Some t ->
    forall q l,
      metaAt q t = Some l <->
      (exists e, In e es /\ pathParts root (fst e) = q /\ leafOf (snd e) = l)
      \/ (metaAt q current = Some l
          /\ forall e, In e es -> isPrefix (pathParts root (fst e)) q = false).
Proof.
  induction es as [|[p r] es IH]; intros Hplain current t.
  - simpl. intros [= <-] q l. split.
    + intros H. right. split; [exact H|]. intros e [].
    + intros [(e & [] & _)|[H _]]. exact H.
  - simpl. destruct (insertPath true false (pathParts root p) (leafOf r) current)
      as [t1|] eqn:E; [|discriminate].
    intros Hall q l.
    specialize (IH (plainIndex_tail _ _ _ Hplain) t1 t Hall q l).
    rewrite IH. clear IH. split.
    + intros [(e & Hin & Hq & Hl)|[Hm Hno]].
      * left. exists e. auto.
      * destruct (isPrefix (pathParts root p) q) eqn:Hpre.
        -- destruct (list_eq_dec string_dec (pathParts root p) q) as [Heq|Hne].
           ++ left. exists (p, r). split; [now left|]. split; [exact Heq|].
              subst q.
              rewrite (metaAt_insert_same _ _ (pathParts_nonempty root p)
                         _ _ _ _ E) in Hm.
              simpl. congruence.
           ++ rewrite (metaAt_insert_below _ _ (pathParts_nonempty root p)
                         _ _ _ _ _ Hpre Hne E) in Hm.
              discriminate.
        -- right. split.
           ++ now rewrite <- (metaAt_insert_other _ _ _ _ _ _ _ Hpre E).
           ++ intros e [<-|Hin]; [exact Hpre|auto].
    + intros [(e & [<-|Hin] & Hq & Hl)|[Hm Hno]].
      * simpl in Hl. simpl in Hq.
        destruct (existsb (fun e => isPrefix (pathParts root (fst e)) q) es) eqn:Hex.
        -- apply existsb_exists in Hex as (e' & Hin' & Hpre').
           left. exists e'. split; [exact Hin'|].
           assert (e' = (p, r)).
           { apply (proj2 Hplain); simpl; auto.
             simpl. now rewrite Hq. }
           subst e'. auto.
        -- right. split.
           ++ subst q l. eapply metaAt_insert_same; eauto.
              apply pathParts_nonempty.
           ++ intros e Hin.
              destruct (isPrefix (pathParts root (fst e)) q) eqn:Hpre; [|reflexivity].
              assert (existsb (fun e => isPrefix (pathParts root (fst e)) q) es = true)
                by (apply existsb_exists; eauto).
              congruence.
      * left. exists e. auto.
      * right. split.
        -- rewrite (metaAt_insert_other _ _ _ _ _ _ _
                      (Hno (p, r) (or_introl eq_refl)) E).
           exact Hm.
        -- intros e Hin. apply Hno. now right.
Qed.

Lemma isPrefix_trans (p q r : list string) :
  isPrefix p q = true -> isPrefix q r = true -> isPrefix p r = true.
Proof.
  revert q r. induction p as [|a p IH]; intros q r Hpq Hqr; [reflexivity|].
  destruct q as [|b q]; [discriminate|]. destruct r as [|c r]; [discriminate|].
  simpl in *. apply andb_true_iff in Hpq as [Hab Hpq].
  apply andb_true_iff in Hqr as [Hbc Hqr].
  apply String.eqb_eq in Hab, Hbc. subst b c.
  rewrite String.eqb_refl. simpl. eauto.
Qed.

Lemma isPrefix_antisym (p q : list string) :
  isPrefix p q = true -> isPrefix q p = true -> p = q.
Proof.
  revert q. induction p as [|a p IH]; intros [|b q] Hpq Hqp;
    try reflexivity; try discriminate.
  simpl in *. apply andb_true_iff in Hpq as [Hab Hpq].
  apply andb_true_iff in Hqp as [_ Hqp].
  apply String.eqb_eq in Hab. subst b. f_equal. now apply IH.
Qed.

(** In a plain index the outer loop never meets a leaf object where it
    needs a directory, so it goes through. *)
Lemma insertAll_total (root : string) (es : list (string * FileRecord)) :
  plainIndex root es ->
  forall current,
    (forall e q, In e es -> strictPrefix q (pathParts root (fst e)) ->
                 metaAt q current = None) ->
    exists t, insertAll root es current = Some t.
Proof.
  induction es as [|[p r] es IH]; intros Hplain current Hfree; simpl; [eauto|].
  destruct (plainParts_spec _ (proj1 Hplain (p, r) (or_introl eq_refl)))
    as [Hproto Hcreated].
  destruct (insertPath_total (pathParts root p) (leafOf r) Hproto true current
              Hcreated (fun q Hq => Hfree (p, r) q (or_introl eq_refl) Hq))
    as [t1 E].
  simpl in E. rewrite E.
  apply IH; [eapply plainIndex_tail; eauto|].
  intros e q Hin (Hq & Hpre & Hne).
  destruct (isPrefix (pathParts root p) q) eqn:Hpq.
  - assert (He : (p, r) = e).
    { apply (proj2 Hplain); simpl; auto.
      eapply isPrefix_trans; eauto. }
    subst e. simpl in Hpre, Hne.
    exfalso. apply Hne. now apply isPrefix_antisym.
  - rewrite (metaAt_insert_other _ _ _ _ _ _ _ Hpq E).
    apply (Hfree e q); [now right|]. repeat split; assumption.
Qed.

Lemma plainIndex_sorted (root : string) (filesObj : obj FileRecord) :
  plainIndex root filesObj ->
  plainIndex root (sort byCreatedDesc filesObj).
Proof.
  intros [H1 H2].
  assert (Hin : forall e, In e (sort byCreatedDesc filesObj) -> In e filesObj)
    by (intros e; apply Permutation_in, sort_perm).
  split.
  - intros e He. apply H1. auto.
  - intros e1 e2 He1 He2. apply H2; auto.
Qed.

Local Open Scope Z_scope.

(** The short date and the time of day are functions of the minute. *)
Lemma civil_minute (a b : Z) :
  a / 60000 = b / 60000 ->
  let ca := JsDate.civil a in
  let cb := JsDate.civil b in
  JsDate.year ca = JsDate.year cb /\ JsDate.month ca = JsDate.month cb
  /\ JsDate.day ca = JsDate.day cb /\ JsDate.hour ca = JsDate.hour cb
  /\ JsDate.minute ca = JsDate.minute cb.
Proof.
  intros H.
  assert (Hd : a / 86400000 = b / 86400000).
  { replace 86400000 with (60000 * 1440) by reflexivity.
    rewrite <- !Z.div_div by lia. now rewrite H. }
  assert (Hm : (a mod 86400000) / 60000 = (b mod 86400000) / 60000).
  { replace 86400000 with (60000 * 1440) by reflexivity.
    rewrite !Z.rem_mul_r by lia.
    rewrite !(Z.mul_comm 60000), !Z.div_add by lia.
    rewrite !(Z.div_small (_ mod 60000)) by (apply Z.mod_pos_bound; lia).
    now rewrite H. }
  assert (Hh : (a mod 86400000) / 3600000 = (b mod 86400000) / 3600000).
  { replace 3600000 with (60000 * 60) by reflexivity.
    rewrite <- !Z.div_div by lia. now rewrite Hm. }
  unfold JsDate.civil. rewrite Hd, Hm, Hh.
  destruct (JsDate.civilFromDays (b / 86400000)) as [[y m] d].
  simpl. repeat split.
Qed.

(** The rendered time stamp has the resolution of a minute: two instants
    of the same minute with the same age in minutes print alike. *)
Lemma formatDateTime_minute (w : World) (c1 c2 : Z) :
  c1 / 60000 = c2 / 60000 ->
  (now w - c1) / 60000 = (now w - c2) / 60000 ->
  formatDateTime w c1 = formatDateTime w c2.
Proof.
  intros Hc Hage.
  assert (Hwall : JsDate.wallClock (tzOffsetMinutes w) c1 / 60000
                  = JsDate.wallClock (tzOffsetMinutes w) c2 / 60000).
  { unfold JsDate.wallClock. rewrite !Z.div_add by lia. now rewrite Hc. }
  destruct (civil_minute _ _ Hwall) as (Hy & Hmo & Hd & Hh & Hmi).
  assert (Hhours : (now w - c1) / 3600000 = (now w - c2) / 3600000).
  { replace 3600000 with (60000 * 60) by reflexivity.
    rewrite <- !Z.div_div by lia. now rewrite Hage. }
  assert (Hdays : (now w - c1) / 86400000 = (now w - c2) / 86400000).
  { replace 86400000 with (60000 * 1440) by reflexivity.
    rewrite <- !Z.div_div by lia. now rewrite Hage. }
  unfold formatDateTime, JsDate.localeDateShort, JsDate.localeTimeMinutes.
  cbv zeta in *.
  now rewrite Hage, Hhours, Hdays, Hy, Hmo, Hd, Hh, Hmi.
Qed.

(** C1: the round trip is broken by the writer.  For the workspace [/w]
    with one record, [/w/notes.txt] created at 14:21:45, saved at
    14:22:05, the text [saveMetadata] hands to [fs.writeFile] is the one
    below.  It opens with the banner as plain text: lines that are
    neither comments nor entries stand before [workspace:], and the
    first of them run together into one scalar that is then followed by
    a colon, which is not a YAML document; [loadMetadata] passes the
    whole text to [YAML.parse].  The [created] line carries the minute
    and the age, not the second: the index whose record was created one
    second later is saved as the same text. *)
Theorem C1_saved_text_has_plain_banner :
  document (sampleWorld true) "/w" (indexAt 1793629305000)
  = Some (join nl
      [ "TIMEPON FILE TRACKING";
        "/w";
        rule;
        "Last Updated:     Monday, 2 November 2026 at 14:22:05";
        "Files Tracked:    1";
        "";
        "TIP: Use code folding to collapse folders (click arrows by line numbers)";
        "";
        "Ctrl+K Ctrl+0 = fold all | Ctrl+K Ctrl+J = unfold all";
        rule;
        "";
        "workspace: /w";
        "lastUpdated: '2026-11-02T14:22:05.123Z'";
        "totalFiles: 1";
        "";
        "files:";
        "";
        "  # === [home] Root";
        "  Root:";
        "    # [memo] notes.txt  >> just now <<";
        "    notes.txt:";
        "      created: 02 Nov 2026 14:21 >>(just now)<<";
        "      summary: Meeting notes";
        "      tags: [txt, docs]";
        rule;
        "End of Timepon tracking data";
        rule;
        "" ])
  /\ document (sampleWorld true) "/w" (indexAt 1793629306000)
     = document (sampleWorld true) "/w" (indexAt 1793629305000).
Proof. split; vm_compute; reflexivity. Qed.

(** X25: for an index of plain paths in which no tracked path is a
    prefix of another, [buildFileTree] goes through and the tree it
    returns holds leaf fields at exactly the workspace-relative paths of
    the index, each with the created, summary and tags of its record;
    [totalFiles] is the number of records, and the document is
    produced.  Directories named [tags] or [summary], and a first
    segment [created], are paths like any other. *)
Theorem X25_tree_holds_the_index :
  forall (w : World) (root : string) (filesObj : obj FileRecord),
    plainIndex root filesObj ->
    exists tree,
      buildFileTree w root filesObj = Some tree
      /\ document w root filesObj <> None
      /\ treeTotalFiles tree = length filesObj
      /\ forall q l,
           metaAt q (treeFiles tree) = Some l <->
           exists e, In e filesObj
                     /\ pathParts root (fst e) = q
                     /\ leafOf (snd e) = l.
Proof.
  intros w root filesObj Hplain.
  pose proof (plainIndex_sorted root filesObj Hplain) as Hsorted.
  destruct (insertAll_total root _ Hsorted [])
    as [t Ht]; [intros e q _ _; apply metaAt_nil|].
  unfold document, buildFileTree. rewrite Ht.
  eexists. split; [reflexivity|]. split; [discriminate|].
  split; [apply length_map|].
  intros q l. simpl treeFiles.
  rewrite (insertAll_metaAt root _ Hsorted [] t Ht q l). split.
  - intros [(e & Hin & Hq & Hl)|[Hm _]].
    + exists e. split; [|auto].
      revert Hin. apply Permutation_in, sort_perm.
    + rewrite metaAt_nil in Hm. discriminate Hm.
  - intros (e & Hin & Hq & Hl). left. exists e. split; [|auto].
    revert Hin. apply Permutation_in, Permutation_sym, sort_perm.
Qed.

(** An index with a directory [tags], a directory [summary] and a file
    [created]: the record of [tags/a.txt] is found under [tags],
    [a.txt]. *)
Lemma X25_witness :
  exists tree,
    buildFileTree (sampleWorld true) "/w" namedLikeFields = Some tree
    /\ metaAt ["tags"; "a.txt"] (treeFiles tree)
       = Some {| leafCreated := 1793629305000;
                 leafSummary := "Tag list";
                 leafTags := ["txt"; "docs"] |}.
Proof.
  assert (Hplain : plainIndex "/w" namedLikeFields).
  { split.
    - intros e [<-|[<-|[<-|[]]]]; reflexivity.
    - intros e1 e2 [<-|[<-|[<-|[]]]] [<-|[<-|[<-|[]]]] H;
        try reflexivity; vm_compute in H; discriminate H. }
  destruct (X25_tree_holds_the_index (sampleWorld true) "/w"
              namedLikeFields Hplain)
    as (tree & Ht & _ & _ & Hm).
  exists tree. split; [exact Ht|].
  apply Hm. eexists. split; [left; reflexivity|].
  split; reflexivity.
Defined.

(** X26: [formatDateTime] prints the minute of an instant and its age:
    two instants of the same minute whose ages in whole minutes agree
    are printed alike, by [formatDateTime] and by [getRelativeTime], so
    the [created] line of the document does not tell them apart. *)
Theorem X26_created_printed_to_the_minute :
  forall (w : World) (c1 c2 : Z),
    c1 / 60000 = c2 / 60000 ->
    (now w - c1) / 60000 = (now w - c2) / 60000 ->
    formatDateTime w c1 = formatDateTime w c2
    /\ getRelativeTime w c1 = getRelativeTime w c2.
Proof.
  intros w c1 c2 Hc Hage. split; [now apply formatDateTime_minute|].
  assert (Hhours : (now w - c1) / 3600000 = (now w - c2) / 3600000).
  { replace 3600000 with (60000 * 60) by reflexivity.
    rewrite <- !Z.div_div by lia. now rewrite Hage. }
  assert (Hdays : (now w - c1) / 86400000 = (now w - c2) / 86400000).
  { replace 86400000 with (60000 * 1440) by reflexivity.
    rewrite <- !Z.div_div by lia. now rewrite Hage. }
  unfold getRelativeTime. cbv zeta. now rewrite Hage, Hhours, Hdays.
Qed.

(** 14:21:45 and 14:21:46, seen at 14:22:05. *)
Lemma X26_witness :
  formatDateTime (sampleWorld true) 1793629305000
  = formatDateTime (sampleWorld true) 1793629306000.
Proof.
  apply (proj1 (X26_created_printed_to_the_minute (sampleWorld true)
                  1793629305000 1793629306000 eq_refl eq_refl)).
Defined.

End TreeSerializer.

(* ================================================================== *)
(** * Further properties of the code *)
(* ================================================================== *)

Import Queries Lifecycle Notions.

(* ------------------------------------------------------------------ *)
(** ** Listings: order and content *)
(* ------------------------------------------------------------------ *)

Section Listings.
Local Open Scope Z_scope.

Lemma insertSorted_newest {K : Type} (x : K * FileRecord) (l : list (K * FileRecord)) :
  Sorted.StronglySorted newerEntry l ->
  Sorted.StronglySorted newerEntry (insertSorted byCreatedDesc x l).
Proof.
  induction l as [|y l IH]; simpl; intros Hs.
  - constructor; constructor.
  - apply Sorted.StronglySorted_inv in Hs as [Hl Hy].
    destruct (byCreatedDesc x y <=? 0) eqn:E.
    + apply Z.leb_le in E. unfold byCreatedDesc in E.
      constructor; [constructor; assumption|].
      constructor; [unfold newerEntry; lia|].
      eapply Forall_impl; [|exact Hy].
      unfold newerEntry. intros z Hz. lia.
    + apply Z.leb_gt in E. unfold byCreatedDesc in E.
      constructor; [auto|].
      apply (Permutation_Forall (Permutation_sym (insertSorted_perm _ x l))).
      constructor; [unfold newerEntry; lia|exact Hy].
Qed.

Lemma insertSorted_stable {K : Type} (c : Z) (x : K * FileRecord)
      (l : list (K * FileRecord)) :
  filter (sameInstant c) (insertSorted byCreatedDesc x l)
  = filter (sameInstant c) (x :: l).
Proof.
  induction l as [|y l IH]; [reflexivity|].
  simpl insertSorted.
  destruct (byCreatedDesc x y <=? 0) eqn:E; [reflexivity|].
  apply Z.leb_gt in E. unfold byCreatedDesc in E.
  change (filter (sameInstant c) (y :: insertSorted byCreatedDesc x l))
    with (if sameInstant c y
          then y :: filter (sameInstant c) (insertSorted byCreatedDesc x l)
          else filter (sameInstant c) (insertSorted byCreatedDesc x l)).
  rewrite IH. simpl. unfold sameInstant.
  destruct (created (snd y) =? c) eqn:Ey, (created (snd x) =? c) eqn:Ex;
    try reflexivity.
  apply Z.eqb_eq in Ey, Ex. lia.
Qed.

(** X1: the comparator shared by the four listings and the tree builder
    sorts newest first, keeps every entry, and leaves entries with the
    same [created] in the order they had. *)
Theorem X1_sort_newest_first_stable :
  forall (K : Type) (l : list (K * FileRecord)),
    Permutation (sort byCreatedDesc l) l
    /\ Sorted.StronglySorted newerEntry (sort byCreatedDesc l)
    /\ forall c, filter (sameInstant c) (sort byCreatedDesc l)
                 = filter (sameInstant c) l.
Proof.
  intros K l. split; [apply sort_perm|]. split.
  - induction l as [|x l IH]; simpl; [constructor|].
    now apply insertSorted_newest.
  - intros c. induction l as [|x l IH]; [reflexivity|].
    simpl sort. rewrite insertSorted_stable. simpl. now rewrite IH.
Qed.

Lemma sort_newest {K : Type} (l : list (K * FileRecord)) :
  Sorted.StronglySorted newerEntry (sort byCreatedDesc l).
Proof.
  induction l as [|x l IH]; simpl; [constructor|].
  now apply insertSorted_newest.
Qed.

Lemma listed_sorted (st : Server) (l : list (string * FileRecord)) :
  Sorted.StronglySorted newerEntry l ->
  Sorted.StronglySorted newerListed (map (listed st) l).
Proof.
  induction 1 as [|e l Hl IH He]; simpl; constructor; [exact IH|].
  apply Forall_map. exact He.
Qed.

(** What every listing is made of: the entries its filter keeps, each
    once per index entry, newest first. *)
Lemma listing_facts (keep : string * FileRecord -> bool) (st : Server) :
  let found :=
    map (listed st) (sort byCreatedDesc (filter keep (files st))) in
  (forall lf, In lf found <->
              exists e, In e (files st) /\ keep e = true /\ lf = listed st e)
  /\ Sorted.StronglySorted newerListed found
  /\ Permutation found (map (listed st) (filter keep (files st))).
Proof.
  cbv zeta. split; [|split].
  - intros lf. rewrite in_map_iff. split.
    + intros (e & <- & Hin).
      apply (Permutation_in _ (sort_perm _ _)) in Hin.
      apply filter_In in Hin as [Hin Hk]. eauto.
    + intros (e & Hin & Hk & ->). exists e. split; [reflexivity|].
      apply (Permutation_in _ (Permutation_sym (sort_perm _ _))).
      now apply filter_In.
  - apply listed_sorted, sort_newest.
  - apply Permutation_map, sort_perm.
Qed.

Lemma filter_all {A : Type} (l : list A) : filter (fun _ => true) l = l.
Proof. induction l; simpl; congruence. Qed.

(** X2: [getAllFiles] lists every record of the index exactly once, with
    the path made relative to the workspace root, newest first, and
    [count] is the number of tracked files. *)
Theorem X2_getAllFiles_complete :
  forall st : Server,
    allCount (getAllFiles st) = length (files st)
    /\ Permutation (allFiles (getAllFiles st)) (map (listed st) (files st))
    /\ Sorted.StronglySorted newerListed (allFiles (getAllFiles st)).
Proof.
  intros st. unfold getAllFiles. simpl.
  split; [|split].
  - rewrite length_map. apply Permutation_length, sort_perm.
  - apply Permutation_map, sort_perm.
  - apply listed_sorted, sort_newest.
Qed.

Lemma includes_In (l : list string) (x : string) :
  includes l x = true <-> In x l.
Proof.
  unfold includes. rewrite existsb_exists. split.
  - intros (y & Hin & E). apply String.eqb_eq in E. now subst.
  - intros H. exists x. split; [exact H|apply String.eqb_refl].
Qed.

(** X3: [getFilesByTag] raises its error for every argument that is not
    a non-empty string; for a non-empty string it answers with exactly
    the records whose tags contain that string, newest first, and with
    their number as [count]. *)
Theorem X3_getFilesByTag_exact :
  forall (st : Server) (tag : JsValue),
    (~ nonEmptyString tag -> getFilesByTag tag st = inl tagError)
    /\ (forall t, tag = JStr t -> t <> EmptyString ->
          exists p,
            getFilesByTag tag st = inr p
            /\ tagName p = t
            /\ tagCount p = length (tagFiles p)
            /\ (forall lf,
                   In lf (tagFiles p) <->
                   exists e, In e (files st) /\ In t (tags (snd e))
                             /\ lf = listed st e)
            /\ Sorted.StronglySorted newerListed (tagFiles p)).
Proof.
  intros st tag. split.
  - intros Hbad. destruct tag as [| |b|q|s|]; try reflexivity.
    destruct s; [reflexivity|]. exfalso. apply Hbad. simpl. discriminate.
  - intros t -> Hne. unfold getFilesByTag.
    destruct t as [|c t]; [congruence|]. simpl negb. cbv iota.
    eexists. split; [reflexivity|]. simpl.
    destruct (listing_facts (fun e => includes (tags (snd e)) (String c t)) st)
      as (Hin & Hsorted & _).
    repeat split; try exact Hsorted.
    + intros H. apply Hin in H as (e & He & Hk & ->).
      exists e. repeat split; [exact He|now apply includes_In].
    + intros (e & He & Ht & ->). apply Hin. exists e.
      repeat split; [exact He|now apply includes_In].
Qed.

(** The tag [docs] on the sample server. *)
Lemma X3_witness :
  exists p, getFilesByTag (JStr "docs") Samples.sampleServer = inr p
            /\ tagCount p = 1%nat.
Proof.
  destruct (proj2 (X3_getFilesByTag_exact Samples.sampleServer (JStr "docs"))
              "docs" eq_refl) as (p & Hp & _ & Hc & _).
  - discriminate.
  - exists p. split; [exact Hp|].
    rewrite Hc. vm_compute in Hp. injection Hp as <-. reflexivity.
Defined.

(** X4: [searchFiles] raises its error for every argument that is not a
    non-empty string; otherwise it answers with exactly the records whose
    lower-cased base name or lower-cased summary contains the lower-cased
    query, newest first. *)
Theorem X4_searchFiles_exact :
  forall (st : Server) (query : JsValue),
    (~ nonEmptyString query -> searchFiles query st = inl queryError)
    /\ (forall q, query = JStr q -> q <> EmptyString ->
          exists p,
            searchFiles query st = inr p
            /\ searchQuery p = q
            /\ searchCount p = length (searchFound p)
            /\ (forall lf,
                   In lf (searchFound p) <->
                   exists e,
                     In e (files st)
                     /\ (Extractor.strIncludes
                           (toLowerCase (basename (fst e))) (toLowerCase q)
                         || Extractor.strIncludes
                              (toLowerCase (summary (snd e))) (toLowerCase q))
                        = true
                     /\ lf = listed st e)
            /\ Sorted.StronglySorted newerListed (searchFound p)).
Proof.
  intros st query. split.
  - intros Hbad. destruct query as [| |b|x|s|]; try reflexivity.
    destruct s; [reflexivity|]. exfalso. apply Hbad. simpl. discriminate.
  - intros q -> Hne. unfold searchFiles.
    destruct q as [|c q]; [congruence|]. simpl negb. cbv iota.
    eexists. split; [reflexivity|]. simpl searchQuery. simpl searchCount.
    simpl searchFound.
    destruct (listing_facts (searchHit (toLowerCase (String c q))) st)
      as (Hin & Hsorted & _).
    repeat split; try exact Hsorted.
    + intros H. apply Hin in H as (e & He & Hk & ->). exists e. auto.
    + intros (e & He & Hk & ->). apply Hin. exists e. auto.
Qed.

(** The query [API] on the sample server finds [src/api.ts] by its name
    and by its summary. *)
Lemma X4_witness :
  exists p, searchFiles (JStr "API") Samples.sampleServer = inr p
            /\ searchCount p = 1%nat.
Proof.
  destruct (proj2 (X4_searchFiles_exact Samples.sampleServer (JStr "API"))
              "API" eq_refl) as (p & Hp & _ & Hc & _).
  - discriminate.
  - exists p. split; [exact Hp|].
    rewrite Hc. vm_compute in Hp. injection Hp as <-. reflexivity.
Defined.

End Listings.

(* ------------------------------------------------------------------ *)
(** ** Refresh *)
(* ------------------------------------------------------------------ *)

Section Refresh.

Lemma get_notin {V : Type} (k : string) (o : obj V) :
  ~ In k (keys o) -> get k o = None.
Proof.
  induction o as [|[k' v'] o IH]; simpl; [reflexivity|]. intros H.
  destruct (String.eqb_spec k k') as [->|Hne]; [exfalso; auto|].
  apply IH. auto.
Qed.

Lemma get_middle {V : Type} (k : string) (r : V) (a b : obj V) :
  ~ In k (keys a) -> get k (a ++ (k, r) :: b)%list = Some r.
Proof.
  induction a as [|[k' v'] a IH]; simpl; intros H.
  - now rewrite String.eqb_refl.
  - destruct (String.eqb_spec k k') as [->|Hne]; [exfalso; auto|].
    apply IH. auto.
Qed.

Lemma replace_middle {V : Type} (k : string) (r v : V) (a b : obj V) :
  ~ In k (keys a) ->
  replace k v (a ++ (k, r) :: b)%list = (a ++ (k, v) :: b)%list.
Proof.
  induction a as [|[k' v'] a IH]; simpl; intros H.
  - now rewrite String.eqb_refl.
  - destruct (String.eqb_spec k k') as [->|Hne]; [exfalso; auto|].
    f_equal. apply IH. auto.
Qed.

Lemma set_middle {V : Type} (k : string) (r v : V) (a b : obj V) :
  ~ In k (keys a) ->
  set k v (a ++ (k, r) :: b)%list = (a ++ (k, v) :: b)%list.
Proof.
  intros H. unfold set. rewrite get_middle by exact H.
  now apply replace_middle.
Qed.

Lemma fold_left_batches {A : Type} (f : A -> string -> A) (fuel : nat) :
  forall (l : list string) (a : A),
    fold_left (fun acc batch => fold_left f batch acc) (batches fuel l) a
    = fold_left f l a.
Proof.
  induction fuel as [|fuel IH]; intros l a.
  - destruct l; reflexivity.
  - destruct l as [|x l]; [reflexivity|].
    change (batches (S fuel) (x :: l))
      with (firstn BATCH_SIZE (x :: l)
            :: batches fuel (skipn BATCH_SIZE (x :: l))).
    remember (firstn BATCH_SIZE (x :: l)) as hd eqn:Ehd.
    remember (skipn BATCH_SIZE (x :: l)) as tl eqn:Etl.
    simpl. rewrite IH, <- fold_left_app. subst hd tl.
    now rewrite firstn_skipn.
Qed.

Lemma refreshFile_middle (w : World) (k : string) (r : FileRecord)
      (a b : obj FileRecord) (st : Server) (n : RefreshCounts) :
  files st = (a ++ (k, r) :: b)%list ->
  ~ In k (keys a) ->
  let '(st', n') := refreshFile w k (st, n) in
  files st' = (a ++ (k, refreshed w k r) :: b)%list
  /\ updatedCount n' = (updatedCount n + if onDisk w k then 1 else 0)%nat
  /\ staleCount n' = (staleCount n + if onDisk w k then 0 else 1)%nat
  /\ errorCount n' = (errorCount n + if onDisk w k then 0 else 1)%nat.
Proof.
  intros Hf Hk. unfold refreshFile, refreshed, onDisk.
  rewrite Hf, get_middle by exact Hk.
  destruct (stat w k) as [stats|]; simpl; rewrite set_middle by exact Hk;
    repeat split; lia.
Qed.

Lemma refresh_fold (w : World) :
  forall (todo done : obj FileRecord) (st : Server) (n : RefreshCounts),
    files st = (done ++ todo)%list ->
    NoDup (keys (done ++ todo)%list) ->
    let '(st', n') :=
      fold_left (fun a p => refreshFile w p a) (keys todo) (st, n) in
    files st' = (done ++ map (refreshedEntry w) todo)%list
    /\ updatedCount n'
       = (updatedCount n + length (filter (onDisk w) (keys todo)))%nat
    /\ staleCount n'
       = (staleCount n
          + length (filter (fun p => negb (onDisk w p)) (keys todo)))%nat
    /\ errorCount n'
       = (errorCount n
          + length (filter (fun p => negb (onDisk w p)) (keys todo)))%nat.
Proof.
  induction todo as [|[k r] todo IH]; intros done st n Hf Hnd.
  - simpl. rewrite Hf. repeat split; lia.
  - assert (Hk : ~ In k (keys done)).
    { unfold keys in *. rewrite map_app in Hnd. simpl in Hnd.
      apply NoDup_remove_2 in Hnd. intros Hin. apply Hnd.
      apply in_or_app. now left. }
    change (keys ((k, r) :: todo)) with (k :: keys todo).
    cbn [fold_left].
    pose proof (refreshFile_middle w k r done todo st n Hf Hk) as Hstep.
    destruct (refreshFile w k (st, n)) as [st1 n1].
    destruct Hstep as (Hf1 & Hu1 & Hs1 & He1).
    specialize (IH (done ++ [(k, refreshed w k r)])%list st1 n1).
    rewrite <- !app_assoc in IH. simpl in IH.
    assert (Hnd1 : NoDup (keys (done ++ (k, refreshed w k r) :: todo)%list)).
    { unfold keys in *. rewrite map_app in *. exact Hnd. }
    specialize (IH Hf1 Hnd1).
    destruct (fold_left _ (keys todo) (st1, n1)) as [st2 n2].
    destruct IH as (Hf2 & Hu2 & Hs2 & He2).
    split; [exact Hf2|].
    simpl filter. destruct (onDisk w k); simpl; repeat split; lia.
Qed.

Lemma refreshMetadata_facts :
  forall (w : World) (st : Server),
    NoDup (keys (files st)) ->
    files (fst (refreshMetadata w st)) = map (refreshedEntry w) (files st)
    /\ keys (files (fst (refreshMetadata w st))) = keys (files st)
    /\ (updatedCount (snd (refreshMetadata w st))
        + staleCount (snd (refreshMetadata w st)))%nat
       = length (files st)
    /\ errorCount (snd (refreshMetadata w st))
       = staleCount (snd (refreshMetadata w st))
    /\ updatedCount (snd (refreshMetadata w st))
       = length (filter (onDisk w) (keys (files st))).
Proof.
  intros w st Hnd. unfold refreshMetadata.
  rewrite fold_left_batches.
  pose proof (refresh_fold w (files st) [] st
                {| updatedCount := 0; errorCount := 0; staleCount := 0 |}
                eq_refl Hnd) as H.
  destruct (fold_left _ (keys (files st)) _) as [st' n'].
  destruct H as (Hf & Hu & Hs & He). simpl in *.
  rewrite files_saveMetadata, Hf.
  split; [reflexivity|]. split.
  - unfold keys. rewrite map_map. reflexivity.
  - rewrite Hu, Hs, He. repeat split.
    unfold keys. clear.
    induction (files st) as [|e l IH]; simpl; [reflexivity|].
    destruct (onDisk w (fst e)); simpl; lia.
Qed.

(** X5: [refreshMetadata] keeps every key in its place and replaces each
    record by its refreshed form: rebuilt with the old [created] and
    without the stale mark when [fs.stat] succeeds, kept with
    [stale = true] when it fails.  The counts it reports add up: one
    outcome per tracked file, and as many errors as stale marks. *)
Theorem X5_refresh_per_record :
  forall (w : World) (st : Server),
    NoDup (keys (files st)) ->
    files (fst (refreshMetadata w st)) = map (refreshedEntry w) (files st)
    /\ keys (files (fst (refreshMetadata w st))) = keys (files st)
    /\ (updatedCount (snd (refreshMetadata w st))
        + staleCount (snd (refreshMetadata w st)))%nat
       = length (files st)
    /\ errorCount (snd (refreshMetadata w st))
       = staleCount (snd (refreshMetadata w st))
    /\ updatedCount (snd (refreshMetadata w st))
       = length (filter (onDisk w) (keys (files st))).
Proof. exact refreshMetadata_facts. Qed.

(** The sample server against a disk that holds one of its two files. *)
Lemma X5_witness :
  files (fst (refreshMetadata Samples.live Samples.sampleServer))
  = map (refreshedEntry Samples.live) (files Samples.sampleServer).
Proof.
  apply (proj1 (X5_refresh_per_record Samples.live Samples.sampleServer
                  ltac:(repeat constructor; simpl; intuition discriminate))).
Defined.

Lemma refreshed_idem (w : World) (p : string) (r : FileRecord) :
  refreshed w p (refreshed w p r) = refreshed w p r.
Proof. unfold refreshed. destruct (stat w p); reflexivity. Qed.

(** X6: refreshing twice against the same file system gives the index
    of refreshing once: same summaries, tags, stale marks and [created]
    values, and the same counts. *)
Theorem X6_refresh_idempotent :
  forall (w : World) (st : Server),
    NoDup (keys (files st)) ->
    files (fst (refreshMetadata w (fst (refreshMetadata w st))))
    = files (fst (refreshMetadata w st))
    /\ updatedCount (snd (refreshMetadata w (fst (refreshMetadata w st))))
       = updatedCount (snd (refreshMetadata w st)).
Proof.
  intros w st Hnd.
  destruct (refreshMetadata_facts w st Hnd) as (Hf & Hk & _ & _ & Hu).
  assert (Hnd1 : NoDup (keys (files (fst (refreshMetadata w st)))))
    by (rewrite Hk; exact Hnd).
  destruct (refreshMetadata_facts w _ Hnd1) as (Hf1 & _ & _ & _ & Hu1).
  split.
  - rewrite Hf1, Hf, map_map. apply map_ext. intros [p r].
    unfold refreshedEntry. simpl. now rewrite refreshed_idem.
  - rewrite Hu1, Hk, Hu. reflexivity.
Qed.

(** Refreshing the sample server twice against the same disk. *)
Lemma X6_witness :
  files (fst (refreshMetadata Samples.live
                (fst (refreshMetadata Samples.live Samples.sampleServer))))
  = files (fst (refreshMetadata Samples.live Samples.sampleServer)).
Proof.
  apply (proj1 (X6_refresh_idempotent Samples.live Samples.sampleServer
                  ltac:(repeat constructor; simpl; intuition discriminate))).
Defined.

End Refresh.

(* ------------------------------------------------------------------ *)
(** ** Invariants of the running server *)
(* ------------------------------------------------------------------ *)

Section RunInvariants.
Import Extractor.

Lemma Forall_snd_set {V : Type} (Q : V -> Prop) (k : string) (v : V) (o : obj V) :
  Q v ->
  Forall (fun e => Q (snd e)) o ->
  Forall (fun e => Q (snd e)) (set k v o).
Proof.
  intros Hv Ho. unfold set. destruct (get k o).
  - induction Ho as [|[k' v'] o Hx Ho IH]; simpl; [constructor|].
    destruct (String.eqb k k'); constructor; auto.
  - destruct (indexKey k) as [n|].
    + induction Ho as [|[k' v'] o Hx Ho IH]; simpl.
      * constructor; [exact Hv|constructor].
      * destruct (indexKey k') as [m|]; [destruct (m <? n)%N|];
          repeat (constructor; auto).
    + apply Forall_app. split; [exact Ho|]. constructor; [exact Hv|constructor].
Qed.

Lemma Forall_snd_get {V : Type} (Q : V -> Prop) (k : string) (v : V) (o : obj V) :
  Forall (fun e => Q (snd e)) o -> get k o = Some v -> Q v.
Proof.
  induction 1 as [|[k' v'] o Hx Ho IH]; simpl; [discriminate|].
  destruct (String.eqb k k'); [intros [= <-]; exact Hx|exact IH].
Qed.

Lemma generateTags_bound (content filePath : string) :
  (length (generateTags content filePath) <= 3)%nat.
Proof. unfold generateTags. apply firstn_le_length. Qed.

(** The index after an [add] event. *)
Lemma files_handleFileCreation (w : World) (p : string) (st : Server) :
  files (handleFileCreation w p st)
  = match get p (files st), stat w p with
    | None, Some stats =>
        set p {| created := birthtime stats;
                 summary := generateSummary (readFileContent w p stats) p;
                 tags := generateTags (readFileContent w p stats) p;
                 stale := false;
                 staleReason := None |} (files st)
    | _, _ => files st
    end.
Proof.
  unfold handleFileCreation, completeCreation.
  destruct (get p (files st)); [reflexivity|].
  destruct (stat w p); [|reflexivity].
  simpl. destruct (isInitializing st); simpl; [reflexivity|].
  now rewrite files_saveMetadata.
Qed.

Lemma refreshFile_tags (w : World) (p : string) (acc : Server * RefreshCounts) :
  tagsBounded (fst acc) -> tagsBounded (fst (refreshFile w p acc)).
Proof.
  destruct acc as [st n]. unfold tagsBounded, refreshFile. simpl. intros H.
  destruct (get p (files st)) as [old|] eqn:G; [|exact H].
  pose proof (Forall_snd_get (fun r => (length (tags r) <= 3)%nat) _ _ _ H G)
    as Hold.
  destruct (stat w p); simpl;
    apply (Forall_snd_set (fun r => (length (tags r) <= 3)%nat));
    simpl; auto using generateTags_bound.
Qed.

Lemma step_tags (op : Op) (st : Server) :
  tagsBounded st -> tagsBounded (step op st).
Proof.
  intros H. destruct op; simpl.
  - unfold tagsBounded. rewrite files_handleFileCreation.
    destruct (get filePath (files st)); [exact H|].
    destruct (stat w filePath); [|exact H].
    apply (Forall_snd_set (fun r => (length (tags r) <= 3)%nat));
      simpl; auto using generateTags_bound.
  - unfold tagsBounded, handleReady. now rewrite files_saveMetadata.
  - unfold tagsBounded. now rewrite files_fireTimer.
  - unfold refreshMetadata. rewrite fold_left_batches.
    assert (Hf : forall ks acc,
               tagsBounded (fst acc) ->
               tagsBounded
                 (fst (fold_left (fun a q => refreshFile w q a) ks acc))).
    { induction ks as [|q ks IH]; intros acc Ha; simpl; [exact Ha|].
      apply IH. now apply refreshFile_tags. }
    specialize (Hf (keys (files st))
                   (st, {| updatedCount := 0; errorCount := 0;
                           staleCount := 0 |}) H).
    destruct (fold_left _ _ _) as [st' n']. simpl in *.
    unfold tagsBounded. now rewrite files_saveMetadata.
  - exact H.
Qed.

(** X7: [generateTags] never yields more than three tags, and the index
    keeps the bound: whatever watcher events, timers, refreshes and
    queries follow, every record has at most three tags. *)
Theorem X7_tags_at_most_three :
  (forall content filePath : string,
      (length (generateTags content filePath) <= 3)%nat)
  /\ (forall (ops : list Op) (st : Server),
         tagsBounded st -> tagsBounded (run ops st)).
Proof.
  split; [apply generateTags_bound|].
  intros ops. unfold run.
  induction ops as [|op ops IH]; intros st H; simpl; [exact H|].
  apply IH. now apply step_tags.
Qed.

(** From the constructor state, through an [add], a refresh and a second
    [add]. *)
Lemma X7_witness :
  tagsBounded (run [OpAdd Samples.live "/w/README.md";
                    OpRefresh Samples.failing;
                    OpAdd Samples.live "/w/README.md"] (newServer "/w")).
Proof.
  apply (proj2 X7_tags_at_most_three). constructor.
Defined.

Local Open Scope Z_scope.

Lemma rb_emit (es : list Effect) (st : Server) :
  scheduledDelays es = [] -> retryBounded st -> retryBounded (emit es st).
Proof.
  intros He (Hc & Ht & Hd). unfold retryBounded. simpl.
  split; [exact Hc|]. split; [exact Ht|].
  rewrite scheduledDelays_app, He, app_nil_r. exact Hd.
Qed.

Lemma rb_saveMetadata (w : World) (st : Server) :
  retryBounded st -> retryBounded (saveMetadata w st).
Proof.
  intros (Hc & Ht & Hd). unfold saveMetadata, retryBounded, SAVE_RETRY_MAX in *.
  destruct (writeFileOk w).
  - simpl. split; [lia|]. split; [exact Ht|].
    rewrite scheduledDelays_app. simpl. now rewrite app_nil_r.
  - simpl. destruct (saveRetryCount st <? 3) eqn:E.
    + apply Z.ltb_lt in E.
      assert (Hin : In (2 ^ (saveRetryCount st + 1) * SAVE_RETRY_BASE_DELAY)
                       expectedDelays).
      { assert (Hk : saveRetryCount st = 0 \/ saveRetryCount st = 1
                     \/ saveRetryCount st = 2) by lia.
        destruct Hk as [-> | [-> | ->]]; simpl; auto. }
      simpl. split; [lia|]. split.
      * apply Forall_app. split; [exact Ht|]. constructor; [exact Hin|constructor].
      * rewrite !scheduledDelays_app. simpl. rewrite app_nil_r.
        apply Forall_app. split; [exact Hd|].
        constructor; [exact Hin|constructor].
    + simpl. split; [lia|]. split; [exact Ht|].
      rewrite !scheduledDelays_app. simpl. now rewrite !app_nil_r.
Qed.

Lemma rb_files (f : obj FileRecord) (st : Server) :
  retryBounded st -> retryBounded (withFiles f st).
Proof. intros H. exact H. Qed.

Lemma rb_refreshFile (w : World) (p : string) (acc : Server * RefreshCounts) :
  retryBounded (fst acc) -> retryBounded (fst (refreshFile w p acc)).
Proof.
  destruct acc as [st n]. simpl. intros H. unfold refreshFile.
  destruct (get p (files st)); [|exact H].
  destruct (stat w p); simpl; [exact H|].
  apply rb_emit; [reflexivity|exact H].
Qed.

Lemma step_retryBounded (op : Op) (st : Server) :
  retryBounded st -> retryBounded (step op st).
Proof.
  intros H. destruct op; simpl.
  - unfold handleFileCreation, completeCreation.
    destruct (get filePath (files st)); [exact H|].
    destruct (stat w filePath); [|apply rb_emit; [reflexivity|exact H]].
    apply rb_emit; [reflexivity|].
    match goal with
    | |- retryBounded (if ?b then _ else _) => destruct b
    end; [apply rb_saveMetadata|]; exact H.
  - unfold handleReady. apply rb_saveMetadata. exact H.
  - unfold fireTimer. destruct (timers st) as [|d pending] eqn:Et; [exact H|].
    apply rb_saveMetadata. destruct H as (Hc & Ht & Hd).
    repeat split; simpl; auto; try lia.
    rewrite Et in Ht. now inversion Ht.
  - unfold refreshMetadata. rewrite fold_left_batches.
    assert (Hf : forall ks acc,
               retryBounded (fst acc) ->
               retryBounded
                 (fst (fold_left (fun a q => refreshFile w q a) ks acc))).
    { induction ks as [|q ks IH]; intros acc Ha; simpl; [exact Ha|].
      apply IH. now apply rb_refreshFile. }
    specialize (Hf (keys (files st))
                   (st, {| updatedCount := 0; errorCount := 0;
                           staleCount := 0 |}) H).
    destruct (fold_left _ _ _) as [st' n']. simpl in *.
    now apply rb_saveMetadata.
  - exact H.
Qed.

(** X8: across every interleaving of watcher events, timers, refreshes
    and queries, with writes failing or not, the retry counter stays
    between 0 and 3 and every timer that is set carries 2000, 4000 or
    8000 ms; no longer delay is ever scheduled. *)
Theorem X8_retry_state_bounded :
  forall (ops : list Op) (st : Server),
    retryBounded st ->
    retryBounded (run ops st)
    /\ Forall (fun d => d = 2000 \/ d = 4000 \/ d = 8000)
              (scheduledDelays (effects (run ops st))).
Proof.
  intros ops st H.
  assert (Hrun : retryBounded (run ops st)).
  { unfold run. revert st H.
    induction ops as [|op ops IH]; intros st H; simpl; [exact H|].
    apply IH. now apply step_retryBounded. }
  split; [exact Hrun|].
  destruct Hrun as (_ & _ & Hd).
  eapply Forall_impl; [|exact Hd].
  intros d [<-|[<-|[<-|[]]]]; auto.
Qed.

(** Two saves failing back to back, then the two timers. *)
Lemma X8_witness :
  retryBounded (run [OpReady Samples.failing; OpRefresh Samples.failing;
                     OpTimer Samples.failing; OpTimer Samples.failing]
                    (newServer "/w")).
Proof.
  apply (proj1 (X8_retry_state_bounded _ (newServer "/w")
                  ltac:(unfold retryBounded, SAVE_RETRY_MAX; simpl;
                        split; [lia|split; constructor]))).
Defined.

End RunInvariants.

(* ------------------------------------------------------------------ *)
(** ** Watcher events *)
(* ------------------------------------------------------------------ *)

Section WatcherEvents.
Import Extractor.

Lemma countWrites_app (es fs : list Effect) :
  countWrites (es ++ fs) = (countWrites es + countWrites fs)%nat.
Proof.
  induction es as [|e es IH]; simpl; [reflexivity|].
  destruct e; simpl; now rewrite IH.
Qed.

Lemma files_completeCreation (w : World) (p : string) (st : Server) :
  files (completeCreation w p st)
  = match stat w p with
    | Some stats =>
        set p {| created := birthtime stats;
                 summary := generateSummary (readFileContent w p stats) p;
                 tags := generateTags (readFileContent w p stats) p;
                 stale := false;
                 staleReason := None |} (files st)
    | None => files st
    end.
Proof.
  unfold completeCreation. destruct (stat w p); [|reflexivity].
  simpl. destruct (isInitializing st); simpl; [reflexivity|].
  now rewrite files_saveMetadata.
Qed.

(** While the flag is up, a handler that is resumed writes nothing and
    leaves the retry state alone. *)
Lemma completeCreation_quiet (w : World) (p : string) (st : Server) :
  isInitializing st = true ->
  isInitializing (completeCreation w p st) = true
  /\ countWrites (effects (completeCreation w p st)) = countWrites (effects st)
  /\ scheduledDelays (effects (completeCreation w p st))
     = scheduledDelays (effects st).
Proof.
  intros Hi. unfold completeCreation.
  destruct (stat w p); simpl; rewrite ?Hi; simpl;
    rewrite countWrites_app, scheduledDelays_app; simpl;
    rewrite Nat.add_0_r, app_nil_r; auto.
Qed.

(** With the flag down, a handler that is resumed writes once. *)
Lemma completeCreation_saves (w : World) (p : string) (st : Server)
      (stats : Stats) :
  stat w p = Some stats ->
  isInitializing st = false ->
  writeFileOk w = true ->
  countWrites (effects (completeCreation w p st))
  = S (countWrites (effects st)).
Proof.
  intros Hstat Hi Hok. unfold completeCreation. rewrite Hstat. simpl.
  rewrite Hi. simpl. unfold saveMetadata. rewrite Hok. simpl.
  rewrite !countWrites_app. simpl. lia.
Qed.

Lemma watch_cons (ignored : list Regex.regex) (ev : WatcherEvent)
      (evs : list WatcherEvent) (s : Watching) :
  watch ignored (ev :: evs) s = watch ignored evs (deliver ignored ev s).
Proof. reflexivity. Qed.

Lemma In_removeOne (p q : string) (l : list string) :
  In q (removeOne p l) -> In q l.
Proof.
  induction l as [|a l IH]; simpl; [auto|].
  destruct (String.eqb a p); [auto|].
  intros [<-|H]; auto.
Qed.

Lemma watch_scan_quiet (ignored : list Regex.regex) (evs : list WatcherEvent) :
  forall s : Watching,
    Forall beforeReady evs ->
    isInitializing (server s) = true ->
    isInitializing (server (watch ignored evs s)) = true
    /\ countWrites (effects (server (watch ignored evs s)))
       = countWrites (effects (server s))
    /\ scheduledDelays (effects (server (watch ignored evs s)))
       = scheduledDelays (effects (server s)).
Proof.
  induction evs as [|ev evs IH]; intros s Hall Hi; [simpl; auto|].
  inversion Hall as [|? ? Hev Hrest]; subst.
  rewrite watch_cons.
  destruct ev as [p|w p|w]; [| |destruct Hev]; unfold deliver.
  - destruct (Ignore.isIgnored ignored p); [now apply IH|].
    destruct (get p (files (server s))); [now apply IH|].
    exact (IH {| server := server s; waiting := (waiting s ++ [p])%list |}
              Hrest Hi).
  - destruct (includes (waiting s) p); [|now apply IH].
    destruct (completeCreation_quiet w p (server s) Hi) as (H1 & H2 & H3).
    destruct (IH {| server := completeCreation w p (server s);
                    waiting := removeOne p (waiting s) |} Hrest H1)
      as (I1 & I2 & I3).
    simpl in I2, I3. rewrite I2, I3. auto.
Qed.

Lemma flag_saveMetadata (w : World) (st : Server) :
  isInitializing (saveMetadata w st) = isInitializing st.
Proof.
  unfold saveMetadata. destruct (writeFileOk w); [reflexivity|].
  simpl. destruct (_ <? _)%Z; reflexivity.
Qed.

Lemma flag_completeCreation (w : World) (p : string) (st : Server) :
  isInitializing (completeCreation w p st) = isInitializing st.
Proof.
  unfold completeCreation. destruct (stat w p); [|reflexivity].
  simpl. destruct (isInitializing st) eqn:Hi; simpl; [exact Hi|].
  now rewrite flag_saveMetadata.
Qed.

(** Once lowered, the flag stays down. *)
Lemma watch_flag_down (ignored : list Regex.regex) (evs : list WatcherEvent) :
  forall s : Watching,
    isInitializing (server s) = false ->
    isInitializing (server (watch ignored evs s)) = false.
Proof.
  induction evs as [|ev evs IH]; intros s Hi; [exact Hi|].
  rewrite watch_cons. apply IH.
  destruct ev as [p|w p|w]; unfold deliver.
  - destruct (Ignore.isIgnored ignored p); [exact Hi|].
    destruct (get p (files (server s))); exact Hi.
  - destruct (includes (waiting s) p); [|exact Hi].
    simpl. now rewrite flag_completeCreation.
  - simpl. unfold handleReady. now rewrite flag_saveMetadata.
Qed.

(** X9: between [startWatching] and the watcher's [ready] event nothing
    is persisted, however the [add] handlers of the scan start and
    finish: no write, no retry timer.  The [ready] event leaves the
    index and the waiting handlers alone, ends the initialization and
    writes the document once.  It is not the only write of the scan: a
    handler that is still waiting for the file system at that moment
    reads the flag when it is resumed, finds it lowered and saves on its
    own.  Resumed right after [ready] it makes the second write; and
    whatever happens after [ready], every handler that is resumed with
    [fs.stat] and the write succeeding writes the document once more. *)
Theorem X9_initial_scan_writes :
  forall (tponignore gitignore : option string) (st : Server)
         (evs : list WatcherEvent) (w : World),
    Forall beforeReady evs ->
    let ignored := snd (startWatching tponignore gitignore st) in
    let s := watch ignored evs
               (watching (fst (startWatching tponignore gitignore st))) in
    let s' := deliver ignored (EvReady w) s in
    countWrites (effects (server s)) = countWrites (effects st)
    /\ scheduledDelays (effects (server s)) = scheduledDelays (effects st)
    /\ files (server s') = files (server s)
    /\ waiting s' = waiting s
    /\ isInitializing (server s') = false
    /\ (writeFileOk w = true ->
        countWrites (effects (server s')) = S (countWrites (effects st)))
    /\ (forall (w' : World) (p : string) (stats : Stats),
           In p (waiting s) -> stat w' p = Some stats ->
           writeFileOk w = true -> writeFileOk w' = true ->
           countWrites (effects (server (deliver ignored (EvSettle w' p) s')))
           = S (S (countWrites (effects st))))
    /\ (forall (later : list WatcherEvent) (w' : World) (p : string)
               (stats : Stats),
           let s2 := watch ignored later s' in
           In p (waiting s2) -> stat w' p = Some stats ->
           writeFileOk w' = true ->
           countWrites (effects (server (deliver ignored (EvSettle w' p) s2)))
           = S (countWrites (effects (server s2)))).
Proof.
  intros tp gi st evs w Hall ignored s s'.
  destruct (watch_scan_quiet ignored evs
              (watching (fst (startWatching tp gi st))) Hall eq_refl)
    as (_ & Hw & Hd).
  fold s in Hw, Hd. simpl in Hw, Hd.
  assert (Hflag : isInitializing (server s') = false).
  { unfold s', deliver, handleReady, saveMetadata. simpl.
    destruct (writeFileOk w); [reflexivity|].
    simpl. destruct (_ <? _)%Z; reflexivity. }
  assert (Hone : writeFileOk w = true ->
                 countWrites (effects (server s'))
                 = S (countWrites (effects st))).
  { intros Hok. unfold s', deliver, handleReady, saveMetadata. simpl.
    rewrite Hok. simpl. rewrite countWrites_app, Hw. simpl. lia. }
  split; [exact Hw|]. split; [exact Hd|].
  split; [unfold s', deliver, handleReady; simpl;
          now rewrite files_saveMetadata|].
  split; [reflexivity|]. split; [exact Hflag|]. split; [exact Hone|].
  split.
  - intros w' p stats Hin Hstat Hok Hok'.
    assert (Hwait : includes (waiting s') p = true)
      by (apply includes_In; exact Hin).
    unfold deliver at 1. rewrite Hwait.
    change (countWrites (effects (completeCreation w' p (server s')))
            = S (S (countWrites (effects st)))).
    now rewrite (completeCreation_saves w' p (server s') stats Hstat Hflag Hok'),
      (Hone Hok).
  - intros later w' p stats s2 Hin Hstat Hok'.
    assert (Hwait : includes (waiting s2) p = true)
      by (apply includes_In; exact Hin).
    unfold deliver. rewrite Hwait.
    change (countWrites (effects (completeCreation w' p (server s2)))
            = S (countWrites (effects (server s2)))).
    apply (completeCreation_saves w' p (server s2) stats Hstat); [|exact Hok'].
    apply watch_flag_down. exact Hflag.
Qed.

(** Two files found by the scan; [ready] arrives while the handler of
    the first is still waiting. *)
Lemma X9_witness :
  countWrites
    (effects
       (server
          (watch (snd (startWatching None None (newServer "/w")))
                 [EvAdd "/w/README.md"; EvAdd "/w/notes.txt";
                  EvSettle MoreSamples.textOnlyWorld "/w/notes.txt";
                  EvReady Samples.live;
                  EvSettle Samples.live "/w/README.md"]
                 (watching (fst (startWatching None None (newServer "/w")))))))
  = 2%nat.
Proof.
  apply (proj1 (proj2 (proj2 (proj2 (proj2 (proj2 (proj2
           (X9_initial_scan_writes None None (newServer "/w")
              [EvAdd "/w/README.md"; EvAdd "/w/notes.txt";
               EvSettle MoreSamples.textOnlyWorld "/w/notes.txt"]
              Samples.live ltac:(repeat constructor))))))))
           Samples.live "/w/README.md"
           {| birthtime := 1793629305000; size := 9 |});
    try reflexivity.
  simpl. auto.
Defined.

(** Two files reported by the scan and [ready] before either handler is
    resumed: the document is written three times. *)
Example scan_of_two_files_writes_thrice :
  countWrites
    (effects
       (server
          (watch (snd (startWatching None None (newServer "/w")))
                 [EvAdd "/w/a.txt"; EvAdd "/w/b.txt";
                  EvReady MoreSamples.textOnlyWorld;
                  EvSettle MoreSamples.textOnlyWorld "/w/a.txt";
                  EvSettle MoreSamples.textOnlyWorld "/w/b.txt"]
                 (watching (fst (startWatching None None (newServer "/w")))))))
  = 3%nat.
Proof. reflexivity. Qed.

Lemma handleFileCreation_stores (w : World) (st : Server) (p : string)
      (stats : Stats) :
  get p (files st) = None ->
  stat w p = Some stats ->
  get p (files (handleFileCreation w p st))
  = Some {| created := birthtime stats;
            summary := generateSummary (readFileContent w p stats) p;
            tags := generateTags (readFileContent w p stats) p;
            stale := false;
            staleReason := None |}.
Proof.
  intros Hget Hstat. rewrite files_handleFileCreation, Hget, Hstat.
  apply get_set_same.
Qed.

(** X10: when the handler of an [add] event is resumed after [fs.stat]
    has succeeded, it stores one record under its path, created at the
    birth time and with summary and tags taken from what
    [readFileContent] returns, and leaves every other path as it was.
    Whether it persists is decided by the initialization flag as it is
    at that moment: with the flag down and a write that succeeds, the
    document is written in the same run from the index that already
    holds the new record, and the retry counter is reset; with the flag
    up only the log line appears.  For a path that was untracked when
    the event arrived, this is what [handleFileCreation] does when
    nothing runs in between. *)
Theorem X10_new_file_is_tracked :
  forall (w : World) (st : Server) (p : string) (stats : Stats),
    stat w p = Some stats ->
    let st' := completeCreation w p st in
    get p (files st')
    = Some {| created := birthtime stats;
              summary := generateSummary (readFileContent w p stats) p;
              tags := generateTags (readFileContent w p stats) p;
              stale := false;
              staleReason := None |}
    /\ (forall q, q <> p -> get q (files st') = get q (files st))
    /\ (forall doc : string,
           isInitializing st = false -> writeFileOk w = true ->
           document w (workspaceRoot st) (files st') = Some doc ->
           effects st'
           = (effects st
              ++ [WriteFile (Some doc);
                  LogTracked (relative (workspaceRoot st) p)])%list
           /\ saveRetryCount st' = 0%Z)
    /\ (isInitializing st = true ->
        effects st'
        = (effects st ++ [LogTracked (relative (workspaceRoot st) p)])%list)
    /\ (get p (files st) = None -> handleFileCreation w p st = st').
Proof.
  intros w st p stats Hstat st'.
  assert (Hf : files st'
               = set p {| created := birthtime stats;
                          summary := generateSummary (readFileContent w p stats) p;
                          tags := generateTags (readFileContent w p stats) p;
                          stale := false;
                          staleReason := None |} (files st)).
  { unfold st'. now rewrite files_completeCreation, Hstat. }
  split; [rewrite Hf; apply get_set_same|].
  split; [intros q Hq; rewrite Hf; apply get_set_other; congruence|].
  split; [|split].
  - intros doc Hi Hok Hdoc. rewrite Hf in Hdoc. unfold st', completeCreation.
    rewrite Hstat. simpl. rewrite Hi. simpl.
    unfold saveMetadata. rewrite Hok. simpl. rewrite Hdoc.
    rewrite <- app_assoc. split; reflexivity.
  - intros Hi. unfold st', completeCreation.
    rewrite Hstat. simpl. rewrite Hi. reflexivity.
  - intros Hget. unfold st', handleFileCreation. now rewrite Hget.
Qed.

(** [README.md] appears after the scan: the handler is resumed with the
    flag down and writes the document that holds the new record. *)
Lemma X10_witness :
  exists doc,
    effects (completeCreation Samples.live "/w/README.md" (newServer "/w"))
    = [WriteFile (Some doc); LogTracked "README.md"].
Proof.
  eexists.
  apply (proj1 (proj2 (proj2 (X10_new_file_is_tracked Samples.live
                  (newServer "/w") "/w/README.md"
                  {| birthtime := 1793629305000; size := 9 |} eq_refl)))).
  - reflexivity.
  - reflexivity.
  - vm_compute. reflexivity.
Defined.

Lemma readFileContent_opaque (w : World) (p : string) (stats : Stats) :
  (Classifier.MAX_FILE_SIZE < size stats)%Z
  \/ readFile w p = None
  \/ readFile w p = Some []
  \/ (exists buffer, readFile w p = Some buffer
                     /\ Classifier.isBinary buffer p = true) ->
  readFileContent w p stats = "".
Proof.
  intros H. unfold readFileContent.
  destruct (Classifier.MAX_FILE_SIZE <? size stats)%Z eqn:E; [reflexivity|].
  apply Z.ltb_ge in E.
  destruct H as [H|[H|[H|(buffer & H & Hb)]]]; try lia; rewrite H.
  - reflexivity.
  - destruct (Classifier.isBinary [] p); reflexivity.
  - now rewrite Hb.
Qed.

(** X11: a file larger than 1 MiB, a file that cannot be read, an empty
    file and a file classified as binary are tracked all the same: the
    record has the birth time, the summary [<ext> file] and the tags
    derived from the name alone, which start with the extension when
    there is one.  For the oversized file the content is not consulted
    at all. *)
Theorem X11_opaque_file_record :
  forall (w : World) (st : Server) (p : string) (stats : Stats),
    get p (files st) = None ->
    stat w p = Some stats ->
    ((Classifier.MAX_FILE_SIZE < size stats)%Z
     \/ readFile w p = None
     \/ readFile w p = Some []
     \/ (exists buffer, readFile w p = Some buffer
                        /\ Classifier.isBinary buffer p = true)) ->
    get p (files (handleFileCreation w p st)) = Some (opaqueRecord stats p)
    /\ length (tags (opaqueRecord stats p)) <= 2
    /\ (sliceFrom 1 (extname p) <> "" ->
        hd_error (tags (opaqueRecord stats p)) = Some (sliceFrom 1 (extname p))).
Proof.
  intros w st p stats Hget Hstat Hopaque.
  split.
  - rewrite (handleFileCreation_stores w st p stats Hget Hstat).
    rewrite (readFileContent_opaque w p stats Hopaque).
    reflexivity.
  - unfold opaqueRecord. simpl tags. unfold generateTags.
    rewrite andb_false_r.
    destruct (sliceFrom 1 (extname p)) as [|c e] eqn:E; simpl pushIf.
    + split; [|congruence].
      repeat match goal with
             | |- context [if ?b then _ else _] => destruct b
             end; simpl; lia.
    + split; [|intros _];
        repeat match goal with
               | |- context [if ?b then _ else _] => destruct b
               end; simpl; try lia; reflexivity.
Qed.

(** A file of 2 MiB. *)
Lemma X11_witness :
  get "/w/video.mov"
      (files (handleFileCreation MoreSamples.bigFileWorld "/w/video.mov"
                                 (newServer "/w")))
  = Some {| created := 1793629000000;
            summary := ".mov file";
            tags := ["mov"];
            stale := false;
            staleReason := None |}.
Proof.
  apply (proj1 (X11_opaque_file_record MoreSamples.bigFileWorld
                  (newServer "/w") "/w/video.mov"
                  {| birthtime := 1793629000000; size := 2097152 |}
                  eq_refl eq_refl (or_introl eq_refl))).
Defined.

End WatcherEvents.

(* ------------------------------------------------------------------ *)
(** ** The tool dispatcher *)
(* ------------------------------------------------------------------ *)

Section Dispatcher.

(** X12: of the five tools only [refresh_metadata] changes the server;
    a call of any other name, known or not, with or without arguments,
    returns the state it found.  A name outside the five is answered
    with the error text for an unknown tool, and a tool that reads a
    parameter answers a call without an arguments object with an error
    text as well. *)
Theorem X12_dispatcher_frame :
  forall (w : World) (name : string) (args : Args) (st : Server),
    (name <> "refresh_metadata" -> fst (callTool w name args st) = st)
    /\ (knownTool name = false ->
        snd (callTool w name args st)
        = RespError (errorText name ("Unknown tool: " ++ name)))
    /\ (args = None ->
        name = "get_files_by_tag" \/ name = "get_recent_files"
        \/ name = "search_files" ->
        exists text, snd (callTool w name args st) = RespError text).
Proof.
  intros w name args st. unfold callTool, knownTool, includes. simpl existsb.
  repeat split.
  - intros Hne.
    destruct (String.eqb name "get_all_files"); [reflexivity|].
    destruct (String.eqb name "get_files_by_tag").
    { destruct (argProp args "tag"); [reflexivity|].
      unfold answer. destruct (getFilesByTag _ _); reflexivity. }
    destruct (String.eqb name "get_recent_files").
    { destruct (argProp args "hours"); [reflexivity|].
      unfold answer. destruct (getRecentFiles _ _ _); reflexivity. }
    destruct (String.eqb name "search_files").
    { destruct (argProp args "query"); [reflexivity|].
      unfold answer. destruct (searchFiles _ _); reflexivity. }
    destruct (String.eqb_spec name "refresh_metadata"); [contradiction|].
    reflexivity.
  - intros Hk.
    apply orb_false_iff in Hk as [H1 Hk].
    apply orb_false_iff in Hk as [H2 Hk].
    apply orb_false_iff in Hk as [H3 Hk].
    apply orb_false_iff in Hk as [H4 Hk].
    apply orb_false_iff in Hk as [H5 _].
    now rewrite H1, H2, H3, H4, H5.
  - intros -> [-> | [-> | ->]]; simpl; eexists; reflexivity.
Qed.

Lemma X12_witness :
  fst (callTool Samples.live "get_files_by_tag" None Samples.sampleServer)
  = Samples.sampleServer.
Proof.
  apply (proj1 (X12_dispatcher_frame Samples.live "get_files_by_tag" None
                  Samples.sampleServer)).
  discriminate.
Defined.

End Dispatcher.


(* ------------------------------------------------------------------ *)
(** ** Summaries and tags *)
(* ------------------------------------------------------------------ *)

Section Summaries.
Import Extractor.

Lemma length_sliceTo (n : nat) (s : string) :
  (String.length (sliceTo n s) <= n)%nat.
Proof.
  unfold sliceTo. revert s.
  induction n as [|n IH]; intros [|c s]; simpl; try lia.
  specialize (IH s). lia.
Qed.

Lemma sliceOr_nonempty (l fallback : string) :
  l <> "" -> sliceOr (Some l) fallback = sliceTo 80 l.
Proof. destruct l; [congruence|reflexivity]. Qed.

Lemma nonBlank_nonempty (l : string) : nonBlank l = true -> l <> "".
Proof. intros H ->. discriminate H. Qed.

Lemma find_existsb {A : Type} (f : A -> bool) (l : list A) :
  existsb f l = true -> exists x, find f l = Some x /\ f x = true.
Proof.
  induction l as [|a l IH]; simpl; [discriminate|].
  destruct (f a) eqn:E; [eauto|apply IH].
Qed.

Lemma filter_head_existsb {A : Type} (f : A -> bool) (l : list A) :
  existsb f l = true ->
  exists x rest, filter f l = x :: rest /\ f x = true.
Proof.
  induction l as [|a l IH]; simpl; [discriminate|].
  destruct (f a) eqn:E; [eauto|apply IH].
Qed.

(** X13: whenever the content has a line that is not blank, the summary
    has at most 80 characters, for every extension.  (The summaries
    that can be longer are the two fallbacks built from the file name,
    used for empty or all-blank content.) *)
Theorem X13_summary_bounded_for_text :
  forall content filePath : string,
    existsb nonBlank (split "010"%char content) = true ->
    (String.length (generateSummary content filePath) <= 80)%nat.
Proof.
  intros content filePath Hline. unfold generateSummary.
  destruct content as [|c0 content0]; [discriminate Hline|].
  set (content := String c0 content0) in *. simpl truthy. cbv iota. simpl negb.
  cbv iota.
  destruct (String.eqb (extname filePath) ".md").
  - destruct (find _ (filter nonBlank _)); [apply length_sliceTo|].
    destruct (filter_head_existsb _ _ Hline) as (x & rest & -> & Hx).
    simpl nth_error. rewrite sliceOr_nonempty by now apply nonBlank_nonempty.
    apply length_sliceTo.
  - destruct (includes codeSummaryExts (extname filePath)) eqn:Hc.
    + destruct (find isCommentLine _); [apply length_sliceTo|].
      revert Hc. generalize (extname filePath). intros ext Hc.
      unfold includes, codeSummaryExts in Hc. simpl in Hc.
      repeat match type of Hc with
             | (String.eqb ?a ?b || _)%bool = true =>
                 destruct (String.eqb_spec a b) as [E|_];
                 [rewrite E; vm_compute; lia|simpl in Hc]
             end.
      discriminate Hc.
    + destruct (find_existsb _ _ Hline) as (x & -> & Hx).
      rewrite sliceOr_nonempty by now apply nonBlank_nonempty.
      apply length_sliceTo.
Qed.

(** A long first line in a text file. *)
Lemma X13_witness :
  (String.length
     (generateSummary
        "abcdefghijklmnopqrstuvwxyzabcdefghijklmnopqrstuvwxyzabcdefghijklmnopqrstuvwxyzabcdefghijklmnopqrstuvwxyz"
        "/w/notes.txt") <= 80)%nat.
Proof. apply X13_summary_bounded_for_text. reflexivity. Defined.

Lemma dropWhileStr_ext (p q : ascii -> bool) (s : string) :
  (forall c, p c = q c) -> dropWhileStr p s = dropWhileStr q s.
Proof.
  intros H. induction s as [|c s IH]; simpl; [reflexivity|].
  rewrite H, IH. reflexivity.
Qed.

Lemma trimStart_dropWhile (s : string) : trimStart s = dropWhileStr isSpace s.
Proof. induction s as [|c s IH]; simpl; [reflexivity|now rewrite IH]. Qed.

(** A greedy iteration followed by something that always succeeds takes
    the longest run. *)
Lemma starK_greedy (cs : cset) (k : string -> option string) (s : string) :
  (forall x, k x <> None) ->
  starK cs s k = k (dropWhileStr (cset_mem cs) s).
Proof.
  intros Hk. induction s as [|c s IH]; simpl; [reflexivity|].
  destruct (cset_mem cs c); [|reflexivity].
  rewrite IH. destruct (k (dropWhileStr (cset_mem cs) s)) eqn:E;
    [reflexivity|]. exfalso. exact (Hk _ E).
Qed.

(** A pattern that begins with [^] matches nowhere but at the start. *)
Lemma cutFrom_anchored (r : regex) (s : string) :
  cutFrom (RSeq RBol r) false s = s.
Proof. induction s as [|c s IH]; simpl; [reflexivity|now rewrite IH]. Qed.

(** What [replace(/^x+\s*/, '')] does, for a one-character matcher
    [x]. *)
Lemma strip_run (cs : cset) (s : string) :
  replaceFirstEmpty
    (RSeq RBol (RSeq (RPlus cs) (RSeq (RStar (CClass [ISpace])) REmpty))) s
  = match s with
    | EmptyString => EmptyString
    | String c s' =>
        if cset_mem cs c
        then trimStart (dropWhileStr (cset_mem cs) s')
        else s
    end.
Proof.
  destruct s as [|c s]; [reflexivity|].
  unfold replaceFirstEmpty. cbn [cutFrom]. unfold matchAt. cbn [matchK].
  destruct (cset_mem cs c) eqn:E.
  - rewrite starK_greedy.
    + rewrite starK_greedy by discriminate.
      rewrite trimStart_dropWhile. apply dropWhileStr_ext.
      intros x. simpl. now rewrite orb_false_r.
    + intros x. rewrite starK_greedy by discriminate. discriminate.
  - now rewrite cutFrom_anchored.
Qed.

(** X14: for a Markdown file with content, when some non-blank line
    starts with [#], the summary is the first such line without its
    leading run of [#] and the white space after it, cut to 80
    characters. *)
Theorem X14_markdown_heading_summary :
  forall (content filePath heading : string),
    content <> "" ->
    extname filePath = ".md" ->
    find (fun l => startsWith l "#")
         (filter nonBlank (split "010"%char content)) = Some heading ->
    generateSummary content filePath
    = sliceTo 80 (trimStart (dropWhileStr isHash heading)).
Proof.
  intros content filePath heading Hc Hext Hfind. unfold generateSummary.
  destruct content as [|c0 content0]; [congruence|].
  simpl truthy. cbv iota. simpl negb. cbv iota. rewrite Hext.
  change (String.eqb ".md" ".md") with true. cbv iota.
  rewrite Hfind. f_equal.
  apply find_some in Hfind as [_ Hstart].
  change (regexLiteral "^#+\s*")
    with (RSeq RBol (RSeq (RPlus (CLit "#"%char))
                          (RSeq (RStar (CClass [ISpace])) REmpty))).
  rewrite strip_run.
  destruct heading as [|c h]; [discriminate Hstart|].
  unfold startsWith in Hstart. cbn [String.prefix] in Hstart.
  destruct (ascii_dec "#"%char c) as [<-|]; [|discriminate Hstart].
  simpl. reflexivity.
Qed.

(** The first sample of [test-local.js]. *)
Lemma X14_witness :
  generateSummary "# Timepon MCP Server

AI-assisted development tool" "README.md" = "Timepon MCP Server".
Proof.
  apply (X14_markdown_heading_summary _ "README.md" "# Timepon MCP Server").
  - discriminate.
  - reflexivity.
  - reflexivity.
Defined.

(** X15: for a source file (.js, .ts, .py, .java, .cs, .go) with
    content, let [comment] be the first non-blank line whose trimmed
    text starts with [//] or [#].  If [comment] itself starts with [/]
    or [#], the summary is [comment] without its leading run of [/] and
    [#] and the white space after it, cut to 80 characters; if it
    starts with any other character (it is indented), the summary is
    [comment] as it stands, cut to 80 characters. *)
Theorem X15_comment_summary :
  forall (content filePath comment : string) (c : ascii) (rest : string),
    content <> "" ->
    includes codeSummaryExts (extname filePath) = true ->
    find isCommentLine (filter nonBlank (split "010"%char content))
    = Some comment ->
    comment = String c rest ->
    generateSummary content filePath
    = if isMarkerChar c
      then sliceTo 80 (trimStart (dropWhileStr isMarkerChar rest))
      else sliceTo 80 comment.
Proof.
  intros content filePath comment c rest Hc Hext Hfind ->.
  unfold generateSummary.
  destruct content as [|c0 content0]; [congruence|].
  simpl truthy. cbv iota. simpl negb. cbv iota.
  assert (Hmd : String.eqb (extname filePath) ".md" = false).
  { destruct (String.eqb_spec (extname filePath) ".md") as [E|]; [|reflexivity].
    rewrite E in Hext. discriminate Hext. }
  rewrite Hmd, Hext, Hfind.
  change (regexLiteral "^[\/\/#]+\s*")
    with (RSeq RBol (RSeq (RPlus (CClass [IChar "/"%char; IChar "/"%char;
                                          IChar "#"%char]))
                          (RSeq (RStar (CClass [ISpace])) REmpty))).
  rewrite strip_run.
  assert (Hmem : forall x,
             cset_mem (CClass [IChar "/"%char; IChar "/"%char; IChar "#"%char]) x
             = isMarkerChar x).
  { intros x. unfold isMarkerChar. simpl.
    destruct (Ascii.eqb x "/"), (Ascii.eqb x "#"); reflexivity. }
  rewrite Hmem. destruct (isMarkerChar c); [|reflexivity].
  f_equal. f_equal. now apply dropWhileStr_ext.
Qed.

(** A comment after a shebang-free first line, and an indented one. *)
Lemma X15_witness :
  generateSummary "const a = 1;
/// Adds numbers" "/w/add.ts" = "Adds numbers"
  /\ generateSummary "def f():
    # helper
    pass" "/w/f.py" = "    # helper".
Proof.
  split.
  - apply (X15_comment_summary _ "/w/add.ts" "/// Adds numbers"
             "/"%char "// Adds numbers");
      [discriminate|reflexivity|reflexivity|reflexivity].
  - apply (X15_comment_summary _ "/w/f.py" "    # helper"
             " "%char "   # helper");
      [discriminate|reflexivity|reflexivity|reflexivity].
Defined.

(** X16: the tags of a file follow from its extension: a code extension
    gives the extension and [code], a configuration extension gives the
    extension and [config], whatever the content; a Markdown file always
    has [md] and [docs] first, followed by at most one keyword tag; a
    file without extension has no tags. *)
Theorem X16_tags_by_extension :
  forall (content filePath : string),
    let ext := sliceFrom 1 (extname filePath) in
    (includes codeExts ext = true ->
     generateTags content filePath = [ext; "code"])
    /\ (includes configExts ext = true ->
        generateTags content filePath = [ext; "config"])
    /\ (ext = "md" ->
        exists rest, generateTags content filePath = "md" :: "docs" :: rest
                     /\ (length rest <= 1)%nat
                     /\ (content = "" -> rest = []))
    /\ (ext = "" -> generateTags content filePath = []).
Proof.
  intros content filePath ext. unfold generateTags. fold ext.
  clearbody ext. repeat split.
  - intros H. unfold includes, codeExts in H. simpl in H.
    repeat match type of H with
           | (String.eqb ?a ?b || _)%bool = true =>
               destruct (String.eqb_spec a b) as [E|_];
               [rewrite E; reflexivity|simpl in H]
           end.
    discriminate H.
  - intros H. unfold includes, configExts in H. simpl in H.
    repeat match type of H with
           | (String.eqb ?a ?b || _)%bool = true =>
               destruct (String.eqb_spec a b) as [E|_];
               [rewrite E; reflexivity|simpl in H]
           end.
    discriminate H.
  - intros ->. simpl.
    destruct content as [|c0 content0].
    + exists []. repeat split. simpl. lia.
    + simpl truthy. cbv iota.
      set (lower := toLowerCase (String c0 content0)).
      destruct (strIncludes lower "todo" || strIncludes lower "task");
        destruct (strIncludes lower "api" || strIncludes lower "endpoint");
        destruct (strIncludes lower "schema" || strIncludes lower "database");
        destruct (strIncludes lower "architecture" || strIncludes lower "design");
        simpl; eexists; (split; [reflexivity|split; [simpl; lia|discriminate]]).
  - intros ->. reflexivity.
Qed.

Lemma X16_witness :
  generateTags "export {}" "/w/src/api.ts" = ["ts"; "code"]
  /\ generateTags "{}" "/w/package.json" = ["json"; "config"]
  /\ generateTags "all" "/w/Makefile" = [].
Proof.
  split; [|split].
  - apply (proj1 (X16_tags_by_extension "export {}" "/w/src/api.ts")).
    reflexivity.
  - apply (proj1 (proj2 (X16_tags_by_extension "{}" "/w/package.json"))).
    reflexivity.
  - apply (proj2 (proj2 (proj2 (X16_tags_by_extension "all" "/w/Makefile")))).
    reflexivity.
Defined.

End Summaries.

(* ------------------------------------------------------------------ *)
(** ** Classifier *)
(* ------------------------------------------------------------------ *)

Section ClassifierMore.
Import Classifier.

Lemma byteIs_firstn (buffer : list byte) (i : nat) (b : byte) :
  (i < 512)%nat -> byteIs (firstn 512 buffer) i b = byteIs buffer i b.
Proof.
  intros Hi. unfold byteIs. rewrite nth_error_firstn.
  apply Nat.ltb_lt in Hi. now rewrite Hi.
Qed.

Lemma magicBytes_firstn (buffer : list byte) :
  magicBytes (firstn 512 buffer) = magicBytes buffer.
Proof.
  unfold magicBytes. rewrite !byteIs_firstn by lia.
  f_equal. rewrite length_firstn.
  destruct (Nat.leb_spec 4 (length buffer)), (Nat.leb_spec 4 (Nat.min 512 (length buffer)));
    try reflexivity; lia.
Qed.

(** X17: the verdict of [isBinary] depends on the path and on the first
    512 bytes of the buffer only. *)
Theorem X17_only_first_512_bytes :
  forall (buffer : list byte) (filePath : string),
    isBinary buffer filePath = isBinary (firstn 512 buffer) filePath.
Proof.
  intros buffer filePath. unfold isBinary.
  rewrite magicBytes_firstn.
  replace (Nat.min (length (firstn 512 buffer)) BINARY_DETECTION_SAMPLE)
    with (Nat.min (length buffer) BINARY_DETECTION_SAMPLE)
    by (rewrite length_firstn; unfold BINARY_DETECTION_SAMPLE; lia).
  unfold countNonPrintable. rewrite firstn_firstn.
  replace (Nat.min (Nat.min (length buffer) BINARY_DETECTION_SAMPLE) 512)
    with (Nat.min (length buffer) BINARY_DETECTION_SAMPLE)
    by (unfold BINARY_DETECTION_SAMPLE; lia).
  reflexivity.
Qed.

Lemma countNonPrintable_printable (n : nat) (buffer : list byte) :
  allPrintable buffer = true -> countNonPrintable n buffer = 0%nat.
Proof.
  unfold countNonPrintable, allPrintable. revert n.
  induction buffer as [|b buffer IH]; intros n H; [now destruct n|].
  simpl in H. apply andb_true_iff in H as [Hb H].
  destruct n as [|n]; [reflexivity|]. simpl.
  apply negb_true_iff in Hb. rewrite Hb. now apply IH.
Qed.

(** X18: under an extension that is in neither table, a buffer without
    control bytes (other than tab, line feed and carriage return) is
    binary exactly when it starts with one of the five signatures; being
    printable does not make a file text. *)
Theorem X18_printable_content_by_signature :
  forall (buffer : list byte) (filePath : string),
    unknownExtension filePath ->
    allPrintable buffer = true ->
    isBinary buffer filePath = magicBytes buffer.
Proof.
  intros buffer filePath [Ht Hb] Hp. unfold isBinary. rewrite Ht, Hb.
  destruct (magicBytes buffer); [reflexivity|].
  rewrite countNonPrintable_printable by exact Hp.
  destruct (Nat.min _ _ =? 0)%nat; [reflexivity|].
  apply Nat.ltb_ge. lia.
Qed.

(** A text that starts with the letters PK, and one that does not. *)
Lemma X18_witness :
  isBinary [x50; x4b; x20; x69; x73] "/w/NOTES" = true
  /\ isBinary [x4f; x4b; x20; x69; x73] "/w/NOTES" = false.
Proof.
  split.
  - rewrite (X18_printable_content_by_signature
               [x50; x4b; x20; x69; x73] "/w/NOTES"
               ltac:(split; reflexivity) eq_refl).
    reflexivity.
  - rewrite (X18_printable_content_by_signature
               [x4f; x4b; x20; x69; x73] "/w/NOTES"
               ltac:(split; reflexivity) eq_refl).
    reflexivity.
Defined.

End ClassifierMore.

(* ------------------------------------------------------------------ *)
(** ** Relative ages *)
(* ------------------------------------------------------------------ *)

Section RelativeAges.
Local Open Scope Z_scope.

(** X19: the relative age printed for a record is decided by its age in
    milliseconds: [just now] below one minute (and for instants in the
    future), whole minutes below one hour, whole hours below one day,
    whole days below one week, whole weeks from then on; and
    [formatDateTime] ends with the same text between its markers. *)
Theorem X19_relative_age_buckets :
  forall (w : World) (t : Z),
    let age := now w - t in
    (age < 60000 -> getRelativeTime w t = "just now")
    /\ (60000 <= age < 3600000 ->
        getRelativeTime w t = JsDate.showZ (age / 60000) ++ "m ago")
    /\ (3600000 <= age < 86400000 ->
        getRelativeTime w t = JsDate.showZ (age / 3600000) ++ "h ago")
    /\ (86400000 <= age < 604800000 ->
        getRelativeTime w t = JsDate.showZ (age / 86400000) ++ "d ago")
    /\ (604800000 <= age ->
        getRelativeTime w t = JsDate.showZ (age / 86400000 / 7) ++ "w ago")
    /\ formatDateTime w t
       = JsDate.localeDateShort (tzOffsetMinutes w) t ++ " "
         ++ JsDate.localeTimeMinutes (tzOffsetMinutes w) t
         ++ " >>(" ++ getRelativeTime w t ++ ")<<".
Proof.
  intros w t age. unfold getRelativeTime. fold age.
  assert (Hm : forall k, 60000 * k <= age -> k <= age / 60000)
    by (intros; apply Z.div_le_lower_bound; lia).
  assert (Hm' : forall k, age < 60000 * k -> age / 60000 < k)
    by (intros; apply Z.div_lt_upper_bound; lia).
  assert (Hh : forall k, 3600000 * k <= age -> k <= age / 3600000)
    by (intros; apply Z.div_le_lower_bound; lia).
  assert (Hh' : forall k, age < 3600000 * k -> age / 3600000 < k)
    by (intros; apply Z.div_lt_upper_bound; lia).
  assert (Hd : forall k, 86400000 * k <= age -> k <= age / 86400000)
    by (intros; apply Z.div_le_lower_bound; lia).
  assert (Hd' : forall k, age < 86400000 * k -> age / 86400000 < k)
    by (intros; apply Z.div_lt_upper_bound; lia).
  repeat split.
  - intros H. specialize (Hm' 1 ltac:(lia)).
    apply Z.ltb_lt in Hm'. now rewrite Hm'.
  - intros [H1 H2]. specialize (Hm 1 ltac:(lia)). specialize (Hm' 60 ltac:(lia)).
    apply Z.ltb_ge in Hm. apply Z.ltb_lt in Hm'. now rewrite Hm, Hm'.
  - intros [H1 H2]. specialize (Hm 60 ltac:(lia)).
    specialize (Hh' 24 ltac:(lia)).
    assert (G1 : (age / 60000 <? 1) = false) by (apply Z.ltb_ge; lia).
    apply Z.ltb_ge in Hm. apply Z.ltb_lt in Hh'. now rewrite G1, Hm, Hh'.
  - intros [H1 H2]. specialize (Hm 60 ltac:(lia)).
    specialize (Hh 24 ltac:(lia)). specialize (Hd' 7 ltac:(lia)).
    assert (G1 : (age / 60000 <? 1) = false) by (apply Z.ltb_ge; lia).
    apply Z.ltb_ge in Hm, Hh. apply Z.ltb_lt in Hd'.
    now rewrite G1, Hm, Hh, Hd'.
  - intros H1. specialize (Hm 60 ltac:(lia)).
    specialize (Hh 24 ltac:(lia)). specialize (Hd 7 ltac:(lia)).
    assert (G1 : (age / 60000 <? 1) = false) by (apply Z.ltb_ge; lia).
    apply Z.ltb_ge in Hm, Hh, Hd. now rewrite G1, Hm, Hh, Hd.
Qed.

(** Ages of 59 minutes 59 seconds, of one hour, and of one week. *)
Lemma X19_witness :
  getRelativeTime Samples.failing 1793625725124 = "59m ago"
  /\ getRelativeTime Samples.failing 1793625725123 = "1h ago"
  /\ getRelativeTime Samples.failing 1793024525123 = "1w ago".
Proof.
  split; [|split].
  - rewrite (proj1 (proj2 (X19_relative_age_buckets Samples.failing
                             1793625725124)));
      [reflexivity|simpl; lia].
  - rewrite (proj1 (proj2 (proj2 (X19_relative_age_buckets Samples.failing
                                    1793625725123))));
      [reflexivity|simpl; lia].
  - rewrite (proj1 (proj2 (proj2 (proj2 (proj2
               (X19_relative_age_buckets Samples.failing 1793024525123))))));
      [reflexivity|simpl; lia].
Defined.

End RelativeAges.

(* ------------------------------------------------------------------ *)
(** ** Ignore patterns: every glob line compiles *)
(* ------------------------------------------------------------------ *)

Section GlobCompiles.
Import Ignore.

Lemma str_app_assoc (a b c : string) : (a ++ b) ++ c = a ++ (b ++ c).
Proof. induction a as [|x a IH]; simpl; [reflexivity|now rewrite IH]. Qed.

Lemma str_app_nil_r (a : string) : a ++ "" = a.
Proof. induction a as [|x a IH]; simpl; [reflexivity|now rewrite IH]. Qed.

Lemma str_length_app (a b : string) :
  String.length (a ++ b) = (String.length a + String.length b)%nat.
Proof. induction a as [|x a IH]; simpl; [reflexivity|now rewrite IH]. Qed.

Lemma special_cases (c : ascii) :
  isSpecial c = true ->
  Ascii.eqb c "*"%char = false /\ Ascii.eqb c "?"%char = false
  /\ Ascii.eqb c "s"%char = false /\ isAlnum c = false.
Proof.
  unfold isSpecial, regexSpecials. simpl. intros H.
  repeat match type of H with
         | (Ascii.eqb ?a ?b || _)%bool = true =>
             destruct (Ascii.eqb_spec a b) as [E|_];
             [rewrite E; repeat split; reflexivity|simpl in H]
         end.
  discriminate H.
Qed.

Lemma plain_cases (c : ascii) :
  isSpecial c = false ->
  Ascii.eqb c "."%char = false /\ Ascii.eqb c "+"%char = false
  /\ Ascii.eqb c "^"%char = false /\ Ascii.eqb c "$"%char = false
  /\ Ascii.eqb c "{"%char = false /\ Ascii.eqb c "}"%char = false
  /\ Ascii.eqb c "("%char = false /\ Ascii.eqb c ")"%char = false
  /\ Ascii.eqb c "|"%char = false /\ Ascii.eqb c "["%char = false
  /\ Ascii.eqb c "]"%char = false /\ Ascii.eqb c "\"%char = false.
Proof.
  unfold isSpecial, regexSpecials. simpl. intros H.
  repeat (apply orb_false_iff in H as [? H]).
  repeat split; assumption.
Qed.

Lemma replaceEach_app (f : ascii -> option string) (a b : string) :
  replaceEach f (a ++ b) = replaceEach f a ++ replaceEach f b.
Proof.
  induction a as [|c a IH]; simpl; [reflexivity|].
  destruct (f c); rewrite IH; [|reflexivity].
  now rewrite str_app_assoc.
Qed.

Lemma image_app (a b : string) : image (a ++ b) = image a ++ image b.
Proof. unfold image. now rewrite !replaceEach_app. Qed.

Lemma image_char (c : ascii) : image (String c "") = imageChar c.
Proof.
  unfold image, imageChar. simpl replaceEach at 3.
  unfold escapeSpecial. fold (isSpecial c).
  destruct (isSpecial c) eqn:Hs.
  - destruct (special_cases c Hs) as (H1 & H2 & _).
    simpl. unfold starToAny. rewrite H1. simpl.
    unfold questionToDot. rewrite H2. reflexivity.
  - simpl. unfold starToAny. destruct (Ascii.eqb c "*"); [reflexivity|].
    simpl. unfold questionToDot. destruct (Ascii.eqb c "?"); reflexivity.
Qed.

Lemma image_cons (c : ascii) (p : string) :
  image (String c p) = imageChar c ++ image p.
Proof.
  change (String c p) with (String c "" ++ p).
  now rewrite image_app, image_char.
Qed.

Lemma image_length (p : string) :
  (String.length p <= String.length (image p))%nat.
Proof.
  induction p as [|c p IH]; [simpl; lia|].
  rewrite image_cons, str_length_app. simpl String.length.
  assert (1 <= String.length (imageChar c))%nat; [|lia].
  unfold imageChar.
  destruct (isSpecial c); [simpl; lia|].
  destruct (Ascii.eqb c "*"); [simpl; lia|].
  destruct (Ascii.eqb c "?"); simpl; lia.
Qed.

Lemma quantified_plain (cs : cset) (s : string) :
  startsQuantifier s = false -> quantified cs s = (RSet cs, s).
Proof.
  destruct s as [|q s]; [reflexivity|]. simpl. intros H.
  apply orb_false_iff in H as [H _].
  apply orb_false_iff in H as [H _].
  apply orb_false_iff in H as [H1 H2].
  now rewrite H1, H2.
Qed.

Lemma image_noquant (p tailS : string) :
  startsQuantifier tailS = false ->
  startsQuantifier (image p ++ tailS) = false.
Proof.
  intros Ht. destruct p as [|c p]; [exact Ht|].
  rewrite image_cons, str_app_assoc. unfold imageChar.
  destruct (isSpecial c) eqn:Hs; [reflexivity|].
  destruct (Ascii.eqb c "*") eqn:H1; [reflexivity|].
  destruct (Ascii.eqb c "?") eqn:H2; [reflexivity|].
  destruct (plain_cases c Hs) as (_ & Hp & _ & _ & Hb & _).
  simpl. now rewrite H1, Hp, H2, Hb.
Qed.

(** One step of the parser, spelled out. *)
Lemma parseSeq_escape (f : nat) (e : ascii) (rest : string) :
  parseSeq (S f) (String "\"%char (String e rest))
  = if Ascii.eqb e "s"%char then
      let '(t, rest') := quantified (CClass [ISpace]) rest in
      match parseSeq f rest' with
      | Some (r, rest'') => Some (RSeq t r, rest'')
      | None => None
      end
    else if isAlnum e then None
    else
      let '(t, rest') := quantified (CLit e) rest in
      match parseSeq f rest' with
      | Some (r, rest'') => Some (RSeq t r, rest'')
      | None => None
      end.
Proof. reflexivity. Qed.

Lemma parseSeq_dot (f : nat) (s' : string) :
  parseSeq (S f) (String "."%char s')
  = let '(t, rest') := quantified CAny s' in
    match parseSeq f rest' with
    | Some (r, rest'') => Some (RSeq t r, rest'')
    | None => None
    end.
Proof. reflexivity. Qed.

Lemma parseSeq_plain (f : nat) (c : ascii) (s' : string) :
  isSpecial c = false ->
  Ascii.eqb c "*"%char = false ->
  Ascii.eqb c "?"%char = false ->
  parseSeq (S f) (String c s')
  = let '(t, rest') := quantified (CLit c) s' in
    match parseSeq f rest' with
    | Some (r, rest'') => Some (RSeq t r, rest'')
    | None => None
    end.
Proof.
  intros Hs H1 H2.
  destruct (plain_cases c Hs)
    as (Hdot & Hplus & Hcaret & Hdollar & Hlb & Hrb & Hlp & Hrp & Hbar
        & Hlk & Hrk & Hbs).
  cbn [parseSeq]. rewrite Hbar, Hrp, Hcaret, Hdollar, Hlp, Hlk, Hbs, Hdot.
  cbn [orb]. unfold startsQuantifier. rewrite H1, Hplus, H2, Hlb, Hrk, Hrb.
  reflexivity.
Qed.

Lemma parseSeq_caret (f : nat) (s' : string) :
  parseSeq (S f) (String "^"%char s')
  = match parseSeq f s' with
    | Some (r, rest') => Some (RSeq RBol r, rest')
    | None => None
    end.
Proof. reflexivity. Qed.

Lemma parseSeq_group (f : nat) (s' : string) :
  parseSeq (S f) (String "("%char s')
  = match parseDisj f s' with
    | Some (g, String d rest) =>
        if Ascii.eqb d ")"%char && negb (startsQuantifier rest)
        then match parseSeq f rest with
             | Some (r, rest') => Some (RSeq g r, rest')
             | None => None
             end
        else None
    | _ => None
    end.
Proof. reflexivity. Qed.

Lemma parseDisj_S (f : nat) (s : string) :
  parseDisj (S f) s
  = match parseSeq f s with
    | Some (r, String c s') =>
        if Ascii.eqb c "|"%char then
          match parseDisj f s' with
          | Some (r2, rest) => Some (RAlt r r2, rest)
          | None => None
          end
        else Some (r, String c s')
    | other => other
    end.
Proof. reflexivity. Qed.

(** The body of a glob line is read back term by term. *)
Lemma parse_image (p : string) :
  forall (fuel : nat) (tailS : string),
    (String.length p <= fuel)%nat ->
    startsQuantifier tailS = false ->
    parseSeq fuel (image p ++ tailS)
    = match parseSeq (fuel - String.length p) tailS with
      | Some (r, rest) => Some (bodyAst p r, rest)
      | None => None
      end.
Proof.
  induction p as [|c p IH]; intros fuel tailS Hlen Ht.
  - simpl. rewrite Nat.sub_0_r.
    destruct (parseSeq fuel tailS) as [[r rest]|]; reflexivity.
  - destruct fuel as [|f]; [simpl in Hlen; lia|].
    simpl in Hlen. assert (Hf : (String.length p <= f)%nat) by lia.
    rewrite image_cons, str_app_assoc.
    pose proof (image_noquant p tailS Ht) as Hq.
    specialize (IH f tailS Hf Ht).
    change (S f - String.length (String c p))%nat
      with (f - String.length p)%nat.
    unfold imageChar. cbn [bodyAst]. unfold termOf.
    destruct (isSpecial c) eqn:Hs.
    + destruct (special_cases c Hs) as (_ & _ & H3 & H4).
      cbn [append]. rewrite parseSeq_escape, H3, H4.
      rewrite quantified_plain by exact Hq. rewrite IH.
      destruct (parseSeq (f - String.length p) tailS) as [[r rest]|];
        reflexivity.
    + destruct (Ascii.eqb c "*") eqn:H1.
      * cbn [append]. rewrite parseSeq_dot. cbn [quantified].
        simpl Ascii.eqb. cbv iota. rewrite IH.
        destruct (parseSeq (f - String.length p) tailS) as [[r rest]|];
          reflexivity.
      * destruct (Ascii.eqb c "?") eqn:H2.
        -- cbn [append]. rewrite parseSeq_dot.
           rewrite quantified_plain by exact Hq. rewrite IH.
           destruct (parseSeq (f - String.length p) tailS) as [[r rest]|];
             reflexivity.
        -- cbn [append]. rewrite parseSeq_plain by assumption.
           rewrite quantified_plain by exact Hq. rewrite IH.
           destruct (parseSeq (f - String.length p) tailS) as [[r rest]|];
             reflexivity.
Qed.

Lemma parse_group_anywhere (b : nat) (rest : string) :
  (5 <= b)%nat ->
  parseDisj b ("^|[/\\])" ++ rest) = Some (anywhereRe, ")" ++ rest).
Proof.
  intros H. do 5 (destruct b as [|b]; [lia|]). reflexivity.
Qed.

Lemma parse_tail_dir (m : nat) :
  (8 <= m)%nat ->
  parseSeq m "([/\\]|$)" = Some (RSeq endRe REmpty, "").
Proof.
  intros H. do 8 (destruct m as [|m]; [lia|]). reflexivity.
Qed.

Lemma parse_tail_none (m : nat) :
  (1 <= m)%nat -> parseSeq m "" = Some (REmpty, "").
Proof. intros H. destruct m; [lia|reflexivity]. Qed.

Lemma compile_unanchored (P tailS : string) (tail : regex) :
  startsQuantifier tailS = false ->
  (forall m, (String.length tailS + 1 <= m)%nat ->
             parseSeq m tailS = Some (tail, "")) ->
  RegExp ("(^|[/\\])" ++ image P ++ tailS)
  = Some (RSeq anywhereRe (bodyAst P tail)).
Proof.
  intros Hq Htail. unfold RegExp.
  set (rest := image P ++ tailS).
  assert (Hlen : (String.length P <= String.length rest)%nat).
  { unfold rest. rewrite str_length_app. pose proof (image_length P). lia. }
  change ("(^|[/\\])" ++ rest) with (String "("%char ("^|[/\\])" ++ rest)).
  set (s' := "^|[/\\])" ++ rest).
  assert (Hs' : String.length s' = (8 + String.length rest)%nat)
    by (unfold s'; rewrite str_length_app; reflexivity).
  replace (2 * String.length (String "("%char s') + 2)%nat
    with (S (S (2 * String.length (String "("%char s'))))%nat by lia.
  set (b := (2 * String.length (String "("%char s'))%nat).
  assert (Hb : (b = 18 + 2 * String.length rest)%nat)
    by (unfold b; simpl String.length; lia).
  rewrite parseDisj_S, parseSeq_group.
  unfold s'. rewrite parse_group_anywhere by lia.
  change (")" ++ rest) with (String ")"%char rest).
  cbv iota. change (Ascii.eqb ")" ")") with true. cbn [andb].
  unfold rest at 1. rewrite image_noquant by exact Hq. cbn [negb].
  unfold rest. rewrite parse_image by (try exact Hq; fold rest; lia).
  rewrite Htail; [reflexivity|].
  fold rest. unfold rest in *. rewrite str_length_app in *. lia.
Qed.

Lemma compile_anchored (P tailS : string) (tail : regex) :
  startsQuantifier tailS = false ->
  (forall m, (String.length tailS + 1 <= m)%nat ->
             parseSeq m tailS = Some (tail, "")) ->
  RegExp ("^" ++ image P ++ tailS) = Some (RSeq RBol (bodyAst P tail)).
Proof.
  intros Hq Htail. unfold RegExp.
  set (rest := image P ++ tailS).
  assert (Hlen : (String.length P <= String.length rest)%nat).
  { unfold rest. rewrite str_length_app. pose proof (image_length P). lia. }
  change ("^" ++ rest) with (String "^"%char rest).
  replace (2 * String.length (String "^"%char rest) + 2)%nat
    with (S (S (2 * String.length rest + 2)))%nat
    by (simpl String.length; lia).
  rewrite parseDisj_S, parseSeq_caret.
  unfold rest. rewrite parse_image by (try exact Hq; fold rest; lia).
  rewrite Htail; [reflexivity|].
  fold rest. unfold rest in *. rewrite str_length_app in *. lia.
Qed.

Lemma endsWith_app_slash (name : string) :
  endsWithChar (name ++ "/") "/"%char = true
  /\ dropLast (name ++ "/") = name.
Proof.
  unfold endsWithChar.
  induction name as [|c name [IH1 IH2]]; [split; reflexivity|].
  simpl. destruct (name ++ "/") eqn:E.
  - destruct name; discriminate E.
  - rewrite IH2. split; [exact IH1|reflexivity].
Qed.

(** The expression behind every glob line. *)
Lemma globToRegex_shape (pattern0 : string) :
  globToRegex pattern0 = Some (globAst pattern0).
Proof.
  unfold globToRegex, globToRegexSource, globAst.
  set (dir := endsWithChar pattern0 "/").
  set (P := if dir then dropLast pattern0 else pattern0).
  fold (image P).
  assert (Htail : forall d : bool,
             startsQuantifier (if d then "([/\\]|$)" else "") = false
             /\ (forall m,
                    (String.length (if d then "([/\\]|$)" else "") + 1
                     <= m)%nat ->
                    parseSeq m (if d then "([/\\]|$)" else "")
                    = Some (if d then RSeq endRe REmpty else REmpty, ""))).
  { intros [|]; split; try reflexivity; intros m Hm; simpl in Hm.
    - apply parse_tail_dir. lia.
    - apply parse_tail_none. lia. }
  destruct (Htail dir) as (Hq & Hp).
  assert (Hsrc : forall pre body : string,
             (if dir then (pre ++ body) ++ "([/\\]|$)" else pre ++ body)
             = pre ++ body ++ (if dir then "([/\\]|$)" else "")).
  { intros pre body. destruct dir; [apply str_app_assoc|].
    now rewrite str_app_nil_r. }
  destruct (startsWith P "/") eqn:Hstart; cbn [negb]; cbv iota.
  - destruct P as [|c P']; [discriminate Hstart|].
    unfold startsWith in Hstart. cbn [String.prefix] in Hstart.
    destruct (ascii_dec "/"%char c) as [<-|]; [|discriminate Hstart].
    rewrite image_cons. change (imageChar "/") with "/".
    change (sliceFrom 1 ("/" ++ image P')) with (image P').
    change (sliceFrom 1 (String "/"%char P')) with P'.
    rewrite Hsrc. now apply compile_anchored.
  - rewrite Hsrc. now apply compile_unanchored.
Qed.

Lemma compileAll_shape (ps : list string) :
  compileAll ps = Some (map globAst ps).
Proof.
  induction ps as [|p ps IH]; [reflexivity|].
  simpl. now rewrite globToRegex_shape, IH.
Qed.

(** X20: every glob line compiles, whatever characters it holds: an
    ignore file yields one pattern for each line that is neither blank
    nor a comment, no line can void the others, and the list handed to
    the watcher has two entries more than the two files have pattern
    lines. *)
Theorem X20_every_glob_line_compiles :
  (forall pattern : string, exists r, globToRegex pattern = Some r)
  /\ (forall content : string,
         length (parseIgnoreFile (Some content))
         = length (patternLines content))
  /\ (forall tponignore gitignore : string,
         length (loadIgnorePatterns (Some tponignore) (Some gitignore))
         = (length (patternLines tponignore)
            + length (patternLines gitignore) + 2)%nat).
Proof.
  assert (Hfile : forall content,
             length (parseIgnoreFile (Some content))
             = length (patternLines content)).
  { intros content. unfold parseIgnoreFile. fold (patternLines content).
    rewrite compileAll_shape. apply length_map. }
  split; [intros p; eexists; apply globToRegex_shape|].
  split; [exact Hfile|].
  intros t g. unfold loadIgnorePatterns. cbn [app].
  rewrite !length_app, !Hfile. simpl. lia.
Qed.

End GlobCompiles.

(* ------------------------------------------------------------------ *)
(** ** What the compiled patterns match *)

Section GlobMatches.

Import Ignore.

Lemma termOf_literal (c : ascii) :
  Ascii.eqb c "*"%char = false -> Ascii.eqb c "?"%char = false ->
  termOf c = RSet (CLit c).
Proof.
  intros H1 H2. unfold termOf. rewrite H1, H2. now destruct (isSpecial c).
Qed.

Lemma class_isSep (c : ascii) :
  cset_mem (CClass [IChar "/"%char; IChar "\"%char]) c = isSep c.
Proof. unfold isSep. simpl. now rewrite orb_false_r. Qed.

Lemma tail_match (dir b : bool) (s : string) :
  found (matchK (tailAst dir) b s (fun _ rest => Some rest)) = tailOk dir s.
Proof.
  destruct dir; [|reflexivity].
  unfold found, tailAst, endRe, tailOk, openRight.
  destruct s as [|c s]; [reflexivity|].
  cbn [matchK]. rewrite class_isSep. now destruct (isSep c).
Qed.

Lemma body_match (name : string) :
  noWildcard name = true ->
  forall (dir b : bool) (s : string),
    found (matchK (bodyAst name (tailAst dir)) b s (fun _ rest => Some rest))
    = literalAt name dir s.
Proof.
  induction name as [|c name IH]; intros Hn dir b s.
  - apply tail_match.
  - simpl in Hn. apply andb_true_iff in Hn as [Hc Hn].
    apply andb_true_iff in Hc as [H1 H2].
    apply negb_true_iff in H1, H2.
    cbn [bodyAst]. rewrite (termOf_literal c H1 H2).
    cbn [matchK]. unfold literalAt. cbn [stripPrefix].
    destruct s as [|d s]; [reflexivity|].
    cbn [cset_mem]. destruct (Ascii.eqb d c); [|reflexivity].
    apply (IH Hn).
Qed.

Lemma anywhere_match (name : string) (dir b : bool) (s : string) :
  noWildcard name = true ->
  found (matchAt (RSeq anywhereRe (bodyAst name (tailAst dir))) b s)
  = (b && literalAt name dir s
     || match s with
        | EmptyString => false
        | String c s' => isSep c && literalAt name dir s'
        end)%bool.
Proof.
  intros Hn. unfold matchAt, anywhereRe. cbn [matchK].
  assert (Hfirst :
            found (if b
                   then matchK (bodyAst name (tailAst dir)) b s
                          (fun _ rest => Some rest)
                   else None) = (b && literalAt name dir s)%bool).
  { destruct b; [|reflexivity]. cbn [andb]. now apply body_match. }
  destruct (if b
            then matchK (bodyAst name (tailAst dir)) b s
                   (fun _ rest => Some rest)
            else None) as [x|].
  - now rewrite <- Hfirst.
  - rewrite <- Hfirst. cbn [orb found].
    destruct s as [|c s]; [reflexivity|].
    rewrite class_isSep. destruct (isSep c); [|reflexivity].
    cbn [andb]. now apply body_match.
Qed.

Lemma searchFrom_unfold (r : regex) (b : bool) (s : string) :
  searchFrom r b s
  = (found (matchAt r b s)
     || match s with
        | EmptyString => false
        | String _ s' => searchFrom r false s'
        end)%bool.
Proof. unfold found. destruct s; simpl; now destruct (matchAt r b _). Qed.

Lemma stripPrefix_spec (name : string) :
  forall s rest : string,
    stripPrefix name s = Some rest <-> s = name ++ rest.
Proof.
  induction name as [|c name IH]; intros s rest; simpl.
  - split; [now intros [= ->]|now intros ->].
  - destruct s as [|d s]; [split; discriminate|].
    destruct (Ascii.eqb_spec d c) as [->|Hne].
    + rewrite IH. split; [now intros ->|now intros [= ->]].
    + split; [discriminate|]. intros [= E _]. contradiction.
Qed.

Lemma literalAt_spec (name : string) (dir : bool) (s : string) :
  literalAt name dir s = true
  <-> exists post : string, s = name ++ post /\ tailOk dir post = true.
Proof.
  unfold literalAt. split.
  - destruct (stripPrefix name s) as [rest|] eqn:E; [|discriminate].
    intros H. exists rest. split; [now apply stripPrefix_spec|exact H].
  - intros (post & Hs & Hp). apply stripPrefix_spec in Hs.
    now rewrite Hs.
Qed.

Lemma openLeftFrom_cons (b : bool) (c : ascii) (pre : string) :
  openLeftFrom b (String c pre)
  = match pre with
    | EmptyString => isSep c
    | _ => openLeftFrom false pre
    end.
Proof.
  unfold openLeftFrom. destruct pre as [|d pre]; [reflexivity|].
  change (lastChar (String c (String d pre)))
    with (lastChar (String d pre)).
  destruct (lastChar (String d pre)) eqn:E; [reflexivity|].
  exfalso. clear -E. revert d E.
  induction pre as [|e pre IH]; intros d E; [discriminate|].
  apply (IH e). exact E.
Qed.

(** A glob line without wildcards, not rooted: where it matches. *)
Lemma search_literal (name : string) (dir : bool) :
  noWildcard name = true ->
  forall (s : string) (b : bool),
    searchFrom (RSeq anywhereRe (bodyAst name (tailAst dir))) b s = true
    <-> exists pre post : string,
          s = pre ++ name ++ post
          /\ openLeftFrom b pre = true /\ tailOk dir post = true.
Proof.
  intros Hn s. induction s as [|c s IH]; intros b;
    rewrite searchFrom_unfold, (anywhere_match name dir b _ Hn).
  - rewrite !orb_false_r. split.
    + intros H. apply andb_true_iff in H as [-> H].
      apply literalAt_spec in H as (post & Hs & Hp).
      exists "", post. repeat split; assumption.
    + intros (pre & post & Hs & Hl & Hp).
      destruct pre as [|d pre]; [|discriminate Hs].
      unfold openLeftFrom in Hl. simpl in Hl. subst b.
      cbn [andb]. apply literalAt_spec. exists post. split; assumption.
  - split.
    + intros H. apply orb_true_iff in H as [H|H];
        [apply orb_true_iff in H as [H|H]|].
      * apply andb_true_iff in H as [-> H].
        apply literalAt_spec in H as (post & Hs & Hp).
        exists "", post. repeat split; assumption.
      * apply andb_true_iff in H as [Hc H].
        apply literalAt_spec in H as (post & Hs & Hp).
        exists (String c ""), post. rewrite Hs.
        repeat split; assumption.
      * apply IH in H as (pre & post & Hs & Hl & Hp).
        exists (String c pre), post. rewrite Hs.
        split; [reflexivity|]. split; [|exact Hp].
        rewrite openLeftFrom_cons. destruct pre; [discriminate Hl|exact Hl].
    + intros (pre & post & Hs & Hl & Hp).
      destruct pre as [|d pre].
      * unfold openLeftFrom in Hl. simpl in Hl. subst b.
        cbn [andb]. apply orb_true_iff. left. apply orb_true_iff. left.
        apply literalAt_spec. exists post. split; assumption.
      * injection Hs as <- Hs. rewrite openLeftFrom_cons in Hl.
        destruct pre as [|e pre].
        -- apply orb_true_iff. left. apply orb_true_iff. right.
           rewrite Hl. cbn [andb]. apply literalAt_spec.
           exists post. split; assumption.
        -- apply orb_true_iff. right. apply IH.
           exists (String e pre), post. repeat split; assumption.
Qed.

Lemma search_rooted_later (r : regex) (s : string) :
  searchFrom (RSeq RBol r) false s = false.
Proof. induction s as [|c s IH]; [reflexivity|exact IH]. Qed.

Lemma builtins_spec (path : string) :
  isIgnored builtinPatterns path = true
  <-> exists pre post : string,
        path = pre ++ "_timepon.yaml" ++ post /\ openLeft pre = true.
Proof.
  assert (Hone : forall path,
             test (regexLiteral "(^|[\/\\])_timepon\.yaml") path = true
             <-> exists pre post : string,
                   path = pre ++ "_timepon.yaml" ++ post
                   /\ openLeft pre = true).
  { intros q.
    change (regexLiteral "(^|[\/\\])_timepon\.yaml")
      with (RSeq anywhereRe (bodyAst "_timepon.yaml" (tailAst false))).
    unfold test. rewrite (search_literal "_timepon.yaml" false eq_refl).
    unfold openLeft.
    split; intros (pre & post & Hs & Hl); exists pre, post; tauto. }
  assert (Htwo : forall path,
             test (regexLiteral "(^|[\/\\])_timepon\.yaml\.backup\.") path
             = true ->
             test (regexLiteral "(^|[\/\\])_timepon\.yaml") path = true).
  { intros q.
    change (regexLiteral "(^|[\/\\])_timepon\.yaml\.backup\.")
      with (RSeq anywhereRe
              (bodyAst "_timepon.yaml.backup." (tailAst false))).
    unfold test at 1.
    rewrite (search_literal "_timepon.yaml.backup." false eq_refl).
    intros (pre & post & Hs & Hl & _). apply Hone.
    exists pre, (".backup." ++ post). split; [exact Hs|exact Hl]. }
  unfold isIgnored, builtinPatterns. cbn [existsb].
  rewrite orb_false_r. rewrite <- Hone. split.
  - intros H. apply orb_true_iff in H as [H|H]; [exact H|now apply Htwo].
  - intros H. now rewrite H.
Qed.

Lemma builtins_kept (tponignore gitignore : option string) (path : string) :
  isIgnored builtinPatterns path = true ->
  isIgnored (loadIgnorePatterns tponignore gitignore) path = true.
Proof.
  intros H. unfold isIgnored, loadIgnorePatterns.
  cbn [app]. rewrite !existsb_app. apply orb_true_iff. now right.
Qed.

(** X21: the two patterns that are always pushed ignore exactly the
    paths that hold the text [_timepon.yaml] at their start or right
    after a separator, whatever follows it; the rule for the backups
    adds nothing to the rule for the index file.  Whatever the two
    ignore files contain, these paths stay ignored. *)
Theorem X21_index_file_always_ignored :
  (forall path : string,
      isIgnored builtinPatterns path = true
      <-> exists pre post : string,
            path = pre ++ "_timepon.yaml" ++ post /\ openLeft pre = true)
  /\ (forall (tponignore gitignore : option string) (pre post : string),
         openLeft pre = true ->
         isIgnored (loadIgnorePatterns tponignore gitignore)
           (pre ++ "_timepon.yaml" ++ post) = true).
Proof.
  split; [exact builtins_spec|].
  intros t g pre post Hl. apply builtins_kept, builtins_spec.
  exists pre, post. split; [reflexivity|exact Hl].
Qed.

(** The first backup of the index document of the workspace [/w]. *)
Lemma X21_witness :
  isIgnored (loadIgnorePatterns None None)
    ("/w/" ++ "_timepon.yaml" ++ ".backup.1793629325123") = true.
Proof.
  apply (proj2 X21_index_file_always_ignored None None "/w/"
               ".backup.1793629325123").
  reflexivity.
Defined.

(** X22: a glob line without [*] and [?] that is not rooted matches a
    path exactly where its text occurs at the start of the path or right
    after a separator; nothing is asked of what follows, so the line
    [node] also matches [/w/node_modules].  With a trailing slash the
    text must in addition be followed by a separator or end the path. *)
Theorem X22_literal_glob_matches (name : string) :
  noWildcard name = true ->
  startsWith name "/" = false ->
  endsWithChar name "/"%char = false ->
  forall path : string,
    (globMatches name path = true
     <-> exists pre post : string,
           path = pre ++ name ++ post /\ openLeft pre = true)
    /\ (globMatches (name ++ "/") path = true
        <-> exists pre post : string,
              path = pre ++ name ++ post
              /\ openLeft pre = true /\ openRight post = true).
Proof.
  intros Hn Hroot Hdir path. unfold globMatches.
  rewrite !globToRegex_shape. unfold globAst.
  destruct (endsWith_app_slash name) as [-> ->].
  rewrite Hdir, Hroot. cbn [negb]. cbv iota.
  change (RSeq endRe REmpty) with (tailAst true).
  change (bodyAst name REmpty) with (bodyAst name (tailAst false)).
  unfold test.
  rewrite !(search_literal name _ Hn). unfold openLeft, tailOk.
  split; [|reflexivity].
  split; intros (pre & post & Hs & Hl); exists pre, post; tauto.
Qed.

(** The line [node] ignores [/w/node_modules/x.js] and the line [dist/]
    ignores [/w/dist/a.js] but not [/w/distance.txt]. *)
Lemma X22_witness :
  globMatches "node" "/w/node_modules/x.js" = true
  /\ globMatches "dist/" "/w/dist/a.js" = true
  /\ globMatches "dist/" "/w/distance.txt" = false.
Proof.
  split; [|split].
  - apply (proj1 (X22_literal_glob_matches "node" eq_refl eq_refl eq_refl
                    "/w/node_modules/x.js")).
    exists "/w/", "_modules/x.js". split; reflexivity.
  - apply (proj2 (X22_literal_glob_matches "dist" eq_refl eq_refl eq_refl
                    "/w/dist/a.js")).
    exists "/w/", "/a.js". repeat split; reflexivity.
  - reflexivity.
Defined.

(** X23: a rooted glob line (a leading slash followed by a character
    other than a slash or a wildcard) never matches a path that starts
    with a slash: the expression is anchored at the start of the text
    and the leading slash of the line is cut off, while the watcher
    reports absolute paths. *)
Theorem X23_rooted_glob_misses_absolute_paths
        (c : ascii) (rest path : string) :
  Ascii.eqb c "/"%char = false ->
  Ascii.eqb c "*"%char = false ->
  Ascii.eqb c "?"%char = false ->
  globMatches (String "/"%char (String c rest)) (String "/"%char path)
  = false.
Proof.
  intros Hslash Hstar Hq. unfold globMatches.
  rewrite globToRegex_shape. unfold globAst.
  set (dir := endsWithChar (String "/"%char (String c rest)) "/"%char).
  assert (HP : exists rest',
             (if dir then dropLast (String "/"%char (String c rest))
              else String "/"%char (String c rest))
             = String "/"%char (String c rest')).
  { destruct dir eqn:E; [|now exists rest].
    destruct rest as [|d rest].
    - unfold dir, endsWithChar in E. cbn [lastChar] in E.
      rewrite Ascii.eqb_sym, Hslash in E. discriminate E.
    - exists (dropLast (String d rest)). reflexivity. }
  destruct HP as (rest' & ->).
  change (startsWith (String "/"%char (String c rest')) "/") with true.
  cbn [negb]. cbv iota.
  change (sliceFrom 1 (String "/"%char (String c rest')))
    with (String c rest').
  cbn [bodyAst]. rewrite (termOf_literal c Hstar Hq).
  unfold test. rewrite searchFrom_unfold, search_rooted_later.
  unfold found, matchAt. cbn [matchK cset_mem].
  rewrite Ascii.eqb_sym, Hslash. reflexivity.
Qed.

(** The line [/build] does not ignore [/build/out.js]. *)
Lemma X23_witness : globMatches "/build" "/build/out.js" = false.
Proof.
  apply (X23_rooted_glob_misses_absolute_paths "b" "uild" "build/out.js");
    reflexivity.
Defined.

End GlobMatches.

(* ------------------------------------------------------------------ *)
(** ** The watcher's filter and the index *)

Section WatcherFilter.

Import Ignore.

Lemma watch_keeps_untracked (ignored : list regex) (p : string) :
  isIgnored ignored p = true ->
  forall (evs : list WatcherEvent) (s : Watching),
    get p (files (server s)) = None ->
    ~ In p (waiting s) ->
    get p (files (server (watch ignored evs s))) = None.
Proof.
  intros Hp evs. induction evs as [|ev evs IH]; intros s Hst Hw; [exact Hst|].
  rewrite watch_cons.
  destruct ev as [q|w q|w]; unfold deliver.
  - destruct (isIgnored ignored q) eqn:Hq; [now apply IH|].
    destruct (get q (files (server s))); [now apply IH|].
    apply IH; [exact Hst|]. simpl. intros Hin.
    apply in_app_or in Hin as [Hin|[->|[]]]; [now apply Hw|].
    rewrite Hp in Hq. discriminate Hq.
  - destruct (includes (waiting s) q) eqn:Hq; [|now apply IH].
    apply includes_In in Hq.
    assert (Hne : q <> p) by (intros ->; now apply Hw).
    apply IH; simpl.
    + rewrite files_completeCreation.
      destruct (stat w q); [|exact Hst].
      now rewrite get_set_other.
    + intros Hin. apply Hw. eapply In_removeOne; eauto.
  - apply IH; [|exact Hw]. simpl. unfold handleReady.
    now rewrite files_saveMetadata.
Qed.

(** X24: a path that the ignore patterns match is never added to the
    index by the watcher's events, whatever the events are, however the
    handlers interleave and whatever the file system answers; in
    particular, with the patterns that [loadIgnorePatterns] returns for
    any two ignore files, the server never tracks a [_timepon.yaml]
    document or one of its backups. *)
Theorem X24_ignored_paths_stay_untracked :
  forall (ignored : list regex) (evs : list WatcherEvent) (s : Watching)
         (p : string),
    get p (files (server s)) = None ->
    ~ In p (waiting s) ->
    (isIgnored ignored p = true ->
     get p (files (server (watch ignored evs s))) = None)
    /\ (forall (tponignore gitignore : option string) (pre post : string),
           p = pre ++ "_timepon.yaml" ++ post ->
           openLeft pre = true ->
           get p (files (server (watch (loadIgnorePatterns tponignore gitignore)
                                   evs s))) = None).
Proof.
  intros ignored evs s p Hst Hw. split.
  - intros Hp. now apply watch_keeps_untracked.
  - intros t g pre post Hs Hl. apply watch_keeps_untracked; [|exact Hst|exact Hw].
    apply builtins_kept, builtins_spec. now exists pre, post.
Qed.

(** An [add] event for the index document of the workspace [/w], on a
    disk where every path is a readable text file, leaves it untracked. *)
Lemma X24_witness :
  get "/w/_timepon.yaml"
    (files (server (watch (loadIgnorePatterns None None)
                      [EvAdd "/w/_timepon.yaml";
                       EvSettle MoreSamples.textOnlyWorld "/w/_timepon.yaml";
                       EvReady MoreSamples.textOnlyWorld]
                      (watching (newServer "/w"))))) = None.
Proof.
  apply (proj2 (X24_ignored_paths_stay_untracked
                  (loadIgnorePatterns None None)
                  [EvAdd "/w/_timepon.yaml";
                   EvSettle MoreSamples.textOnlyWorld "/w/_timepon.yaml";
                   EvReady MoreSamples.textOnlyWorld]
                  (watching (newServer "/w")) "/w/_timepon.yaml" eq_refl
                  ltac:(simpl; lia))
               None None "/w/" "");
    reflexivity.
Defined.

End WatcherFilter.
